(** * TMC2660 stepper driver subsystem (RepRapFirmware)

    A shallow embedding of [src/Movement/StepperDrivers/TMC2660.cpp]:
    the per-driver shadow registers and run-time state ([TmcDriverState]),
    the interrupt-driven bus scheduler ([StartTransfer], [TransferDone],
    [TMC2660_SPI_Handler]) and the driver-indexed facade (namespace
    [SmartDrivers]).

    Conventions.
    - A [uint32_t] is a [Z]; wrap-around is written out with [u32].
    - The five-element array [registers] is the record [RegisterFile],
      read and written by index with [reg] and [set_reg].
    - The static array [driverStates] is a [list TmcDriverState], read with
      [!!] and written with [<[i:=d]>].
    - Pin levels live in a finite map from pin number to level
      ([true] = high). *)

From Stdlib Require Import ZArith Lia Bool.
From stdpp Require Import base option list gmap relations.

Local Open Scope Z_scope.

(** ** 32-bit words *)

Module Word.

Definition mask32 : Z := 0xFFFFFFFF.

(** Truncation to [uint32_t]. *)
Definition u32 (x : Z) : Z := Z.land x mask32.

(** [~x] on a [uint32_t]. *)
Definition not32 (x : Z) : Z := u32 (Z.lnot x).

(** [x << n] on a [uint32_t]. *)
Definition shl32 (x n : Z) : Z := u32 (Z.shiftl x n).

(** [x - y] on a [uint32_t]. *)
Definition sub32 (x y : Z) : Z := u32 (x - y).

(** Byte reversal of a 32-bit word: [cpu_to_be32] and [be32_to_cpu] on the
    little-endian target. *)
Definition bswap32 (x : Z) : Z :=
  Z.lor (Z.lor (Z.shiftl (Z.land x 0xFF) 24)
               (Z.shiftl (Z.land (Z.shiftr x 8) 0xFF) 16))
        (Z.lor (Z.shiftl (Z.land (Z.shiftr x 16) 0xFF) 8)
               (Z.land (Z.shiftr x 24) 0xFF)).

Definition cpu_to_be32 : Z -> Z := bswap32.
Definition be32_to_cpu : Z -> Z := bswap32.

(** [constrain<int>(x, lo, hi)]. *)
Definition constrain (x lo hi : Z) : Z :=
  if x <? lo then lo else if hi <? x then hi else x.

End Word.
Import Word.

(** ** Constants of the source file *)

Definition DefaultMicrosteppingShift : Z := 4.
Definition DefaultInterpolation : bool := true.
Definition DefaultStallDetectThreshold : Z := 1.
Definition DefaultStallDetectFiltered : bool := false.
Definition DefaultMinimumStepsPerSecond : Z := 200.
Definition DefaultStallGuardThreshold : Z := 1.

Definition TMC_REG_DRVCTRL : Z := 0.
Definition TMC_REG_CHOPCONF : Z := 0x80000.
Definition TMC_REG_SMARTEN : Z := 0xA0000.
Definition TMC_REG_SGCSCONF : Z := 0xC0000.
Definition TMC_REG_DRVCONF : Z := 0xE0000.
Definition TMC_DATA_MASK : Z := 0x0001FFFF.

Definition TMC_DRVCONF_RDSEL_1 : Z := Z.shiftl 1 4.
Definition TMC_DRVCONF_VSENSE : Z := Z.shiftl 1 6.
Definition TMC_DRVCONF_TS2G_0P8 : Z := Z.shiftl 3 8.

Definition TMC_CHOPCONF_TOFF_MASK : Z := 15.
Definition TMC_CHOPCONF_TOFF_SHIFT : Z := 0.
Definition TMC_CHOPCONF_TOFF (n : Z) : Z := Z.shiftl (Z.land (u32 n) 15) 0.
Definition TMC_CHOPCONF_HSTRT (n : Z) : Z := Z.shiftl (Z.land (u32 n) 7) 4.
Definition TMC_CHOPCONF_HEND (n : Z) : Z := Z.shiftl (Z.land (u32 n) 15) 7.
Definition TMC_CHOPCONF_HDEC (n : Z) : Z := Z.shiftl (Z.land (u32 n) 3) 11.
Definition TMC_CHOPCONF_RNDTF : Z := Z.shiftl 1 13.
Definition TMC_CHOPCONF_CHM : Z := Z.shiftl 1 14.
Definition TMC_CHOPCONF_TBL_MASK : Z := Z.shiftl 3 15.
Definition TMC_CHOPCONF_TBL_SHIFT : Z := 15.
Definition TMC_CHOPCONF_TBL (n : Z) : Z := Z.shiftl (Z.land (u32 n) 3) 15.

Definition TMC_DRVCTRL_MRES_MASK : Z := 0x0F.
Definition TMC_DRVCTRL_MRES_SHIFT : Z := 0.
Definition TMC_DRVCTRL_MRES_16 : Z := 0x04.
Definition TMC_DRVCTRL_INTPOL : Z := Z.shiftl 1 9.

Definition TMC_SGCSCONF_CS_MASK : Z := 31.
Definition TMC_SGCSCONF_CS (n : Z) : Z := Z.shiftl (Z.land (u32 n) 31) 0.
Definition TMC_SGCSCONF_SGT_MASK : Z := Z.shiftl 127 8.
Definition TMC_SGCSCONF_SGT_SHIFT : Z := 8.
Definition TMC_SGCSCONF_SGT (n : Z) : Z := Z.shiftl (Z.land (u32 n) 127) 8.
Definition TMC_SGCSCONF_SGT_SFILT : Z := Z.shiftl 1 16.

Definition NumRegisters : nat := 5.

Definition defaultChopConfReg : Z :=
  Z.lor (Z.lor (Z.lor (Z.lor (Z.lor TMC_REG_CHOPCONF (TMC_CHOPCONF_TBL 2))
                                    (TMC_CHOPCONF_HDEC 0))
                             (TMC_CHOPCONF_HEND 3))
                      (TMC_CHOPCONF_HSTRT 3))
        (TMC_CHOPCONF_TOFF 4).

Definition defaultSgscConfReg : Z :=
  Z.lor TMC_REG_SGCSCONF (TMC_SGCSCONF_SGT DefaultStallGuardThreshold).

Definition defaultDrvConfReg : Z :=
  Z.lor (Z.lor (Z.lor (Z.lor TMC_REG_DRVCONF TMC_DRVCONF_RDSEL_1)
                      TMC_DRVCONF_VSENSE)
               TMC_DRVCONF_TS2G_0P8)
        0.

Definition defaultDrvCtrlReg : Z :=
  Z.lor (Z.lor TMC_REG_DRVCTRL TMC_DRVCTRL_MRES_16) TMC_DRVCTRL_INTPOL.

Definition defaultSmartEnReg : Z := Z.lor TMC_REG_SMARTEN 0.

(** Register numbers, in priority order. *)
Definition DriveControl : nat := 0.
Definition StallGuardConfig : nat := 1.
Definition ChopperControl : nat := 2.
Definition DriveConfig : nat := 3.
Definition SmartEnable : nat := 4.

Definition UpdateAllRegisters : Z := sub32 (shl32 1 (Z.of_nat NumRegisters)) 1.

(** Modelled from the spec: the read-response bits [TMC_RR_*] are declared
    in the header [TMC2660.h], which is not part of the sources at hand.
    The specification gives the readback layout SG[0], OT[1], OTPW[2],
    S2G[3], OLA[5], OLB[6], STST[7], LOAD[19:10]. *)
Definition TMC_RR_SG : Z := Z.shiftl 1 0.
Definition TMC_RR_OT : Z := Z.shiftl 1 1.
Definition TMC_RR_OTPW : Z := Z.shiftl 1 2.
Definition TMC_RR_S2G : Z := Z.shiftl 1 3.
Definition TMC_RR_OLA : Z := Z.shiftl 1 5.
Definition TMC_RR_OLB : Z := Z.shiftl 1 6.
Definition TMC_RR_STST : Z := Z.shiftl 1 7.
Definition TMC_RR_SG_LOAD_SHIFT : Z := 10.

(** The mask applied by both status readers. *)
Definition TMC_RR_REPORTED : Z :=
  Z.lor (Z.lor (Z.lor (Z.lor (Z.lor (Z.lor TMC_RR_SG TMC_RR_OT) TMC_RR_OTPW)
                                    TMC_RR_S2G)
                             TMC_RR_OLA)
                      TMC_RR_OLB)
        TMC_RR_STST.

(** ** The register array *)

Record RegisterFile := mkRegisterFile {
  reg0 : Z; reg1 : Z; reg2 : Z; reg3 : Z; reg4 : Z
}.

(** [registers[i]]; the source never indexes past [NumRegisters - 1]. *)
Definition reg (rf : RegisterFile) (i : nat) : Z :=
  match i with
  | 0%nat => reg0 rf
  | 1%nat => reg1 rf
  | 2%nat => reg2 rf
  | 3%nat => reg3 rf
  | 4%nat => reg4 rf
  | _ => 0
  end.

(** [registers[i] = v]. *)
Definition set_reg (i : nat) (v : Z) (rf : RegisterFile) : RegisterFile :=
  match i with
  | 0%nat => mkRegisterFile v (reg1 rf) (reg2 rf) (reg3 rf) (reg4 rf)
  | 1%nat => mkRegisterFile (reg0 rf) v (reg2 rf) (reg3 rf) (reg4 rf)
  | 2%nat => mkRegisterFile (reg0 rf) (reg1 rf) v (reg3 rf) (reg4 rf)
  | 3%nat => mkRegisterFile (reg0 rf) (reg1 rf) (reg2 rf) v (reg4 rf)
  | 4%nat => mkRegisterFile (reg0 rf) (reg1 rf) (reg2 rf) (reg3 rf) v
  | _ => rf
  end.

(** ** Per-driver state *)

Record TmcDriverState := mkDriver {
  registers : RegisterFile;
  pin : Z;
  configuredChopConfReg : Z;
  registersToUpdate : Z;
  axisNumber : Z;
  microstepShiftFactor : Z;
  maxStallStepInterval : Z;
  minSgLoadRegister : Z;
  maxSgLoadRegister : Z;
  lastReadStatus : Z;
  accumulatedStatus : Z;
  enabled : bool
}.

Definition with_registers (v : RegisterFile) (d : TmcDriverState) :=
  mkDriver v (pin d) (configuredChopConfReg d) (registersToUpdate d)
    (axisNumber d) (microstepShiftFactor d) (maxStallStepInterval d)
    (minSgLoadRegister d) (maxSgLoadRegister d) (lastReadStatus d)
    (accumulatedStatus d) (enabled d).

Definition with_pin (v : Z) (d : TmcDriverState) :=
  mkDriver (registers d) v (configuredChopConfReg d) (registersToUpdate d)
    (axisNumber d) (microstepShiftFactor d) (maxStallStepInterval d)
    (minSgLoadRegister d) (maxSgLoadRegister d) (lastReadStatus d)
    (accumulatedStatus d) (enabled d).

Definition with_configuredChopConfReg (v : Z) (d : TmcDriverState) :=
  mkDriver (registers d) (pin d) v (registersToUpdate d)
    (axisNumber d) (microstepShiftFactor d) (maxStallStepInterval d)
    (minSgLoadRegister d) (maxSgLoadRegister d) (lastReadStatus d)
    (accumulatedStatus d) (enabled d).

Definition with_registersToUpdate (v : Z) (d : TmcDriverState) :=
  mkDriver (registers d) (pin d) (configuredChopConfReg d) v
    (axisNumber d) (microstepShiftFactor d) (maxStallStepInterval d)
    (minSgLoadRegister d) (maxSgLoadRegister d) (lastReadStatus d)
    (accumulatedStatus d) (enabled d).

Definition with_axisNumber (v : Z) (d : TmcDriverState) :=
  mkDriver (registers d) (pin d) (configuredChopConfReg d) (registersToUpdate d)
    v (microstepShiftFactor d) (maxStallStepInterval d)
    (minSgLoadRegister d) (maxSgLoadRegister d) (lastReadStatus d)
    (accumulatedStatus d) (enabled d).

Definition with_microstepShiftFactor (v : Z) (d : TmcDriverState) :=
  mkDriver (registers d) (pin d) (configuredChopConfReg d) (registersToUpdate d)
    (axisNumber d) v (maxStallStepInterval d)
    (minSgLoadRegister d) (maxSgLoadRegister d) (lastReadStatus d)
    (accumulatedStatus d) (enabled d).

Definition with_maxStallStepInterval (v : Z) (d : TmcDriverState) :=
  mkDriver (registers d) (pin d) (configuredChopConfReg d) (registersToUpdate d)
    (axisNumber d) (microstepShiftFactor d) v
    (minSgLoadRegister d) (maxSgLoadRegister d) (lastReadStatus d)
    (accumulatedStatus d) (enabled d).

Definition with_minSgLoadRegister (v : Z) (d : TmcDriverState) :=
  mkDriver (registers d) (pin d) (configuredChopConfReg d) (registersToUpdate d)
    (axisNumber d) (microstepShiftFactor d) (maxStallStepInterval d)
    v (maxSgLoadRegister d) (lastReadStatus d)
    (accumulatedStatus d) (enabled d).

Definition with_maxSgLoadRegister (v : Z) (d : TmcDriverState) :=
  mkDriver (registers d) (pin d) (configuredChopConfReg d) (registersToUpdate d)
    (axisNumber d) (microstepShiftFactor d) (maxStallStepInterval d)
    (minSgLoadRegister d) v (lastReadStatus d)
    (accumulatedStatus d) (enabled d).

Definition with_lastReadStatus (v : Z) (d : TmcDriverState) :=
  mkDriver (registers d) (pin d) (configuredChopConfReg d) (registersToUpdate d)
    (axisNumber d) (microstepShiftFactor d) (maxStallStepInterval d)
    (minSgLoadRegister d) (maxSgLoadRegister d) v
    (accumulatedStatus d) (enabled d).

Definition with_accumulatedStatus (v : Z) (d : TmcDriverState) :=
  mkDriver (registers d) (pin d) (configuredChopConfReg d) (registersToUpdate d)
    (axisNumber d) (microstepShiftFactor d) (maxStallStepInterval d)
    (minSgLoadRegister d) (maxSgLoadRegister d) (lastReadStatus d)
    v (enabled d).

Definition with_enabled (v : bool) (d : TmcDriverState) :=
  mkDriver (registers d) (pin d) (configuredChopConfReg d) (registersToUpdate d)
    (axisNumber d) (microstepShiftFactor d) (maxStallStepInterval d)
    (minSgLoadRegister d) (maxSgLoadRegister d) (lastReadStatus d)
    (accumulatedStatus d) v.

(** [registers[i] = v] on a driver. *)
Definition write_reg (i : nat) (v : Z) (d : TmcDriverState) : TmcDriverState :=
  with_registers (set_reg i v (registers d)) d.

(** [registersToUpdate |= 1u << i]. *)
Definition mark_dirty (i : nat) (d : TmcDriverState) : TmcDriverState :=
  with_registersToUpdate
    (Z.lor (registersToUpdate d) (shl32 1 (Z.of_nat i))) d.

(** A zero-initialised object, as the static array holds before [Init]. *)
Definition zeroDriver : TmcDriverState :=
  mkDriver (mkRegisterFile 0 0 0 0 0) 0 0 0 0 0 0 0 0 0 0 false.

(** ** Whole-subsystem state

    The file-level statics of the translation unit together with the part
    of the hardware they drive. *)

Record System := mkSystem {
  driverStates : list TmcDriverState;
  numTmc2660Drivers : nat;
  driversPowered : bool;
  (** [currentDriver], as an index into [driverStates]; [None] is
      [nullptr]. *)
  currentDriver : option nat;
  spiDataOut : Z;
  spiDataIn : Z;
  (** Output level of every pin written so far; [true] is high. *)
  pins : gmap Z bool;
  (** The end-of-receive interrupt of the SPI/USART ([IER]/[IDR]). *)
  endRxInterrupt : bool;
  (** [NVIC_EnableIRQ(TMC2660_SPI_IRQn)] has been executed. *)
  nvicEnabled : bool
}.

Definition with_driverStates (v : list TmcDriverState) (s : System) :=
  mkSystem v (numTmc2660Drivers s) (driversPowered s) (currentDriver s)
    (spiDataOut s) (spiDataIn s) (pins s) (endRxInterrupt s) (nvicEnabled s).

Definition with_numTmc2660Drivers (v : nat) (s : System) :=
  mkSystem (driverStates s) v (driversPowered s) (currentDriver s)
    (spiDataOut s) (spiDataIn s) (pins s) (endRxInterrupt s) (nvicEnabled s).

Definition with_driversPowered (v : bool) (s : System) :=
  mkSystem (driverStates s) (numTmc2660Drivers s) v (currentDriver s)
    (spiDataOut s) (spiDataIn s) (pins s) (endRxInterrupt s) (nvicEnabled s).

Definition with_currentDriver (v : option nat) (s : System) :=
  mkSystem (driverStates s) (numTmc2660Drivers s) (driversPowered s) v
    (spiDataOut s) (spiDataIn s) (pins s) (endRxInterrupt s) (nvicEnabled s).

Definition with_spiDataOut (v : Z) (s : System) :=
  mkSystem (driverStates s) (numTmc2660Drivers s) (driversPowered s)
    (currentDriver s) v (spiDataIn s) (pins s) (endRxInterrupt s)
    (nvicEnabled s).

Definition with_spiDataIn (v : Z) (s : System) :=
  mkSystem (driverStates s) (numTmc2660Drivers s) (driversPowered s)
    (currentDriver s) (spiDataOut s) v (pins s) (endRxInterrupt s)
    (nvicEnabled s).

Definition with_pins (v : gmap Z bool) (s : System) :=
  mkSystem (driverStates s) (numTmc2660Drivers s) (driversPowered s)
    (currentDriver s) (spiDataOut s) (spiDataIn s) v (endRxInterrupt s)
    (nvicEnabled s).

Definition with_endRxInterrupt (v : bool) (s : System) :=
  mkSystem (driverStates s) (numTmc2660Drivers s) (driversPowered s)
    (currentDriver s) (spiDataOut s) (spiDataIn s) (pins s) v (nvicEnabled s).

Definition with_nvicEnabled (v : bool) (s : System) :=
  mkSystem (driverStates s) (numTmc2660Drivers s) (driversPowered s)
    (currentDriver s) (spiDataOut s) (spiDataIn s) (pins s)
    (endRxInterrupt s) v.

(** [driverStates[i] = d]. *)
Definition set_driver (i : nat) (d : TmcDriverState) (s : System) : System :=
  with_driverStates (<[i:=d]> (driverStates s)) s.

(** [digitalWrite], [fastDigitalWriteHigh/Low] and [pinMode(_, OUTPUT_HIGH)]
    all come down to driving a level on a pin. *)
Definition digitalWrite (p : Z) (level : bool) (s : System) : System :=
  with_pins (<[p:=level]> (pins s)) s.

Definition HIGH : bool := true.
Definition LOW : bool := false.

(** ** Output of the two report functions

    The text sinks are modelled by the values handed to the formatter. *)

Record StallConfigReport := mkStallConfigReport {
  rep_threshold : Z;
  rep_filtered : bool;
  (** [StepClockRate/maxStallStepInterval]; [None] when the divisor is 0. *)
  rep_stepsPerSec : option Z;
  rep_coolstep : Z
}.

Inductive StatusText :=
  | TemperatureShutdown
  | TemperatureWarning
  | ShortToGround
  | OpenLoadA
  | OpenLoadB
  | Standstill
  | StatusOk
  | SgMinMax (lo hi : Z)
  | SgNotAvailable.

(** The driver modes named in the source. *)
Inductive DriverMode :=
  | constantOffTime
  | randomOffTime
  | spreadCycle
  | unknown.

(** ** The class [TmcDriverState] *)

Module Driver.
Section Methods.

(** Compile-time constants declared outside the sources at hand: the step
    clock frequency and the numeric values [(unsigned int)DriverMode::m]. *)
Variable StepClockRate : Z.
Variable DriverMode_code : DriverMode -> Z.

Definition ResetLoadRegisters (d : TmcDriverState) : TmcDriverState :=
  with_maxSgLoadRegister 0 (with_minSgLoadRegister 1023 d).

Definition SetAxisNumber (p_axisNumber : Z) (d : TmcDriverState) :=
  with_axisNumber p_axisNumber d.

Definition WriteAll (d : TmcDriverState) : TmcDriverState :=
  with_registersToUpdate UpdateAllRegisters d.

Definition UpdateChopConfRegister (d : TmcDriverState) : TmcDriverState :=
  mark_dirty ChopperControl
    (write_reg ChopperControl
       (if enabled d then configuredChopConfReg d
        else Z.land (configuredChopConfReg d) (not32 TMC_CHOPCONF_TOFF_MASK))
       d).

Definition SetChopConf (newVal : Z) (d : TmcDriverState)
  : bool * TmcDriverState :=
  let toff :=
    Z.shiftr (Z.land newVal TMC_CHOPCONF_TOFF_MASK) TMC_CHOPCONF_TOFF_SHIFT in
  if (toff =? 0)
     || ((toff =? 1) && (Z.land newVal TMC_CHOPCONF_TBL_MASK =? 0))
  then (false, d)
  else
    let d1 :=
      with_configuredChopConfReg
        (Z.lor (Z.land newVal 0x0001FFFF) TMC_REG_CHOPCONF) d in
    (true, UpdateChopConfRegister d1).

Definition SetOffTime (newVal : Z) (d : TmcDriverState)
  : bool * TmcDriverState :=
  if 15 <? newVal then (false, d)
  else
    SetChopConf
      (Z.lor (Z.land (configuredChopConfReg d) (not32 TMC_CHOPCONF_TOFF_MASK))
             (Z.land (shl32 newVal TMC_CHOPCONF_TOFF_SHIFT)
                     TMC_CHOPCONF_TOFF_MASK))
      d.

Definition SetDriverMode (mode : Z) (d : TmcDriverState)
  : bool * TmcDriverState :=
  if mode =? DriverMode_code constantOffTime then
    SetChopConf
      (Z.lor (Z.land (configuredChopConfReg d) (not32 TMC_CHOPCONF_RNDTF))
             TMC_CHOPCONF_CHM) d
  else if mode =? DriverMode_code randomOffTime then
    SetChopConf
      (Z.lor (Z.lor (configuredChopConfReg d) TMC_CHOPCONF_RNDTF)
             TMC_CHOPCONF_CHM) d
  else if mode =? DriverMode_code spreadCycle then
    SetChopConf
      (Z.land (configuredChopConfReg d)
              (not32 (Z.lor TMC_CHOPCONF_RNDTF TMC_CHOPCONF_CHM))) d
  else (false, d).

Definition GetDriverMode (d : TmcDriverState) : DriverMode :=
  if Z.land (configuredChopConfReg d) TMC_CHOPCONF_CHM =? 0 then spreadCycle
  else if Z.land (configuredChopConfReg d) TMC_CHOPCONF_RNDTF =? 0
       then constantOffTime
       else randomOffTime.

Definition SetMicrostepping (shift : Z) (interpolate : bool)
    (d : TmcDriverState) : bool * TmcDriverState :=
  let d1 := with_microstepShiftFactor shift d in
  let drvCtrlReg :=
    Z.land (reg (registers d1) DriveControl) (not32 TMC_DRVCTRL_MRES_MASK) in
  let drvCtrlReg :=
    Z.lor drvCtrlReg
          (Z.land (shl32 (sub32 8 shift) TMC_DRVCTRL_MRES_SHIFT)
                  TMC_DRVCTRL_MRES_MASK) in
  let drvCtrlReg :=
    if interpolate then Z.lor drvCtrlReg TMC_DRVCTRL_INTPOL
    else Z.land drvCtrlReg (not32 TMC_DRVCTRL_INTPOL) in
  (true, mark_dirty DriveControl (write_reg DriveControl drvCtrlReg d1)).

(** [current] is the motor current in milliamps. The source takes a [float],
    clamps it to 100..2400 and truncates; the model starts from an integral
    number of milliamps. *)
Definition SetCurrent (current : Z) (d : TmcDriverState) : TmcDriverState :=
  let iCurrent := constrain current 100 2400 in
  let csBits := u32 (32 * iCurrent - 1600) / 3236 in
  mark_dirty StallGuardConfig
    (write_reg StallGuardConfig
       (Z.lor (Z.land (reg (registers d) StallGuardConfig)
                      (not32 TMC_SGCSCONF_CS_MASK))
              (TMC_SGCSCONF_CS csBits))
       d).

Definition Enable (en : bool) (d : TmcDriverState) : TmcDriverState :=
  if negb (Bool.eqb (enabled d) en) then
    let d1 :=
      if en then
        with_lastReadStatus
          (Z.land (lastReadStatus d) (not32 TMC_RR_SG))
          (with_accumulatedStatus
             (Z.land (accumulatedStatus d) (not32 TMC_RR_SG)) d)
      else d in
    UpdateChopConfRegister (with_enabled en d1)
  else d.

Definition ReadLiveStatus (d : TmcDriverState) : Z :=
  let ret := Z.land (lastReadStatus d) TMC_RR_REPORTED in
  if enabled d then ret else Z.land ret (not32 TMC_RR_SG).

(** The body between [cpu_irq_save] and [cpu_irq_restore] runs with
    interrupts masked; every operation of the model is one indivisible
    step, so the read and the update of [accumulatedStatus] are not
    separated by the handler. *)
Definition ReadAccumulatedStatus (bitsToKeep : Z) (d : TmcDriverState)
  : Z * TmcDriverState :=
  let mask := if enabled d then 0xFFFFFFFF else not32 TMC_RR_SG in
  let bitsToKeep := Z.land bitsToKeep mask in
  let status := accumulatedStatus d in
  let d1 := with_accumulatedStatus (Z.land (accumulatedStatus d) bitsToKeep) d in
  (Z.land (Z.land status TMC_RR_REPORTED) mask, d1).

Definition SetStallDetectThreshold (sgThreshold : Z) (d : TmcDriverState)
  : TmcDriverState :=
  let sgVal := Z.land (u32 (constrain sgThreshold (-64) 63)) 127 in
  mark_dirty StallGuardConfig
    (write_reg StallGuardConfig
       (Z.lor (Z.land (reg (registers d) StallGuardConfig)
                      (not32 TMC_SGCSCONF_SGT_MASK))
              (shl32 sgVal TMC_SGCSCONF_SGT_SHIFT))
       d).

Definition SetStallDetectFilter (sgFilter : bool) (d : TmcDriverState)
  : TmcDriverState :=
  mark_dirty StallGuardConfig
    (write_reg StallGuardConfig
       (if sgFilter
        then Z.lor (reg (registers d) StallGuardConfig) TMC_SGCSCONF_SGT_SFILT
        else Z.land (reg (registers d) StallGuardConfig)
                    (not32 TMC_SGCSCONF_SGT_SFILT))
       d).

Definition SetStallMinimumStepsPerSecond (stepsPerSecond : Z)
    (d : TmcDriverState) : TmcDriverState :=
  with_maxStallStepInterval (StepClockRate / Z.max stepsPerSecond 1) d.

Definition SetCoolStep (coolStepConfig : Z) (d : TmcDriverState)
  : TmcDriverState :=
  mark_dirty SmartEnable
    (write_reg SmartEnable (Z.lor TMC_REG_SMARTEN coolStepConfig) d).

Definition AppendStallConfig (d : TmcDriverState) : StallConfigReport :=
  let filtered :=
    negb (Z.land (reg (registers d) StallGuardConfig) TMC_SGCSCONF_SGT_SFILT
          =? 0) in
  let threshold :=
    Z.shiftr (Z.land (reg (registers d) StallGuardConfig) TMC_SGCSCONF_SGT_MASK)
             TMC_SGCSCONF_SGT_SHIFT in
  let threshold := if 64 <=? threshold then threshold - 128 else threshold in
  mkStallConfigReport threshold filtered
    (if maxStallStepInterval d =? 0 then None
     else Some (StepClockRate / maxStallStepInterval d))
    (Z.land (reg (registers d) SmartEnable) 0xFFFF).

Definition has (status flag : Z) : bool := negb (Z.land status flag =? 0).

Definition AppendDriverStatus (d : TmcDriverState)
  : list StatusText * TmcDriverState :=
  let st := lastReadStatus d in
  let t1 :=
    if has st TMC_RR_OT then [TemperatureShutdown]
    else if has st TMC_RR_OTPW then [TemperatureWarning] else [] in
  let t2 := if has st TMC_RR_S2G then [ShortToGround] else [] in
  let t3 :=
    if has st TMC_RR_OLA && negb (has st TMC_RR_STST) then [OpenLoadA]
    else [] in
  let t4 :=
    if has st TMC_RR_OLB && negb (has st TMC_RR_STST) then [OpenLoadB]
    else [] in
  let t5 :=
    if has st TMC_RR_STST then [Standstill]
    else if Z.land st
              (Z.lor (Z.lor (Z.lor (Z.lor TMC_RR_OT TMC_RR_OTPW) TMC_RR_S2G)
                            TMC_RR_OLA) TMC_RR_OLB) =? 0
         then [StatusOk] else [] in
  let t6 :=
    if minSgLoadRegister d <=? maxSgLoadRegister d
    then [SgMinMax (minSgLoadRegister d) (maxSgLoadRegister d)]
    else [SgNotAvailable] in
  (t1 ++ t2 ++ t3 ++ t4 ++ t5 ++ t6, ResetLoadRegisters d).

Definition GetMicrostepping (d : TmcDriverState) : Z * bool :=
  (shl32 1 (microstepShiftFactor d),
   negb (Z.land (reg (registers d) DriveControl) TMC_DRVCTRL_INTPOL =? 0)).

Definition GetChopConf (d : TmcDriverState) : Z :=
  Z.land (configuredChopConfReg d) TMC_DATA_MASK.

Definition GetOffTime (d : TmcDriverState) : Z :=
  Z.shiftr (Z.land (configuredChopConfReg d) TMC_CHOPCONF_TOFF_MASK)
           TMC_CHOPCONF_TOFF_SHIFT.

(** Everything [TmcDriverState::Init] does to the object itself; the
    [pinMode] call is in [Init] below. *)
Definition Init_object (p_axisNumber p_pin : Z) (d : TmcDriverState)
  : TmcDriverState :=
  let d := with_axisNumber p_axisNumber d in
  let d := with_pin p_pin d in
  let d := with_enabled false d in
  let d := write_reg DriveControl defaultDrvCtrlReg d in
  let d := with_configuredChopConfReg defaultChopConfReg d in
  let d :=
    write_reg ChopperControl
      (Z.land (configuredChopConfReg d) (not32 TMC_CHOPCONF_TOFF_MASK)) d in
  let d := write_reg SmartEnable defaultSmartEnReg d in
  let d := write_reg StallGuardConfig defaultSgscConfReg d in
  let d := write_reg DriveConfig defaultDrvConfReg d in
  let d := with_registersToUpdate UpdateAllRegisters d in
  let d := with_lastReadStatus 0 d in
  let d := with_accumulatedStatus (lastReadStatus d) d in
  let d := ResetLoadRegisters d in
  let d := snd (SetMicrostepping DefaultMicrosteppingShift DefaultInterpolation d) in
  let d := SetStallDetectThreshold DefaultStallDetectThreshold d in
  let d := SetStallDetectFilter DefaultStallDetectFiltered d in
  SetStallMinimumStepsPerSecond DefaultMinimumStepsPerSecond d.

(** [TmcDriverState::Init] on [driverStates[i]]. *)
Definition Init (p_axisNumber p_pin : Z) (i : nat) (s : System) : System :=
  match driverStates s !! i with
  | None => s
  | Some d =>
      let s := digitalWrite p_pin HIGH s in
      set_driver i (Init_object p_axisNumber p_pin d) s
  end.

(** [TmcDriverState::TransferDone] on [driverStates[i]].
    [GetStepInterval] stands for [reprap.GetMove().GetStepInterval]. *)
Definition TransferDone (GetStepInterval : Z -> Z -> Z) (i : nat) (s : System)
  : System :=
  match driverStates s !! i with
  | None => s
  | Some d =>
      let s := digitalWrite (pin d) HIGH s in
      if driversPowered s then
        let status := Z.shiftr (be32_to_cpu (spiDataIn s)) 12 in
        let interval :=
          GetStepInterval (axisNumber d) (microstepShiftFactor d) in
        let '(status, d) :=
          if (interval =? 0) || (maxStallStepInterval d <? interval) then
            (Z.land status (not32 TMC_RR_SG), d)
          else
            let sgLoad :=
              Z.land (Z.shiftr status TMC_RR_SG_LOAD_SHIFT) 1023 in
            let d :=
              if sgLoad <? minSgLoadRegister d
              then with_minSgLoadRegister sgLoad d else d in
            let d :=
              if maxSgLoadRegister d <? sgLoad
              then with_maxSgLoadRegister sgLoad d else d in
            (status, d) in
        let d := with_lastReadStatus status d in
        let d := with_accumulatedStatus (Z.lor (accumulatedStatus d) status) d in
        set_driver i d s
      else s
  end.

(** The [do ... while (regNum < NumRegisters - 1)] loop of [StartTransfer].
    [None] means the fuel ran out before the loop was left. *)
Fixpoint find_register (fuel : nat) (toUpdate : Z) (regNum : nat) (mask : Z)
  : option (nat * Z) :=
  match fuel with
  | O => None
  | S fuel' =>
      if negb (Z.land toUpdate mask =? 0) then Some (regNum, mask)
      else
        let regNum := S regNum in
        let mask := shl32 mask 1 in
        if (regNum <? NumRegisters - 1)%nat
        then find_register fuel' toUpdate regNum mask
        else Some (regNum, mask)
  end.

(** The register number and mask [StartTransfer] settles on. *)
Definition select_register (toUpdate : Z) : option (nat * Z) :=
  find_register NumRegisters toUpdate 0 1.

Definition SetupDMA (outVal : Z) (s : System) : System :=
  with_spiDataOut (cpu_to_be32 (shl32 outVal 8)) s.

(** [TmcDriverState::StartTransfer] on [driverStates[i]]. Of the peripheral
    programming only the chip select, the outgoing word and the
    end-of-receive interrupt enable are kept. *)
Definition StartTransfer (i : nat) (s : System) : System :=
  match driverStates s !! i with
  | None => s
  | Some d =>
      let s := with_currentDriver (Some i) s in
      let chosen :=
        if registersToUpdate d =? 0
        then Some (reg (registers d) SmartEnable, d)
        else
          match select_register (registersToUpdate d) with
          | Some (regNum, mask) =>
              Some (reg (registers d) regNum,
                    with_registersToUpdate
                      (Z.land (registersToUpdate d) (not32 mask)) d)
          | None => None
          end in
      match chosen with
      | Some (regVal, d) =>
          let s := set_driver i d s in
          let s := digitalWrite (pin d) LOW s in
          let s := SetupDMA regVal s in
          with_endRxInterrupt true s
      | None => s
      end
  end.

End Methods.
End Driver.

(** ** The interrupt handler *)

Definition stop_polling (s : System) : System :=
  with_currentDriver None (with_endRxInterrupt false s).

Definition TMC2660_SPI_Handler (GetStepInterval : Z -> Z -> Z) (s : System)
  : System :=
  match currentDriver s with
  | Some driver =>
      let s := Driver.TransferDone GetStepInterval driver s in
      if driversPowered s then
        let driver := S driver in
        let driver :=
          if (driver =? numTmc2660Drivers s)%nat then 0%nat else driver in
        Driver.StartTransfer driver s
      else stop_polling s
  | None => stop_polling s
  end.

(** ** Public interface: namespace [SmartDrivers] *)

Module SmartDrivers.
Section Interface.

Variable StepClockRate : Z.
Variable DriverMode_code : DriverMode -> Z.
(** Further constants declared outside the sources at hand. *)
Variable MaxSmartDrivers : nat.
Variable GlobalTmc2660EnablePin : Z.

(** [driverStates[driver].f()] for a method that returns nothing. *)
Definition call (driver : nat) (f : TmcDriverState -> TmcDriverState)
    (s : System) : System :=
  match driverStates s !! driver with
  | Some d => set_driver driver (f d) s
  | None => s
  end.

(** [driverStates[driver].f()] for a method that returns a value; [dflt] is
    never produced for an index below the length of the array. *)
Definition call_ret {A} (dflt : A) (driver : nat)
    (f : TmcDriverState -> A * TmcDriverState) (s : System) : A * System :=
  match driverStates s !! driver with
  | Some d => (fst (f d), set_driver driver (snd (f d)) s)
  | None => (dflt, s)
  end.

(** [driverStates[driver].f()] for a [const] method. *)
Definition read {A} (dflt : A) (driver : nat) (f : TmcDriverState -> A)
    (s : System) : A :=
  match driverStates s !! driver with
  | Some d => f d
  | None => dflt
  end.

Definition in_range (driver : nat) (s : System) : bool :=
  (driver <? numTmc2660Drivers s)%nat.

(** The set-up of the SPI/USART peripheral is left out. *)
Definition Init (driverSelectPins : list Z) (numTmcDrivers : nat) (s : System)
  : System :=
  let s := with_numTmc2660Drivers (Nat.min numTmcDrivers MaxSmartDrivers) s in
  let s := digitalWrite GlobalTmc2660EnablePin HIGH s in
  let s := with_driversPowered false s in
  foldl
    (fun s driver =>
       Driver.Init StepClockRate (Z.of_nat driver)
         (default 0 (driverSelectPins !! driver)) driver s)
    s (seq 0 (numTmc2660Drivers s)).

Definition SetAxisNumber (driver : nat) (axisNumber : Z) (s : System) :=
  if in_range driver s then call driver (Driver.SetAxisNumber axisNumber) s
  else s.

Definition SetCurrent (driver : nat) (current : Z) (s : System) :=
  if in_range driver s then call driver (Driver.SetCurrent current) s else s.

Definition EnableDrive (driver : nat) (en : bool) (s : System) :=
  if in_range driver s then call driver (Driver.Enable en) s else s.

Definition GetLiveStatus (driver : nat) (s : System) : Z :=
  if in_range driver s then read 0 driver Driver.ReadLiveStatus s else 0.

Definition GetAccumulatedStatus (driver : nat) (bitsToKeep : Z) (s : System)
  : Z * System :=
  if in_range driver s
  then call_ret 0 driver (Driver.ReadAccumulatedStatus bitsToKeep) s
  else (0, s).

(** The [while ((uSteps & 1) == 0)] loop of [SetMicrostepping]. [None] means
    the fuel ran out before the loop was left. *)
Fixpoint count_shift (fuel : nat) (uSteps shift : Z) : option (Z * Z) :=
  match fuel with
  | O => None
  | S fuel' =>
      if Z.land uSteps 1 =? 0
      then count_shift fuel' (Z.shiftr uSteps 1) (u32 (shift + 1))
      else Some (uSteps, shift)
  end.

(** An [unsigned int] has 32 bits, so a nonzero one leaves the loop within
    32 rounds. *)
Definition shift_fuel : nat := 33.

Definition SetMicrostepping (driver : nat) (microsteps : Z) (interpolate : bool)
    (s : System) : bool * System :=
  if in_range driver s && (0 <? microsteps) then
    match count_shift shift_fuel microsteps 0 with
    | Some (uSteps, shift) =>
        if (uSteps =? 1) && (shift <=? 8) then
          (true,
           call driver
             (fun d => snd (Driver.SetMicrostepping shift interpolate d)) s)
        else (false, s)
    | None => (false, s)
    end
  else (false, s).

Definition GetMicrostepping (driver : nat) (s : System) : Z * bool :=
  if in_range driver s then read (1, false) driver Driver.GetMicrostepping s
  else (1, false).

Definition SetDriverMode (driver : nat) (mode : Z) (s : System)
  : bool * System :=
  if in_range driver s
  then call_ret false driver (Driver.SetDriverMode DriverMode_code mode) s
  else (false, s).

Definition GetDriverMode (driver : nat) (s : System) : DriverMode :=
  if in_range driver s then read unknown driver Driver.GetDriverMode s
  else unknown.

Definition SetChopperControlRegister (driver : nat) (ccr : Z) (s : System)
  : bool * System :=
  if in_range driver s then call_ret false driver (Driver.SetChopConf ccr) s
  else (false, s).

Definition GetChopperControlRegister (driver : nat) (s : System) : Z :=
  if in_range driver s then read 0 driver Driver.GetChopConf s else 0.

Definition SetOffTime (driver : nat) (offTime : Z) (s : System)
  : bool * System :=
  if in_range driver s then call_ret false driver (Driver.SetOffTime offTime) s
  else (false, s).

Definition GetOffTime (driver : nat) (s : System) : Z :=
  if in_range driver s then read 0 driver Driver.GetOffTime s else 0.

Definition Spin (powered : bool) (s : System) : System :=
  let wasPowered := driversPowered s in
  let s := with_driversPowered powered s in
  if powered then
    let s :=
      if negb wasPowered then
        let s := digitalWrite GlobalTmc2660EnablePin LOW s in
        foldl (fun s driver => call driver Driver.WriteAll s)
              s (seq 0 (numTmc2660Drivers s))
      else s in
    if bool_decide (currentDriver s = None)
       && negb (numTmc2660Drivers s =? 0)%nat
    then Driver.StartTransfer 0 (with_nvicEnabled true s)
    else s
  else if wasPowered then digitalWrite GlobalTmc2660EnablePin HIGH s
  else s.

Definition TurnDriversOff (s : System) : System :=
  with_driversPowered false (digitalWrite GlobalTmc2660EnablePin HIGH s).

Definition SetStallThreshold (driver : nat) (sgThreshold : Z) (s : System) :=
  if in_range driver s
  then call driver (Driver.SetStallDetectThreshold sgThreshold) s else s.

Definition SetStallFilter (driver : nat) (sgFilter : bool) (s : System) :=
  if in_range driver s
  then call driver (Driver.SetStallDetectFilter sgFilter) s else s.

Definition SetStallMinimumStepsPerSecond (driver : nat) (stepsPerSecond : Z)
    (s : System) :=
  if in_range driver s
  then call driver
         (Driver.SetStallMinimumStepsPerSecond StepClockRate stepsPerSecond) s
  else s.

Definition SetCoolStep (drive : nat) (coolStepConfig : Z) (s : System) :=
  if in_range drive s
  then call drive (Driver.SetCoolStep coolStepConfig) s else s.

(** Nothing is appended for an index out of range. *)
Definition AppendStallConfig (driver : nat) (s : System)
  : option StallConfigReport :=
  if in_range driver s
  then read None driver
         (fun d => Some (Driver.AppendStallConfig StepClockRate d)) s
  else None.

Definition AppendDriverStatus (driver : nat) (s : System)
  : list StatusText * System :=
  if in_range driver s then call_ret [] driver Driver.AppendDriverStatus s
  else ([], s).

End Interface.
End SmartDrivers.

(** ** The subsystem as a transition system

    After [SmartDrivers::Init] the state only changes through the calls of
    the public interface and through the interrupt handler. Each is one
    indivisible step. The getters leave the state alone and are not
    listed. *)

Inductive Operation :=
  | OpSetAxisNumber (driver : nat) (axisNumber : Z)
  | OpSetCurrent (driver : nat) (current : Z)
  | OpEnableDrive (driver : nat) (en : bool)
  | OpGetAccumulatedStatus (driver : nat) (bitsToKeep : Z)
  | OpSetMicrostepping (driver : nat) (microsteps : Z) (interpolate : bool)
  | OpSetDriverMode (driver : nat) (mode : Z)
  | OpSetChopperControlRegister (driver : nat) (ccr : Z)
  | OpSetOffTime (driver : nat) (offTime : Z)
  | OpSpin (powered : bool)
  | OpTurnDriversOff
  | OpSetStallThreshold (driver : nat) (sgThreshold : Z)
  | OpSetStallFilter (driver : nat) (sgFilter : bool)
  | OpSetStallMinimumStepsPerSecond (driver : nat) (stepsPerSecond : Z)
  | OpSetCoolStep (drive : nat) (coolStepConfig : Z)
  | OpAppendDriverStatus (driver : nat)
  (** The PDC has stored [received] in [spiDataIn] and the end-of-receive
      interrupt is taken; [GetStepInterval] is what the motion system
      answers during the handler. *)
  | OpInterrupt (received : Z) (GetStepInterval : Z -> Z -> Z).

Section Machine.

Variable StepClockRate : Z.
Variable DriverMode_code : DriverMode -> Z.
Variable MaxSmartDrivers : nat.
Variable GlobalTmc2660EnablePin : Z.

(** The statics before any code has run: zero-initialised. *)
Definition boot : System :=
  mkSystem (replicate MaxSmartDrivers zeroDriver) 0 false None 0 0 ∅
           false false.

Definition run (op : Operation) (s : System) : System :=
  match op with
  | OpSetAxisNumber driver a => SmartDrivers.SetAxisNumber driver a s
  | OpSetCurrent driver c => SmartDrivers.SetCurrent driver c s
  | OpEnableDrive driver en => SmartDrivers.EnableDrive driver en s
  | OpGetAccumulatedStatus driver k =>
      snd (SmartDrivers.GetAccumulatedStatus driver k s)
  | OpSetMicrostepping driver m i =>
      snd (SmartDrivers.SetMicrostepping driver m i s)
  | OpSetDriverMode driver m =>
      snd (SmartDrivers.SetDriverMode DriverMode_code driver m s)
  | OpSetChopperControlRegister driver v =>
      snd (SmartDrivers.SetChopperControlRegister driver v s)
  | OpSetOffTime driver n => snd (SmartDrivers.SetOffTime driver n s)
  | OpSpin powered => SmartDrivers.Spin GlobalTmc2660EnablePin powered s
  | OpTurnDriversOff => SmartDrivers.TurnDriversOff GlobalTmc2660EnablePin s
  | OpSetStallThreshold driver t => SmartDrivers.SetStallThreshold driver t s
  | OpSetStallFilter driver f => SmartDrivers.SetStallFilter driver f s
  | OpSetStallMinimumStepsPerSecond driver n =>
      SmartDrivers.SetStallMinimumStepsPerSecond StepClockRate driver n s
  | OpSetCoolStep drive c => SmartDrivers.SetCoolStep drive c s
  | OpAppendDriverStatus driver =>
      snd (SmartDrivers.AppendDriverStatus driver s)
  | OpInterrupt received GetStepInterval =>
      TMC2660_SPI_Handler GetStepInterval (with_spiDataIn received s)
  end.

(** The state after [Init] followed by a sequence of operations. *)
Definition run_from_init (driverSelectPins : list Z) (numTmcDrivers : nat)
    (ops : list Operation) : System :=
  foldl (fun s op => run op s)
        (SmartDrivers.Init StepClockRate MaxSmartDrivers GlobalTmc2660EnablePin
           driverSelectPins numTmcDrivers boot)
        ops.

(** The states the subsystem can be observed in. *)
Inductive reachable : System -> Prop :=
  | reachable_init driverSelectPins numTmcDrivers :
      reachable
        (SmartDrivers.Init StepClockRate MaxSmartDrivers GlobalTmc2660EnablePin
           driverSelectPins numTmcDrivers boot)
  | reachable_step s op :
      reachable s -> reachable (run op s).

End Machine.

(** ** A sample configuration, for concrete runs *)

Module Sample.

Definition StepClockRate : Z := 937500.
Definition MaxSmartDrivers : nat := 10.
Definition GlobalTmc2660EnablePin : Z := 38.
Definition DriverMode_code (m : DriverMode) : Z :=
  match m with
  | constantOffTime => 0
  | randomOffTime => 1
  | spreadCycle => 2
  | unknown => 4
  end.

Definition pins : list Z := [78; 41; 13; 87].

Definition after (ops : list Operation) : System :=
  run_from_init StepClockRate DriverMode_code MaxSmartDrivers
    GlobalTmc2660EnablePin pins 4 ops.

(** A receive buffer whose decoded status word is [status]: the 20 bits
    sit in the upper part of the 24 bits received. *)
Definition frame (status : Z) : Z := bswap32 (Z.shiftl status 12).

(** The motion system reporting the same interval for every axis. *)
Definition stepping (interval : Z) : Z -> Z -> Z := fun _ _ => interval.

(** A reply with SG set and a load of 500. *)
Definition stall_reply : Z := frame (Z.lor (Z.shiftl 500 10) TMC_RR_SG).

(** Powered up, the first transfer (to driver 0) in flight. *)
Definition started : System := after [OpSpin true].

(** Driver 0 has answered [stall_reply] while the motor stood still. *)
Definition polled : System :=
  after [OpSpin true; OpInterrupt stall_reply (stepping 0)].

(** Driver 0 is enabled and has answered [stall_reply] while stepping
    inside the stall-detection window. *)
Definition stalled : System :=
  after [OpEnableDrive 0 true; OpSpin true;
         OpInterrupt stall_reply (stepping 100)].

End Sample.

(** ** Notions used in the statements *)

(** The microstep counts [SetMicrostepping] accepts. *)
Definition valid_microsteps : list Z := [1; 2; 4; 8; 16; 32; 64; 128; 256].

(** [k] is the number of the lowest set bit of [m]. *)
Definition lowest_set_bit (m : Z) (k : nat) : Prop :=
  Z.testbit m (Z.of_nat k) = true /\
  forall j : nat, (j < k)%nat -> Z.testbit m (Z.of_nat j) = false.

(** Shadow register 2 as the enable logic derives it from the configured
    chopper register. *)
Definition derived_chop (d : TmcDriverState) : Z :=
  if enabled d then configuredChopConfReg d
  else Z.land (configuredChopConfReg d) (not32 TMC_CHOPCONF_TOFF_MASK).

(** What holds of every element of [driverStates] between operations.
    [in_use] tells whether its index is below [numTmc2660Drivers]. *)
Definition driver_ok (in_use : bool) (d : TmcDriverState) : Prop :=
  0 <= registersToUpdate d < 32 /\
  reg (registers d) ChopperControl = derived_chop d /\
  (if in_use
   then Z.land (configuredChopConfReg d) TMC_CHOPCONF_TOFF_MASK <> 0
   else enabled d = false).

Definition drivers_ok (s : System) : Prop :=
  forall i d,
    driverStates s !! i = Some d ->
    driver_ok (i <? numTmc2660Drivers s)%nat d.

(** While the drivers are powered and there is at least one, a transfer is
    in flight. *)
Definition scheduler_ok (s : System) : Prop :=
  driversPowered s = true ->
  currentDriver s <> None \/ numTmc2660Drivers s = 0%nat.

Definition system_ok (s : System) : Prop :=
  drivers_ok s /\
  (numTmc2660Drivers s <= length (driverStates s))%nat /\
  scheduler_ok s.

(** ** The life of one driver object *)

(** What [TransferDone] does to the object once the status word has been
    taken from the receive buffer and the step interval fetched. *)
Definition TransferDone_update (status interval : Z) (d : TmcDriverState)
  : TmcDriverState :=
  let '(status, d) :=
    if (interval =? 0) || (maxStallStepInterval d <? interval) then
      (Z.land status (not32 TMC_RR_SG), d)
    else
      let sgLoad := Z.land (Z.shiftr status TMC_RR_SG_LOAD_SHIFT) 1023 in
      let d :=
        if sgLoad <? minSgLoadRegister d
        then with_minSgLoadRegister sgLoad d else d in
      let d :=
        if maxSgLoadRegister d <? sgLoad
        then with_maxSgLoadRegister sgLoad d else d in
      (status, d) in
  let d := with_lastReadStatus status d in
  with_accumulatedStatus (Z.lor (accumulatedStatus d) status) d.

(** Everything that can happen to an element of [driverStates] after its
    [Init]: a method called through the public interface, a completed
    transfer, or a started one. [SetMicrostepping] is only ever called with
    a shift the interface has checked. *)
Inductive driver_step (clock : Z) (code : DriverMode -> Z)
  : TmcDriverState -> TmcDriverState -> Prop :=
  | step_SetAxisNumber a d :
      driver_step clock code d (Driver.SetAxisNumber a d)
  | step_WriteAll d :
      driver_step clock code d (Driver.WriteAll d)
  | step_SetCurrent c d :
      driver_step clock code d (Driver.SetCurrent c d)
  | step_Enable en d :
      driver_step clock code d (Driver.Enable en d)
  | step_ReadAccumulatedStatus k d :
      driver_step clock code d (snd (Driver.ReadAccumulatedStatus k d))
  | step_SetMicrostepping shift i d :
      0 <= shift <= 8 ->
      driver_step clock code d (snd (Driver.SetMicrostepping shift i d))
  | step_SetDriverMode mode d :
      driver_step clock code d (snd (Driver.SetDriverMode code mode d))
  | step_SetChopConf v d :
      driver_step clock code d (snd (Driver.SetChopConf v d))
  | step_SetOffTime n d :
      driver_step clock code d (snd (Driver.SetOffTime n d))
  | step_SetStallDetectThreshold t d :
      driver_step clock code d (Driver.SetStallDetectThreshold t d)
  | step_SetStallDetectFilter f d :
      driver_step clock code d (Driver.SetStallDetectFilter f d)
  | step_SetStallMinimumStepsPerSecond n d :
      driver_step clock code d
        (Driver.SetStallMinimumStepsPerSecond clock n d)
  | step_SetCoolStep c d :
      driver_step clock code d (Driver.SetCoolStep c d)
  | step_AppendDriverStatus d :
      driver_step clock code d (snd (Driver.AppendDriverStatus d))
  | step_TransferDone status interval d :
      driver_step clock code d (TransferDone_update status interval d)
  | step_StartTransfer mask d :
      driver_step clock code d
        (with_registersToUpdate
           (Z.land (registersToUpdate d) (not32 mask)) d).

(** The driver objects that exist in some observable state: initialised,
    then taken through any number of steps. *)
Definition driver_reachable (clock : Z) (code : DriverMode -> Z)
    (d : TmcDriverState) : Prop :=
  exists a p d0,
    rtc (driver_step clock code) (Driver.Init_object clock a p d0) d.

(** From [s] to [s'] the array kept its length and the number of drivers,
    and every element went through steps of its own. *)
Definition drivers_evolve (clock : Z) (code : DriverMode -> Z)
    (s s' : System) : Prop :=
  numTmc2660Drivers s' = numTmc2660Drivers s /\
  length (driverStates s') = length (driverStates s) /\
  forall i d',
    driverStates s' !! i = Some d' ->
    exists d,
      driverStates s !! i = Some d /\ rtc (driver_step clock code) d d'.

(** [r] fits in 20 bits and its top three bits are the register address
    [addr]. *)
Definition addressed (addr r : Z) : Prop :=
  0 <= r < 2 ^ 20 /\ Z.land r 0xE0000 = addr.

(** The driver index an operation is addressed to, if it has one. *)
Definition op_driver (op : Operation) : option nat :=
  match op with
  | OpSetAxisNumber driver _ | OpSetCurrent driver _ | OpEnableDrive driver _
  | OpGetAccumulatedStatus driver _ | OpSetMicrostepping driver _ _
  | OpSetDriverMode driver _ | OpSetChopperControlRegister driver _
  | OpSetOffTime driver _ | OpSetStallThreshold driver _
  | OpSetStallFilter driver _ | OpSetStallMinimumStepsPerSecond driver _
  | OpSetCoolStep driver _ | OpAppendDriverStatus driver => Some driver
  | OpSpin _ | OpTurnDriversOff | OpInterrupt _ _ => None
  end.

(** [currentDriver] points at a driver in use. *)
Definition current_in_range (s : System) : Prop :=
  forall i, currentDriver s = Some i -> (i < numTmc2660Drivers s)%nat.

(** * Verification *)

(** ** Facts about words and bit fields *)

Module WordFacts.

Lemma u32_mod x : u32 x = x mod 2 ^ 32.
Proof. unfold u32. change mask32 with (Z.ones 32). apply Z.land_ones. lia. Qed.

Lemma u32_small x : 0 <= x < 2 ^ 32 -> u32 x = x.
Proof. intros H. rewrite u32_mod. apply Z.mod_small. exact H. Qed.

Lemma u32_range x : 0 <= u32 x < 2 ^ 32.
Proof. rewrite u32_mod. apply Z.mod_pos_bound. lia. Qed.

Lemma land_pow2_testbit m k :
  0 <= k -> (Z.land m (2 ^ k) =? 0) = negb (Z.testbit m k).
Proof.
  intros Hk. destruct (Z.testbit m k) eqn:Hb; simpl.
  - apply Z.eqb_neq. intros H.
    assert (Hk' : Z.testbit (Z.land m (2 ^ k)) k = true).
    { rewrite Z.land_spec, Hb, Z.pow2_bits_true; auto. }
    rewrite H in Hk'. rewrite Z.bits_0 in Hk'. discriminate.
  - apply Z.eqb_eq. apply Z.bits_inj'. intros n Hn.
    rewrite Z.land_spec, Z.bits_0.
    destruct (Z.eq_dec k n) as [<-|Hne].
    + rewrite Hb. reflexivity.
    + rewrite Z.pow2_bits_false by auto. apply andb_false_r.
Qed.

Lemma testbit_high x n i :
  0 <= x < 2 ^ n -> 0 <= n <= i -> Z.testbit x i = false.
Proof.
  intros Hx Hn. rewrite <- (Z.mod_small x (2 ^ n)) by exact Hx.
  apply Z.mod_pow2_bits_high. exact Hn.
Qed.

Lemma lt_pow2_of_bits x n :
  0 <= n -> 0 <= x -> (forall i, n <= i -> Z.testbit x i = false) ->
  x < 2 ^ n.
Proof.
  intros Hn Hx Hbits.
  assert (Heq : x mod 2 ^ n = x).
  { apply Z.bits_inj'. intros i Hi. rewrite Z.testbit_mod_pow2 by lia.
    destruct (Z.ltb_spec i n) as [Hlt|Hge]; [reflexivity|].
    simpl. symmetry. apply Hbits. exact Hge. }
  rewrite <- Heq. apply Z.mod_pos_bound. apply Z.pow_pos_nonneg; lia.
Qed.

Lemma lor_lt_pow2 a b n :
  0 <= n -> 0 <= a < 2 ^ n -> 0 <= b < 2 ^ n -> 0 <= Z.lor a b < 2 ^ n.
Proof.
  intros Hn Ha Hb. split.
  - apply Z.lor_nonneg. lia.
  - apply lt_pow2_of_bits; [lia | apply Z.lor_nonneg; lia |].
    intros i Hi. rewrite Z.lor_spec.
    rewrite (testbit_high a n i), (testbit_high b n i) by lia. reflexivity.
Qed.

Lemma land_lt_pow2 a b n :
  0 <= n -> 0 <= a < 2 ^ n -> 0 <= Z.land a b < 2 ^ n.
Proof.
  intros Hn Ha. split.
  - apply Z.land_nonneg. lia.
  - apply lt_pow2_of_bits; [lia | apply Z.land_nonneg; lia |].
    intros i Hi. rewrite Z.land_spec.
    rewrite (testbit_high a n i) by lia. reflexivity.
Qed.

Lemma land_not32_ldiff m x :
  0 <= m < 2 ^ 32 -> Z.land m (not32 x) = Z.ldiff m x.
Proof.
  intros Hm. unfold not32, u32. change mask32 with (Z.ones 32).
  apply Z.bits_inj'. intros i Hi.
  rewrite !Z.land_spec, Z.ldiff_spec, Z.lnot_spec by lia.
  destruct (Z.ltb_spec i 32) as [Hlt|Hge].
  - rewrite Z.ones_spec_low by lia. rewrite andb_true_r. reflexivity.
  - rewrite (testbit_high m 32 i) by lia. reflexivity.
Qed.

End WordFacts.

Import WordFacts.

(** ** Reading and writing the driver array *)

Lemma lookup_set_driver_eq i d d' s :
  driverStates s !! i = Some d ->
  driverStates (set_driver i d' s) !! i = Some d'.
Proof.
  intros H. unfold set_driver. simpl.
  apply list_lookup_insert_eq. eapply lookup_lt_Some; eauto.
Qed.

Lemma lookup_set_driver_ne i j d' s :
  i <> j ->
  driverStates (set_driver i d' s) !! j = driverStates s !! j.
Proof. intros H. unfold set_driver. simpl. by apply list_lookup_insert_ne. Qed.

Lemma set_driver_same i d s :
  driverStates s !! i = Some d -> set_driver i d s = s.
Proof.
  intros H. unfold set_driver, with_driverStates.
  rewrite list_insert_id by done. by destruct s.
Qed.

(** Reduction of record projections over the field updates, and nothing
    else. *)
Ltac fields :=
  cbn [registers pin configuredChopConfReg registersToUpdate axisNumber
       microstepShiftFactor maxStallStepInterval minSgLoadRegister
       maxSgLoadRegister lastReadStatus accumulatedStatus enabled
       with_registers with_pin with_configuredChopConfReg
       with_registersToUpdate with_axisNumber with_microstepShiftFactor
       with_maxStallStepInterval with_minSgLoadRegister with_maxSgLoadRegister
       with_lastReadStatus with_accumulatedStatus with_enabled
       write_reg mark_dirty
       driverStates numTmc2660Drivers driversPowered currentDriver spiDataOut
       spiDataIn pins endRxInterrupt nvicEnabled
       with_driverStates with_numTmc2660Drivers with_driversPowered
       with_currentDriver with_spiDataOut with_spiDataIn with_pins
       with_endRxInterrupt with_nvicEnabled set_driver digitalWrite
       Driver.SetupDMA fst snd] in *.

(** ** Status decoding *)

(** C1. When a transfer to a driver completes while the drivers are
    powered, [TransferDone] asks the motion system for the step interval of
    the driver's axis. If the interval is 0 or greater than
    [maxStallStepInterval], the SG bit is removed from the decoded status
    word and the load window is left alone. Otherwise, an interval equal to
    [maxStallStepInterval] included, the word is kept as received and its
    10-bit load field is folded into [minSgLoadRegister] and
    [maxSgLoadRegister]. Either way the result becomes [lastReadStatus] and
    is OR-ed into [accumulatedStatus]. *)
Theorem TransferDone_decodes_status G i s d :
  driverStates s !! i = Some d ->
  driversPowered s = true ->
  let interval := G (axisNumber d) (microstepShiftFactor d) in
  let status := Z.shiftr (be32_to_cpu (spiDataIn s)) 12 in
  let sgLoad := Z.land (Z.shiftr status TMC_RR_SG_LOAD_SHIFT) 1023 in
  exists d',
    driverStates (Driver.TransferDone G i s) !! i = Some d' /\
    (interval = 0 \/ maxStallStepInterval d < interval ->
       lastReadStatus d' = Z.land status (not32 TMC_RR_SG) /\
       Z.land (lastReadStatus d') TMC_RR_SG = 0 /\
       minSgLoadRegister d' = minSgLoadRegister d /\
       maxSgLoadRegister d' = maxSgLoadRegister d) /\
    (interval <> 0 /\ interval <= maxStallStepInterval d ->
       lastReadStatus d' = status /\
       minSgLoadRegister d' = Z.min (minSgLoadRegister d) sgLoad /\
       maxSgLoadRegister d' = Z.max (maxSgLoadRegister d) sgLoad) /\
    accumulatedStatus d' = Z.lor (accumulatedStatus d) (lastReadStatus d').
Proof.
  intros Hd Hp interval status sgLoad.
  unfold Driver.TransferDone. rewrite Hd. fields. rewrite Hp.
  fold status. fold interval.
  destruct ((interval =? 0) || (maxStallStepInterval d <? interval)) eqn:Hc.
  - apply orb_true_iff in Hc.
    eexists. split; [ eapply lookup_set_driver_eq; fields; eauto |].
    fields. split; [| split].
    + intros _. repeat split.
      rewrite <- Z.land_assoc.
      replace (Z.land (not32 TMC_RR_SG) TMC_RR_SG) with 0 by reflexivity.
      apply Z.land_0_r.
    + intros [H1 H2]. destruct Hc as [Hc|Hc]; lia.
    + reflexivity.
  - apply orb_false_iff in Hc. destruct Hc as [Hc1 Hc2].
    fold sgLoad.
    eexists. split; [ eapply lookup_set_driver_eq; fields; eauto |].
    split; [| split].
    + intros [?|?]; lia.
    + intros _.
      destruct (sgLoad <? minSgLoadRegister d) eqn:E1; fields;
        destruct (maxSgLoadRegister d <? sgLoad) eqn:E2; fields;
        repeat split; lia.
    + destruct (sgLoad <? minSgLoadRegister d); fields;
        destruct (maxSgLoadRegister d <? sgLoad); reflexivity.
Qed.

(** ** Masking of bit fields *)

(** [closed t] succeeds when no variable occurs in [t]. *)
Ltac closed t :=
  match t with
  | context [?x] => is_var x; fail 1
  | _ => idtac
  end.

(** Replace a conjunction of two constant words by its value. *)
Ltac fold_masks :=
  repeat match goal with
  | |- context [Z.land ?a ?b] =>
      closed a; closed b;
      let v := eval vm_compute in (Z.land a b) in
      progress change (Z.land a b) with v
  end.

(** Push a mask through updates of the form [(r & keep) | bits]. *)
Ltac mask_fields :=
  repeat (rewrite Z.land_lor_distr_l || rewrite <- Z.land_assoc
          || fold_masks
          || rewrite Z.land_0_r || rewrite Z.lor_0_r || rewrite Z.lor_0_l).

Lemma chop_accept_toff v :
  Z.land (Z.lor (Z.land v 0x1FFFF) TMC_REG_CHOPCONF) TMC_CHOPCONF_TOFF_MASK
  = Z.land v TMC_CHOPCONF_TOFF_MASK.
Proof. mask_fields. reflexivity. Qed.

Lemma chop_roundtrip v :
  Z.land (Z.lor (Z.land v 0x1FFFF) TMC_REG_CHOPCONF) TMC_DATA_MASK
  = Z.land v 0x1FFFF.
Proof. mask_fields. reflexivity. Qed.

Lemma chop_disabled_toff c :
  Z.land (Z.land c (not32 TMC_CHOPCONF_TOFF_MASK)) TMC_CHOPCONF_TOFF_MASK = 0.
Proof. mask_fields. reflexivity. Qed.

Lemma offtime_toff c n :
  0 <= n <= 15 ->
  Z.land (Z.lor (Z.land c (not32 TMC_CHOPCONF_TOFF_MASK))
                (Z.land (shl32 n TMC_CHOPCONF_TOFF_SHIFT)
                        TMC_CHOPCONF_TOFF_MASK))
         TMC_CHOPCONF_TOFF_MASK = n.
Proof.
  intros Hn. mask_fields.
  unfold shl32, TMC_CHOPCONF_TOFF_SHIFT. rewrite Z.shiftl_0_r.
  rewrite u32_small by lia.
  change 15 with (Z.ones 4). rewrite Z.land_ones by lia.
  apply Z.mod_small. lia.
Qed.

Lemma offtime_tbl c x :
  Z.land (Z.lor (Z.land c (not32 TMC_CHOPCONF_TOFF_MASK))
                (Z.land x TMC_CHOPCONF_TOFF_MASK))
         TMC_CHOPCONF_TBL_MASK
  = Z.land c TMC_CHOPCONF_TBL_MASK.
Proof. mask_fields. reflexivity. Qed.

(** ** The chopper setters *)

Lemma SetChopConf_accepts_iff v d :
  fst (Driver.SetChopConf v d) = true <->
  Z.land v TMC_CHOPCONF_TOFF_MASK <> 0 /\
  ~ (Z.land v TMC_CHOPCONF_TOFF_MASK = 1 /\
     Z.land v TMC_CHOPCONF_TBL_MASK = 0).
Proof.
  unfold Driver.SetChopConf, TMC_CHOPCONF_TOFF_SHIFT.
  rewrite Z.shiftr_0_r.
  destruct (Z.eqb_spec (Z.land v TMC_CHOPCONF_TOFF_MASK) 0) as [E0|E0];
    destruct (Z.eqb_spec (Z.land v TMC_CHOPCONF_TOFF_MASK) 1) as [E1|E1];
    destruct (Z.eqb_spec (Z.land v TMC_CHOPCONF_TBL_MASK) 0) as [E2|E2];
    cbn [orb andb fst]; split; intros H; try discriminate; try reflexivity;
    try tauto; try lia.
Qed.

Lemma SetChopConf_rejected v d :
  fst (Driver.SetChopConf v d) = false -> snd (Driver.SetChopConf v d) = d.
Proof.
  unfold Driver.SetChopConf.
  destruct (_ || _); cbn [fst snd]; [reflexivity | discriminate].
Qed.

Lemma SetChopConf_accepted v d :
  fst (Driver.SetChopConf v d) = true ->
  snd (Driver.SetChopConf v d)
  = Driver.UpdateChopConfRegister
      (with_configuredChopConfReg
         (Z.lor (Z.land v 0x1FFFF) TMC_REG_CHOPCONF) d).
Proof.
  unfold Driver.SetChopConf.
  destruct (_ || _); cbn [fst snd]; [discriminate | reflexivity].
Qed.

Lemma SetOffTime_rejected n d :
  fst (Driver.SetOffTime n d) = false -> snd (Driver.SetOffTime n d) = d.
Proof.
  unfold Driver.SetOffTime. destruct (15 <? n); [reflexivity|].
  apply SetChopConf_rejected.
Qed.

Lemma SetOffTime_accepts_iff n d :
  0 <= n ->
  fst (Driver.SetOffTime n d) = true <->
  1 <= n <= 15 /\
  ~ (n = 1 /\ Z.land (configuredChopConfReg d) TMC_CHOPCONF_TBL_MASK = 0).
Proof.
  intros Hn. unfold Driver.SetOffTime.
  destruct (Z.ltb_spec 15 n) as [Hgt|Hle].
  - cbn [fst]. split; [discriminate | lia].
  - rewrite SetChopConf_accepts_iff, offtime_toff, offtime_tbl by lia.
    split; intros [H1 H2]; (split; [lia | exact H2]).
Qed.

(** C5. For a driver index in range, [SetOffTime(n)] succeeds exactly when
    [1 <= n <= 15] and not ([n = 1] with the blanking field of the
    configured chopper register zero). [SetChopperControlRegister] fails
    exactly on an off-time field of 0, or of 1 with blanking 0. Whenever
    either of them fails, the whole state (configured chopper register,
    the five shadow registers and the dirty mask included) is as before. *)
Theorem SetOffTime_accepts_or_leaves_state driver n s d :
  (driver < numTmc2660Drivers s)%nat ->
  driverStates s !! driver = Some d ->
  0 <= n < 2 ^ 32 ->
  (fst (SmartDrivers.SetOffTime driver n s) = true <->
     1 <= n <= 15 /\
     ~ (n = 1 /\
        Z.land (configuredChopConfReg d) TMC_CHOPCONF_TBL_MASK = 0)) /\
  (fst (SmartDrivers.SetOffTime driver n s) = false ->
     snd (SmartDrivers.SetOffTime driver n s) = s) /\
  (forall ccr,
     (fst (SmartDrivers.SetChopperControlRegister driver ccr s) = false <->
        Z.land ccr TMC_CHOPCONF_TOFF_MASK = 0 \/
        (Z.land ccr TMC_CHOPCONF_TOFF_MASK = 1 /\
         Z.land ccr TMC_CHOPCONF_TBL_MASK = 0)) /\
     (fst (SmartDrivers.SetChopperControlRegister driver ccr s) = false ->
        snd (SmartDrivers.SetChopperControlRegister driver ccr s) = s)).
Proof.
  intros Hr Hd Hn.
  unfold SmartDrivers.SetOffTime, SmartDrivers.SetChopperControlRegister,
    SmartDrivers.in_range, SmartDrivers.call_ret.
  apply Nat.ltb_lt in Hr. rewrite Hr, Hd. cbn [fst snd].
  split; [apply SetOffTime_accepts_iff; lia |].
  split.
  - intros H. rewrite (SetOffTime_rejected _ _ H).
    apply set_driver_same. exact Hd.
  - intros ccr. split.
    + pose proof (SetChopConf_accepts_iff ccr d) as Hiff.
      destruct (fst (Driver.SetChopConf ccr d)).
      * split; [discriminate|]. intros H.
        destruct Hiff as [Hiff _]. specialize (Hiff eq_refl). tauto.
      * split; [| reflexivity]. intros _.
        destruct (Z.eq_dec (Z.land ccr TMC_CHOPCONF_TOFF_MASK) 0) as [E0|E0];
          [left; exact E0 | right].
        destruct (Z.eq_dec (Z.land ccr TMC_CHOPCONF_TOFF_MASK) 1) as [E1|E1];
          destruct (Z.eq_dec (Z.land ccr TMC_CHOPCONF_TBL_MASK) 0) as [E2|E2];
          try (split; assumption);
          exfalso; destruct Hiff as [_ Hiff];
          assert (false = true) by (apply Hiff; tauto); discriminate.
    + intros H. rewrite (SetChopConf_rejected _ _ H).
      apply set_driver_same. exact Hd.
Qed.

(** C6. A value accepted by [SetChopperControlRegister] is read back by
    [GetChopperControlRegister] with its low 17 bits. *)
Theorem chopper_control_roundtrip driver v s d :
  (driver < numTmc2660Drivers s)%nat ->
  driverStates s !! driver = Some d ->
  Z.land v TMC_CHOPCONF_TOFF_MASK <> 0 ->
  ~ (Z.land v TMC_CHOPCONF_TOFF_MASK = 1 /\
     Z.land v TMC_CHOPCONF_TBL_MASK = 0) ->
  fst (SmartDrivers.SetChopperControlRegister driver v s) = true /\
  SmartDrivers.GetChopperControlRegister driver
    (snd (SmartDrivers.SetChopperControlRegister driver v s))
  = Z.land v 0x1FFFF.
Proof.
  intros Hr Hd H0 H1.
  assert (Hacc : fst (Driver.SetChopConf v d) = true)
    by (apply SetChopConf_accepts_iff; split; assumption).
  unfold SmartDrivers.SetChopperControlRegister,
    SmartDrivers.GetChopperControlRegister, SmartDrivers.in_range,
    SmartDrivers.call_ret, SmartDrivers.read.
  apply Nat.ltb_lt in Hr. rewrite Hr, Hd. cbn [fst snd].
  split; [exact Hacc|].
  cbn [numTmc2660Drivers set_driver with_driverStates]. rewrite Hr.
  erewrite lookup_set_driver_eq by exact Hd.
  rewrite (SetChopConf_accepted _ _ Hacc).
  unfold Driver.GetChopConf, Driver.UpdateChopConfRegister. fields.
  apply chop_roundtrip.
Qed.

(** ** Microstepping *)

Lemma count_shift_total fuel uSteps shift :
  0 < uSteps < 2 ^ (Z.of_nat fuel - 1) ->
  exists r, SmartDrivers.count_shift fuel uSteps shift = Some r.
Proof.
  revert uSteps shift. induction fuel as [|fuel IH]; intros uSteps shift Hu.
  - change (2 ^ (Z.of_nat 0 - 1)) with 0 in Hu. lia.
  - cbn [SmartDrivers.count_shift].
    destruct (Z.eqb_spec (Z.land uSteps 1) 0) as [He|Ho]; [| eauto].
    apply IH. rewrite Z.shiftr_div_pow2 by lia. change (2 ^ 1) with 2.
    change 1 with (Z.ones 1) in He. rewrite Z.land_ones in He by lia.
    change (2 ^ 1) with 2 in He.
    assert (Hf : (0 < fuel)%nat).
    { destruct fuel; [| lia]. change (2 ^ (Z.of_nat 1 - 1)) with 1 in Hu. lia. }
    replace (Z.of_nat (S fuel) - 1) with (Z.succ (Z.of_nat fuel - 1)) in Hu
      by lia.
    rewrite Z.pow_succ_r in Hu by lia.
    split; [| apply Z.div_lt_upper_bound; lia].
    assert (2 <= uSteps) by (Z.div_mod_to_equations; lia).
    apply Z.div_str_pos. lia.
Qed.

Lemma count_shift_sound fuel uSteps shift u' shift' :
  0 <= shift -> shift + Z.of_nat fuel < 2 ^ 32 ->
  SmartDrivers.count_shift fuel uSteps shift = Some (u', shift') ->
  shift <= shift' /\ uSteps = u' * 2 ^ (shift' - shift).
Proof.
  revert uSteps shift.
  induction fuel as [|fuel IH]; intros uSteps shift H0 Hb Hc;
    cbn [SmartDrivers.count_shift] in Hc; [discriminate|].
  destruct (Z.eqb_spec (Z.land uSteps 1) 0) as [He|Ho].
  - rewrite u32_small in Hc by lia.
    apply IH in Hc; [| lia | lia]. destruct Hc as [Hle Heq].
    split; [lia|].
    replace (shift' - shift) with (Z.succ (shift' - (shift + 1))) by lia.
    rewrite Z.pow_succ_r by lia.
    rewrite Z.shiftr_div_pow2 in Heq by lia. change (2 ^ 1) with 2 in Heq.
    change 1 with (Z.ones 1) in He. rewrite Z.land_ones in He by lia.
    change (2 ^ 1) with 2 in He.
    assert (uSteps = 2 * (uSteps / 2)) by (Z.div_mod_to_equations; lia).
    lia.
  - inversion Hc; subst. split; [lia|].
    rewrite Z.sub_diag. simpl. lia.
Qed.

Lemma valid_microsteps_pow2 m :
  m ∈ valid_microsteps <-> exists k, 0 <= k <= 8 /\ m = 2 ^ k.
Proof.
  unfold valid_microsteps. split.
  - intros H. exists (Z.log2 m).
    repeat (apply elem_of_cons in H; destruct H as [->|H]);
      [split; [vm_compute; split; discriminate | reflexivity] .. |].
    apply elem_of_nil in H. destruct H.
  - intros (k & Hk & ->).
    assert (Hc : k = 0 \/ k = 1 \/ k = 2 \/ k = 3 \/ k = 4 \/ k = 5 \/ k = 6
                 \/ k = 7 \/ k = 8) by lia.
    repeat (destruct Hc as [->|Hc]); try subst k;
      change (2 ^ 0) with 1; change (2 ^ 1) with 2; change (2 ^ 2) with 4;
      change (2 ^ 3) with 8; change (2 ^ 4) with 16; change (2 ^ 5) with 32;
      change (2 ^ 6) with 64; change (2 ^ 7) with 128;
      change (2 ^ 8) with 256;
      repeat (first [apply list_elem_of_here | apply list_elem_of_further]).
Qed.

Lemma shl32_one k : 0 <= k < 32 -> shl32 1 k = 2 ^ k.
Proof.
  intros Hk. unfold shl32. rewrite Z.shiftl_1_l. apply u32_small.
  split; [apply Z.pow_nonneg; lia | apply Z.pow_lt_mono_r; lia].
Qed.

Lemma reg_set_reg_eq i v rf : (i < NumRegisters)%nat -> reg (set_reg i v rf) i = v.
Proof.
  unfold NumRegisters. intros Hi.
  do 5 (destruct i as [|i]; [reflexivity|]). lia.
Qed.

Lemma reg_set_reg_ne i j v rf : i <> j -> reg (set_reg i v rf) j = reg rf j.
Proof.
  intros Hij.
  do 5 (destruct i as [|i];
        [do 5 (destruct j as [|j]; [reflexivity || congruence|]); reflexivity|]).
  reflexivity.
Qed.

Lemma SetMicrostepping_fields shift interpolate d :
  0 <= shift <= 8 ->
  let d' := snd (Driver.SetMicrostepping shift interpolate d) in
  microstepShiftFactor d' = shift /\
  Z.land (reg (registers d') DriveControl) TMC_DRVCTRL_MRES_MASK = 8 - shift /\
  Z.testbit (reg (registers d') DriveControl) 9 = interpolate /\
  Driver.GetMicrostepping d' = (2 ^ shift, interpolate).
Proof.
  intros Hs d'. subst d'.
  unfold Driver.GetMicrostepping, Driver.SetMicrostepping. fields.
  rewrite reg_set_reg_eq by (unfold DriveControl, NumRegisters; lia).
  set (r := reg (registers d) DriveControl).
  assert (Hmres :
    Z.land (shl32 (sub32 8 shift) TMC_DRVCTRL_MRES_SHIFT) TMC_DRVCTRL_MRES_MASK
    = 8 - shift).
  { unfold shl32, sub32, TMC_DRVCTRL_MRES_SHIFT, TMC_DRVCTRL_MRES_MASK.
    rewrite Z.shiftl_0_r, !u32_small; rewrite ?u32_small; try lia.
    change 15 with (Z.ones 4). rewrite Z.land_ones by lia.
    apply Z.mod_small. lia. }
  assert (Hbit : forall x,
    negb (Z.land x TMC_DRVCTRL_INTPOL =? 0) = Z.testbit x 9).
  { intros x. change TMC_DRVCTRL_INTPOL with (2 ^ 9).
    rewrite land_pow2_testbit by lia. apply negb_involutive. }
  rewrite Hbit, shl32_one by lia.
  split; [reflexivity|].
  destruct interpolate.
  - split; [| split].
    + mask_fields. exact Hmres.
    + change TMC_DRVCTRL_INTPOL with (2 ^ 9).
      rewrite Z.lor_spec, Z.pow2_bits_true by lia. apply orb_true_r.
    + f_equal. change TMC_DRVCTRL_INTPOL with (2 ^ 9).
      rewrite Z.lor_spec, Z.pow2_bits_true by lia. apply orb_true_r.
  - split; [| split].
    + mask_fields. exact Hmres.
    + rewrite Z.land_spec.
      replace (Z.testbit (not32 TMC_DRVCTRL_INTPOL) 9) with false
        by reflexivity.
      apply andb_false_r.
    + f_equal. rewrite Z.land_spec.
      replace (Z.testbit (not32 TMC_DRVCTRL_INTPOL) 9) with false
        by reflexivity.
      apply andb_false_r.
Qed.

Lemma count_shift_pow2 k :
  0 <= k <= 8 ->
  SmartDrivers.count_shift SmartDrivers.shift_fuel (2 ^ k) 0 = Some (1, k).
Proof.
  intros Hk.
  assert (Hc : k = 0 \/ k = 1 \/ k = 2 \/ k = 3 \/ k = 4 \/ k = 5 \/ k = 6
               \/ k = 7 \/ k = 8) by lia.
  repeat (destruct Hc as [->|Hc]); try subst k; reflexivity.
Qed.

(** C4. For a driver index in range and a microstep count among
    1, 2, 4, ..., 256, [SetMicrostepping] returns true, stores the shift
    log2(m), writes 8 - shift to the MRES field of register 0, sets the
    INTPOL bit exactly when interpolation is asked for, and
    [GetMicrostepping] then returns the count and the flag. For any other
    count it returns false and leaves the state as it was. *)
Theorem SetMicrostepping_accepts_powers_of_two driver m interpolate s d :
  (driver < numTmc2660Drivers s)%nat ->
  driverStates s !! driver = Some d ->
  0 <= m < 2 ^ 32 ->
  (m ∈ valid_microsteps ->
     let r := SmartDrivers.SetMicrostepping driver m interpolate s in
     fst r = true /\
     SmartDrivers.GetMicrostepping driver (snd r) = (m, interpolate) /\
     exists d',
       driverStates (snd r) !! driver = Some d' /\
       microstepShiftFactor d' = Z.log2 m /\
       Z.land (reg (registers d') DriveControl) TMC_DRVCTRL_MRES_MASK
       = 8 - Z.log2 m /\
       Z.testbit (reg (registers d') DriveControl) 9 = interpolate) /\
  (m ∉ valid_microsteps ->
     SmartDrivers.SetMicrostepping driver m interpolate s = (false, s)).
Proof.
  intros Hr Hd Hm. apply Nat.ltb_lt in Hr.
  unfold SmartDrivers.SetMicrostepping, SmartDrivers.GetMicrostepping,
    SmartDrivers.in_range.
  rewrite Hr. split.
  - intros Hv. apply valid_microsteps_pow2 in Hv. destruct Hv as (k & Hk & ->).
    rewrite Z.log2_pow2 by lia.
    assert (Hpos : (0 <? 2 ^ k) = true)
      by (apply Z.ltb_lt, Z.pow_pos_nonneg; lia).
    rewrite Hpos, count_shift_pow2 by lia. cbn [andb].
    assert (Hle : (k <=? 8) = true) by (apply Z.leb_le; lia).
    rewrite Hle. cbn [Z.eqb Pos.eqb andb fst snd].
    unfold SmartDrivers.call, SmartDrivers.read. rewrite Hd.
    cbn [numTmc2660Drivers set_driver with_driverStates]. rewrite Hr.
    erewrite lookup_set_driver_eq by exact Hd.
    destruct (SetMicrostepping_fields k interpolate d Hk) as (H1 & H2 & H3 & H4).
    split; [reflexivity|]. split; [exact H4|].
    eexists. split; [reflexivity|]. auto.
  - intros Hv.
    destruct (0 <? m) eqn:Hpos; cbn [andb]; [| reflexivity].
    destruct (SmartDrivers.count_shift _ m 0) as [[u sh]|] eqn:Hc;
      [| reflexivity].
    destruct ((u =? 1) && (sh <=? 8)) eqn:Hok; [| reflexivity].
    exfalso. apply Hv. apply andb_true_iff in Hok. destruct Hok as [Hu Hs].
    apply Z.eqb_eq in Hu. apply Z.leb_le in Hs. subst u.
    apply count_shift_sound in Hc;
      [| lia | unfold SmartDrivers.shift_fuel; lia].
    destruct Hc as [Hge Heq]. rewrite Z.sub_0_r, Z.mul_1_l in Heq.
    apply valid_microsteps_pow2. exists sh. split; [lia | exact Heq].
Qed.

(** ** Status readers *)

(** C7, as the code has it. For a driver index in range,
    [GetAccumulatedStatus] replaces [accumulatedStatus] by
    [accumulatedStatus & bitsToKeep & mask], where [mask] is all ones for an
    enabled driver and lacks the SG bit for a disabled one, and touches
    nothing else. The value returned is the previous [accumulatedStatus]
    restricted to the seven reported flags and to [mask], not the whole
    previous word. *)
Theorem GetAccumulatedStatus_reads_and_reduces driver bitsToKeep s d :
  (driver < numTmc2660Drivers s)%nat ->
  driverStates s !! driver = Some d ->
  let mask := if enabled d then 0xFFFFFFFF else not32 TMC_RR_SG in
  let r := SmartDrivers.GetAccumulatedStatus driver bitsToKeep s in
  fst r = Z.land (Z.land (accumulatedStatus d) TMC_RR_REPORTED) mask /\
  snd r =
    set_driver driver
      (with_accumulatedStatus
         (Z.land (accumulatedStatus d) (Z.land bitsToKeep mask)) d) s /\
  (forall i, 0 <= i ->
     Z.testbit (fst r) i
     = Z.testbit (accumulatedStatus d) i && Z.testbit TMC_RR_REPORTED i
       && Z.testbit mask i).
Proof.
  intros Hr Hd mask r. subst r. apply Nat.ltb_lt in Hr.
  unfold SmartDrivers.GetAccumulatedStatus, SmartDrivers.in_range,
    SmartDrivers.call_ret, Driver.ReadAccumulatedStatus.
  rewrite Hr, Hd. cbn [fst snd]. fold mask.
  split; [reflexivity|]. split; [reflexivity|].
  intros i Hi. rewrite !Z.land_spec. reflexivity.
Qed.

(** C8, as the code has it. If the driver is disabled before the call (or
    its index is out of range), then after [EnableDrive(driver, true)] the
    live status has the SG bit clear. *)
Theorem EnableDrive_clears_stall_when_disabled driver s :
  (forall d, driverStates s !! driver = Some d -> enabled d = false) ->
  Z.land
    (SmartDrivers.GetLiveStatus driver (SmartDrivers.EnableDrive driver true s))
    TMC_RR_SG = 0.
Proof.
  intros Hdis.
  unfold SmartDrivers.GetLiveStatus, SmartDrivers.EnableDrive,
    SmartDrivers.in_range.
  destruct (driver <? numTmc2660Drivers s)%nat eqn:Hr.
  - unfold SmartDrivers.call, SmartDrivers.read.
    destruct (driverStates s !! driver) as [d|] eqn:Hd.
    + cbn [numTmc2660Drivers set_driver with_driverStates]. rewrite Hr.
      erewrite lookup_set_driver_eq by exact Hd.
      unfold Driver.Enable. rewrite (Hdis d eq_refl). cbn [Bool.eqb negb].
      unfold Driver.ReadLiveStatus, Driver.UpdateChopConfRegister. fields.
      mask_fields. reflexivity.
    + rewrite Hr, Hd. reflexivity.
  - rewrite Hr. reflexivity.
Qed.

(** ** Stall threshold *)

Lemma sgt_field_written r v :
  0 <= v < 128 ->
  Z.shiftr
    (Z.land (Z.lor (Z.land r (not32 TMC_SGCSCONF_SGT_MASK))
                   (shl32 v TMC_SGCSCONF_SGT_SHIFT))
            TMC_SGCSCONF_SGT_MASK)
    TMC_SGCSCONF_SGT_SHIFT = v.
Proof.
  intros Hv. rewrite Z.land_lor_distr_l, <- Z.land_assoc.
  fold_masks. rewrite Z.land_0_r, Z.lor_0_l.
  unfold shl32, TMC_SGCSCONF_SGT_SHIFT, TMC_SGCSCONF_SGT_MASK.
  rewrite u32_small
    by (rewrite Z.shiftl_mul_pow2 by lia; change (2 ^ 8) with 256; lia).
  rewrite <- Z.shiftl_land. change 127 with (Z.ones 7).
  rewrite Z.land_ones by lia. rewrite Z.mod_small by (change (2 ^ 7) with 128; lia).
  rewrite Z.shiftr_shiftl_l by lia. apply Z.shiftl_0_r.
Qed.

Lemma sgt_encode c :
  -64 <= c <= 63 -> Z.land (u32 c) 127 = c mod 128.
Proof.
  intros Hc. rewrite u32_mod. change 127 with (Z.ones 7).
  rewrite Z.land_ones by lia. change (2 ^ 7) with 128.
  change (2 ^ 32) with 4294967296.
  Z.div_mod_to_equations. lia.
Qed.

Lemma constrain_range x lo hi : lo <= hi -> lo <= constrain x lo hi <= hi.
Proof.
  intros H. unfold constrain.
  destruct (Z.ltb_spec x lo); [lia|]. destruct (Z.ltb_spec hi x); lia.
Qed.

Lemma constrain_id x lo hi : lo <= x <= hi -> constrain x lo hi = x.
Proof.
  intros H. unfold constrain.
  destruct (Z.ltb_spec x lo); [lia|]. destruct (Z.ltb_spec hi x); lia.
Qed.

(** C10. After [SetStallThreshold(driver, t)] on a driver index in range,
    [AppendStallConfig] prints [t] clamped to -64..63. The SGT field holds
    the 7-bit two's complement of the clamped value, and every field value
    [f] in 0..127 is the encoding of the threshold it is displayed as. *)
Theorem stall_threshold_roundtrip StepClockRate driver t s d :
  (driver < numTmc2660Drivers s)%nat ->
  driverStates s !! driver = Some d ->
  let s' := SmartDrivers.SetStallThreshold driver t s in
  let sgt d' :=
    Z.shiftr (Z.land (reg (registers d') StallGuardConfig) TMC_SGCSCONF_SGT_MASK)
             TMC_SGCSCONF_SGT_SHIFT in
  rep_threshold <$> SmartDrivers.AppendStallConfig StepClockRate driver s'
  = Some (constrain t (-64) 63) /\
  (exists d', driverStates s' !! driver = Some d' /\
              sgt d' = constrain t (-64) 63 mod 128) /\
  (forall f, 0 <= f < 128 ->
     t = (if 64 <=? f then f - 128 else f) ->
     exists d', driverStates s' !! driver = Some d' /\ sgt d' = f).
Proof.
  intros Hr Hd s' sgt. subst s'. apply Nat.ltb_lt in Hr.
  unfold SmartDrivers.AppendStallConfig, SmartDrivers.SetStallThreshold,
    SmartDrivers.in_range, SmartDrivers.call, SmartDrivers.read.
  rewrite Hr, Hd. cbn [numTmc2660Drivers set_driver with_driverStates].
  rewrite Hr. erewrite lookup_set_driver_eq by exact Hd.
  pose proof (constrain_range t (-64) 63 ltac:(lia)) as Hc.
  set (c := constrain t (-64) 63) in *.
  assert (Hsgt : sgt (Driver.SetStallDetectThreshold t d) = c mod 128).
  { unfold sgt, Driver.SetStallDetectThreshold. fields.
    rewrite reg_set_reg_eq by (unfold StallGuardConfig, NumRegisters; lia).
    fold c. rewrite sgt_encode by exact Hc.
    apply sgt_field_written. apply Z.mod_pos_bound. lia. }
  split; [| split].
  - cbn [fmap option_fmap option_map]. f_equal.
    unfold Driver.AppendStallConfig. cbn [rep_threshold].
    fold (sgt (Driver.SetStallDetectThreshold t d)). rewrite Hsgt.
    destruct (Z.leb_spec 64 (c mod 128)); Z.div_mod_to_equations; lia.
  - eexists. split; [reflexivity | exact Hsgt].
  - intros f Hf Ht. eexists. split; [reflexivity|]. rewrite Hsgt.
    assert (c = t) by (apply constrain_id; destruct (Z.leb_spec 64 f); lia).
    destruct (Z.leb_spec 64 f); Z.div_mod_to_equations; lia.
Qed.

(** ** What every operation preserves *)

Lemma dirty_bit_range m k :
  0 <= m < 32 -> (k < NumRegisters)%nat ->
  0 <= Z.lor m (shl32 1 (Z.of_nat k)) < 32.
Proof.
  unfold NumRegisters. intros Hm Hk. change 32 with (2 ^ 5).
  apply lor_lt_pow2; [lia | exact Hm |].
  rewrite shl32_one by lia.
  split; [apply Z.pow_nonneg; lia | apply Z.pow_lt_mono_r; lia].
Qed.

(** A method that leaves the chopper fields alone and keeps the dirty mask
    in range keeps the invariant of the driver. *)
Lemma driver_ok_frame b d d' :
  driver_ok b d ->
  0 <= registersToUpdate d' < 32 ->
  reg (registers d') ChopperControl = reg (registers d) ChopperControl ->
  configuredChopConfReg d' = configuredChopConfReg d ->
  enabled d' = enabled d ->
  driver_ok b d'.
Proof.
  unfold driver_ok, derived_chop. intros (H1 & H2 & H3) Hm Hr Hc He.
  rewrite Hr, Hc, He. auto.
Qed.

Ltac keeps_chop H :=
  eapply driver_ok_frame;
  [ exact H
  | fields;
    first [ apply dirty_bit_range; [apply H | vm_compute; lia]
          | apply H
          | vm_compute; split; [discriminate | reflexivity] ]
  | fields; rewrite ?reg_set_reg_ne by discriminate; reflexivity
  | reflexivity
  | reflexivity ].

Lemma SetAxisNumber_ok b a d :
  driver_ok b d -> driver_ok b (Driver.SetAxisNumber a d).
Proof. intros H. unfold Driver.SetAxisNumber. keeps_chop H. Qed.

Lemma WriteAll_ok b d : driver_ok b d -> driver_ok b (Driver.WriteAll d).
Proof. intros H. unfold Driver.WriteAll. keeps_chop H. Qed.

Lemma SetCurrent_ok b c d :
  driver_ok b d -> driver_ok b (Driver.SetCurrent c d).
Proof. intros H. unfold Driver.SetCurrent. keeps_chop H. Qed.

Lemma ReadAccumulatedStatus_ok b k d :
  driver_ok b d -> driver_ok b (snd (Driver.ReadAccumulatedStatus k d)).
Proof. intros H. unfold Driver.ReadAccumulatedStatus. keeps_chop H. Qed.

Lemma SetMicrostepping_ok b shift i d :
  driver_ok b d -> driver_ok b (snd (Driver.SetMicrostepping shift i d)).
Proof. intros H. unfold Driver.SetMicrostepping. keeps_chop H. Qed.

Lemma SetStallDetectThreshold_ok b t d :
  driver_ok b d -> driver_ok b (Driver.SetStallDetectThreshold t d).
Proof. intros H. unfold Driver.SetStallDetectThreshold. keeps_chop H. Qed.

Lemma SetStallDetectFilter_ok b f d :
  driver_ok b d -> driver_ok b (Driver.SetStallDetectFilter f d).
Proof. intros H. unfold Driver.SetStallDetectFilter. keeps_chop H. Qed.

Lemma SetStallMinimumStepsPerSecond_ok b clock n d :
  driver_ok b d ->
  driver_ok b (Driver.SetStallMinimumStepsPerSecond clock n d).
Proof. intros H. unfold Driver.SetStallMinimumStepsPerSecond. keeps_chop H. Qed.

Lemma SetCoolStep_ok b c d :
  driver_ok b d -> driver_ok b (Driver.SetCoolStep c d).
Proof. intros H. unfold Driver.SetCoolStep. keeps_chop H. Qed.

Lemma AppendDriverStatus_ok b d :
  driver_ok b d -> driver_ok b (snd (Driver.AppendDriverStatus d)).
Proof.
  intros H. unfold Driver.AppendDriverStatus, Driver.ResetLoadRegisters.
  keeps_chop H.
Qed.

Lemma UpdateChopConfRegister_ok (b : bool) d :
  0 <= registersToUpdate d < 32 ->
  (if b
   then Z.land (configuredChopConfReg d) TMC_CHOPCONF_TOFF_MASK <> 0
   else enabled d = false) ->
  driver_ok b (Driver.UpdateChopConfRegister d).
Proof.
  intros Hm Hb. unfold driver_ok, derived_chop, Driver.UpdateChopConfRegister.
  fields. rewrite reg_set_reg_eq by (vm_compute; lia).
  split; [apply dirty_bit_range; [exact Hm | vm_compute; lia] |].
  split; [reflexivity | exact Hb].
Qed.

Lemma SetChopConf_ok v d :
  driver_ok true d -> driver_ok true (snd (Driver.SetChopConf v d)).
Proof.
  intros H. destruct (fst (Driver.SetChopConf v d)) eqn:Hacc.
  - rewrite (SetChopConf_accepted _ _ Hacc).
    apply UpdateChopConfRegister_ok; fields; [apply H|].
    rewrite chop_accept_toff. apply SetChopConf_accepts_iff in Hacc. tauto.
  - rewrite (SetChopConf_rejected _ _ Hacc). exact H.
Qed.

Lemma SetOffTime_ok n d :
  driver_ok true d -> driver_ok true (snd (Driver.SetOffTime n d)).
Proof.
  intros H. unfold Driver.SetOffTime.
  destruct (15 <? n); [exact H | apply SetChopConf_ok, H].
Qed.

Lemma SetDriverMode_ok code mode d :
  driver_ok true d -> driver_ok true (snd (Driver.SetDriverMode code mode d)).
Proof.
  intros H. unfold Driver.SetDriverMode.
  repeat (destruct (_ =? _); [apply SetChopConf_ok, H|]). exact H.
Qed.

Lemma Enable_ok en d :
  driver_ok true d -> driver_ok true (Driver.Enable en d).
Proof.
  intros H. unfold Driver.Enable.
  destruct (negb (Bool.eqb (enabled d) en)); [| exact H].
  apply UpdateChopConfRegister_ok; destruct en; fields; apply H.
Qed.

Lemma zeroDriver_ok : driver_ok false zeroDriver.
Proof.
  split; [vm_compute; split; [discriminate | reflexivity] |].
  split; reflexivity.
Qed.

Lemma Init_object_ok clock a p d :
  driver_ok true (Driver.Init_object clock a p d).
Proof.
  unfold driver_ok, derived_chop. split; [| split].
  - vm_compute. split; [discriminate | reflexivity].
  - reflexivity.
  - vm_compute. discriminate.
Qed.

Lemma drivers_ok_set_driver i d d' s :
  drivers_ok s ->
  driverStates s !! i = Some d ->
  driver_ok (i <? numTmc2660Drivers s)%nat d' ->
  drivers_ok (set_driver i d' s).
Proof.
  intros Hok Hd Hd' j dj Hj. fields.
  destruct (decide (i = j)) as [<-|Hne].
  - rewrite list_lookup_insert_eq in Hj by (eapply lookup_lt_Some; eauto).
    inversion Hj; subst. exact Hd'.
  - rewrite list_lookup_insert_ne in Hj by done. apply Hok. exact Hj.
Qed.

Lemma system_ok_set_driver i d d' s :
  system_ok s ->
  driverStates s !! i = Some d ->
  driver_ok (i <? numTmc2660Drivers s)%nat d' ->
  system_ok (set_driver i d' s).
Proof.
  intros (Hd & Hl & Hs) Hi Hd'. split; [| split].
  - eapply drivers_ok_set_driver; eauto.
  - fields. rewrite length_insert. exact Hl.
  - exact Hs.
Qed.

(** The invariant reads four of the statics only. *)
Lemma system_ok_ext s s' :
  driverStates s' = driverStates s ->
  numTmc2660Drivers s' = numTmc2660Drivers s ->
  driversPowered s' = driversPowered s ->
  currentDriver s' = currentDriver s ->
  system_ok s -> system_ok s'.
Proof.
  unfold system_ok, drivers_ok, scheduler_ok.
  intros -> -> -> ->. auto.
Qed.

Lemma system_ok_call driver f s :
  (driver <? numTmc2660Drivers s)%nat = true ->
  (forall d, driver_ok true d -> driver_ok true (f d)) ->
  system_ok s -> system_ok (SmartDrivers.call driver f s).
Proof.
  intros Hr Hf Hok. unfold SmartDrivers.call.
  destruct (driverStates s !! driver) as [d|] eqn:Hd; [| exact Hok].
  eapply system_ok_set_driver; eauto.
  rewrite Hr. apply Hf. destruct Hok as (Hds & _).
  specialize (Hds _ _ Hd). rewrite Hr in Hds. exact Hds.
Qed.

Lemma system_ok_call_ret {A} (dflt : A) driver f s :
  (driver <? numTmc2660Drivers s)%nat = true ->
  (forall d, driver_ok true d -> driver_ok true (snd (f d))) ->
  system_ok s -> system_ok (snd (SmartDrivers.call_ret dflt driver f s)).
Proof.
  intros Hr Hf Hok. unfold SmartDrivers.call_ret.
  destruct (driverStates s !! driver) as [d|] eqn:Hd; [| exact Hok].
  cbn [snd]. eapply system_ok_set_driver; eauto.
  rewrite Hr. apply Hf. destruct Hok as (Hds & _).
  specialize (Hds _ _ Hd). rewrite Hr in Hds. exact Hds.
Qed.

Lemma system_ok_call_any driver f s :
  (forall b d, driver_ok b d -> driver_ok b (f d)) ->
  system_ok s -> system_ok (SmartDrivers.call driver f s).
Proof.
  intros Hf Hok. unfold SmartDrivers.call.
  destruct (driverStates s !! driver) as [d|] eqn:Hd; [| exact Hok].
  eapply system_ok_set_driver; eauto.
  apply Hf. destruct Hok as (Hds & _). exact (Hds _ _ Hd).
Qed.

Lemma TransferDone_ok G i s :
  system_ok s -> system_ok (Driver.TransferDone G i s).
Proof.
  intros Hok. unfold Driver.TransferDone.
  destruct (driverStates s !! i) as [d|] eqn:Hd; [| exact Hok].
  assert (Hpin : system_ok (digitalWrite (pin d) HIGH s))
    by (revert Hok; apply system_ok_ext; reflexivity).
  change (driversPowered (digitalWrite (pin d) HIGH s))
    with (driversPowered s).
  destruct (driversPowered s); [| exact Hpin].
  destruct Hok as (Hds & _). specialize (Hds _ _ Hd).
  destruct (_ || _).
  - eapply system_ok_set_driver; [exact Hpin | exact Hd |]. keeps_chop Hds.
  - destruct (_ <? minSgLoadRegister d); fields;
      destruct (maxSgLoadRegister d <? _);
      (eapply system_ok_set_driver; [exact Hpin | exact Hd |]);
      keeps_chop Hds.
Qed.

Lemma TransferDone_frame G i s :
  numTmc2660Drivers (Driver.TransferDone G i s) = numTmc2660Drivers s /\
  driversPowered (Driver.TransferDone G i s) = driversPowered s /\
  currentDriver (Driver.TransferDone G i s) = currentDriver s.
Proof.
  unfold Driver.TransferDone.
  destruct (driverStates s !! i) as [d|]; [| auto].
  change (driversPowered (digitalWrite (pin d) HIGH s))
    with (driversPowered s).
  destruct (driversPowered s) eqn:Hp; [| auto].
  destruct (_ || _); fields; repeat split; first [reflexivity | exact Hp].
Qed.

(** ** Choosing the register to send *)

Lemma find_register_spec m fuel regNum :
  (regNum <= 3)%nat -> (4 <= regNum + fuel)%nat ->
  exists k,
    Driver.find_register fuel m regNum (2 ^ Z.of_nat regNum)
    = Some (k, 2 ^ Z.of_nat k) /\
    (regNum <= k <= 4)%nat /\
    (forall j, (regNum <= j < k)%nat -> Z.testbit m (Z.of_nat j) = false) /\
    ((k < 4)%nat -> Z.testbit m (Z.of_nat k) = true).
Proof.
  revert regNum. induction fuel as [|fuel IH]; intros regNum Hr Hf; [lia|].
  cbn [Driver.find_register]. rewrite land_pow2_testbit by lia.
  destruct (Z.testbit m (Z.of_nat regNum)) eqn:Hb; cbn [negb].
  - exists regNum. split; [reflexivity|]. split; [lia|].
    split; [intros j Hj; lia | intros _; exact Hb].
  - assert (Hmask : shl32 (2 ^ Z.of_nat regNum) 1 = 2 ^ Z.of_nat (S regNum)).
    { unfold shl32. rewrite Z.shiftl_mul_pow2 by lia.
      rewrite Nat2Z.inj_succ, Z.pow_succ_r by lia.
      change (2 ^ 1) with 2. rewrite Z.mul_comm. apply u32_small.
      assert (2 ^ Z.of_nat regNum <= 2 ^ 3)
        by (apply Z.pow_le_mono_r; lia).
      assert (0 < 2 ^ Z.of_nat regNum) by (apply Z.pow_pos_nonneg; lia).
      change (2 ^ 3) with 8 in *. change (2 ^ 32) with 4294967296. lia. }
    rewrite Hmask. unfold NumRegisters.
    destruct (Nat.ltb_spec (S regNum) (5 - 1)) as [Hlt|Hge].
    + destruct (IH (S regNum)) as (k & Hk & Hrange & Hlow & Hset); [lia | lia |].
      exists k. split; [exact Hk|]. split; [lia|]. split; [| exact Hset].
      intros j Hj. destruct (decide (j = regNum)) as [->|Hne];
        [exact Hb | apply Hlow; lia].
    + exists (S regNum). split; [reflexivity|]. split; [lia|].
      split; [| lia].
      intros j Hj. replace j with regNum by lia. exact Hb.
Qed.

Lemma select_register_total m : exists r, Driver.select_register m = Some r.
Proof.
  destruct (find_register_spec m NumRegisters 0) as (k & Hk & _);
    [lia | unfold NumRegisters; lia |].
  eexists. exact Hk.
Qed.

Lemma select_register_lowest m :
  0 < m < 32 ->
  exists k,
    Driver.select_register m = Some (k, 2 ^ Z.of_nat k) /\
    (k < NumRegisters)%nat /\ lowest_set_bit m k.
Proof.
  intros Hm.
  destruct (find_register_spec m NumRegisters 0) as (k & Hk & Hr & Hlow & Hset);
    [lia | unfold NumRegisters; lia |].
  exists k. split; [exact Hk|]. split; [unfold NumRegisters; lia|].
  split; [| intros j Hj; apply Hlow; lia].
  destruct (Nat.ltb_spec k 4) as [Hlt|Hge]; [apply Hset, Hlt|].
  assert (k = 4%nat) by lia. subst k.
  destruct (Z.testbit m (Z.of_nat 4)) eqn:Hb; [reflexivity|].
  exfalso. assert (m = 0); [| lia].
  apply Z.bits_inj_0. intros n.
  destruct (Z.ltb_spec n 0) as [Hneg|Hnn]; [apply Z.testbit_neg_r, Hneg|].
  destruct (Z.ltb_spec n 5) as [Hlt5|Hge5].
  - destruct (decide (n = 4)) as [->|Hne]; [exact Hb|].
    rewrite <- (Z2Nat.id n) by lia. apply Hlow. lia.
  - apply (testbit_high m 5 n); [change (2 ^ 5) with 32; lia | lia].
Qed.

Lemma clear_selected_bit m k :
  0 <= m < 32 ->
  Z.land m (not32 (2 ^ Z.of_nat k)) = Z.clearbit m (Z.of_nat k).
Proof.
  intros Hm. rewrite land_not32_ldiff by (change (2 ^ 32) with 4294967296; lia).
  unfold Z.clearbit. rewrite Z.shiftl_1_l. reflexivity.
Qed.

(** The effect of [StartTransfer] on an element of the array, spelt out. *)
Lemma StartTransfer_effect i s d :
  driverStates s !! i = Some d ->
  exists regVal d',
    Driver.StartTransfer i s
    = with_endRxInterrupt true
        (Driver.SetupDMA regVal
           (digitalWrite (pin d') LOW
              (set_driver i d' (with_currentDriver (Some i) s)))) /\
    ((registersToUpdate d = 0 /\
      regVal = reg (registers d) SmartEnable /\ d' = d)
     \/
     (registersToUpdate d <> 0 /\
      exists k mask,
        Driver.select_register (registersToUpdate d) = Some (k, mask) /\
        regVal = reg (registers d) k /\
        d' = with_registersToUpdate
               (Z.land (registersToUpdate d) (not32 mask)) d)).
Proof.
  intros Hd. unfold Driver.StartTransfer. rewrite Hd.
  destruct (Z.eqb_spec (registersToUpdate d) 0) as [Hz|Hnz].
  - exists (reg (registers d) SmartEnable), d. split; [reflexivity|].
    left. auto.
  - destruct (select_register_total (registersToUpdate d)) as ([k mask] & Hsel).
    rewrite Hsel. eexists _, _. split; [reflexivity|].
    right. split; [exact Hnz|]. exists k, mask. auto.
Qed.

Lemma StartTransfer_ok i s :
  drivers_ok s ->
  (numTmc2660Drivers s <= length (driverStates s))%nat ->
  is_Some (driverStates s !! i) \/ scheduler_ok s ->
  system_ok (Driver.StartTransfer i s).
Proof.
  intros Hds Hlen Hsched.
  destruct (driverStates s !! i) as [d|] eqn:Hd.
  - destruct (StartTransfer_effect i s d Hd) as (regVal & d' & -> & Hcase).
    assert (Hd' : driver_ok (i <? numTmc2660Drivers s)%nat d').
    { pose proof (Hds _ _ Hd) as Hok.
      destruct Hcase as [(_ & _ & ->) | (_ & k & mask & _ & _ & ->)];
        [exact Hok|].
      eapply driver_ok_frame; [exact Hok | fields | reflexivity ..].
      change 32 with (2 ^ 5). apply land_lt_pow2; [lia|]. apply Hok. }
    split; [| split].
    + intros j dj Hj. fields.
      destruct (decide (i = j)) as [<-|Hne].
      * rewrite list_lookup_insert_eq in Hj by (eapply lookup_lt_Some; eauto).
        inversion Hj; subst. exact Hd'.
      * rewrite list_lookup_insert_ne in Hj by done. apply Hds. exact Hj.
    + fields. rewrite length_insert. exact Hlen.
    + intros _. left. fields. discriminate.
  - unfold Driver.StartTransfer. rewrite Hd.
    destruct Hsched as [[? Hsome]|Hsched]; [discriminate|].
    split; [exact Hds | split; [exact Hlen | exact Hsched]].
Qed.

(** ** The invariant holds in every reachable state *)

Lemma drivers_ok_ext s s' :
  driverStates s' = driverStates s ->
  numTmc2660Drivers s' = numTmc2660Drivers s ->
  drivers_ok s -> drivers_ok s'.
Proof. unfold drivers_ok. intros -> ->. auto. Qed.

Lemma Handler_ok G s : system_ok s -> system_ok (TMC2660_SPI_Handler G s).
Proof.
  intros Hok. unfold TMC2660_SPI_Handler.
  destruct (currentDriver s) as [driver|] eqn:Hcur.
  - pose proof (TransferDone_ok G driver s Hok) as Hok1.
    set (s1 := Driver.TransferDone G driver s) in *.
    destruct (driversPowered s1) eqn:Hp.
    + apply StartTransfer_ok; [apply Hok1 | apply Hok1 | right; apply Hok1].
    + destruct Hok1 as (Hds & Hlen & _).
      split; [exact Hds | split; [exact Hlen |]].
      intros H.
      change (driversPowered (stop_polling s1)) with (driversPowered s1) in H.
      rewrite Hp in H. discriminate.
  - destruct Hok as (Hds & Hlen & Hs).
    split; [exact Hds | split; [exact Hlen |]].
    intros H. right. destruct (Hs H) as [Hne|Hz]; [destruct (Hne Hcur) | exact Hz].
Qed.

Lemma foldl_WriteAll l s :
  drivers_ok s ->
  (numTmc2660Drivers s <= length (driverStates s))%nat ->
  let s' := foldl (fun s driver => SmartDrivers.call driver Driver.WriteAll s)
                  s l in
  drivers_ok s' /\
  (numTmc2660Drivers s' <= length (driverStates s'))%nat /\
  numTmc2660Drivers s' = numTmc2660Drivers s /\
  driversPowered s' = driversPowered s /\
  currentDriver s' = currentDriver s.
Proof.
  revert s. induction l as [|driver l IH]; intros s Hds Hlen; [cbn; auto|].
  cbn [foldl].
  assert (Hstep :
    drivers_ok (SmartDrivers.call driver Driver.WriteAll s) /\
    (numTmc2660Drivers (SmartDrivers.call driver Driver.WriteAll s)
     <= length (driverStates (SmartDrivers.call driver Driver.WriteAll s)))%nat /\
    numTmc2660Drivers (SmartDrivers.call driver Driver.WriteAll s)
    = numTmc2660Drivers s /\
    driversPowered (SmartDrivers.call driver Driver.WriteAll s)
    = driversPowered s /\
    currentDriver (SmartDrivers.call driver Driver.WriteAll s)
    = currentDriver s).
  { unfold SmartDrivers.call.
    destruct (driverStates s !! driver) as [d|] eqn:Hd; [| auto].
    split; [| fields; rewrite length_insert; auto].
    eapply drivers_ok_set_driver; [exact Hds | exact Hd |].
    apply WriteAll_ok. exact (Hds _ _ Hd). }
  destruct Hstep as (H1 & H2 & H3 & H4 & H5).
  destruct (IH _ H1 H2) as (I1 & I2 & I3 & I4 & I5). cbv zeta in *.
  split; [exact I1 | split; [exact I2 |]].
  split; [congruence | split; congruence].
Qed.

Lemma Spin_ok enablePin powered s :
  system_ok s -> system_ok (SmartDrivers.Spin enablePin powered s).
Proof.
  intros (Hds & Hlen & Hs). unfold SmartDrivers.Spin. destruct powered.
  - set (s2 := if negb (driversPowered s) then _ else _).
    assert (H2 : drivers_ok s2 /\
                 (numTmc2660Drivers s2 <= length (driverStates s2))%nat).
    { subst s2. destruct (driversPowered s); cbn [negb].
      - split; [revert Hds; apply drivers_ok_ext; reflexivity | exact Hlen].
      - match goal with
        | |- context [foldl ?f ?a ?l] =>
            destruct (foldl_WriteAll l a) as (I1 & I2 & _)
        end; [revert Hds; apply drivers_ok_ext; reflexivity | exact Hlen |].
        auto. }
    destruct H2 as (Hds2 & Hlen2).
    destruct (bool_decide (currentDriver s2 = None)
              && negb (numTmc2660Drivers s2 =? 0)%nat) eqn:Hc.
    + apply andb_true_iff in Hc. destruct Hc as [_ Hn].
      apply negb_true_iff, Nat.eqb_neq in Hn.
      apply StartTransfer_ok;
        [revert Hds2; apply drivers_ok_ext; reflexivity | exact Hlen2 |].
      left. apply lookup_lt_is_Some. fields. lia.
    + split; [exact Hds2 | split; [exact Hlen2 |]]. intros _.
      apply andb_false_iff in Hc. destruct Hc as [Hc|Hc].
      * left. apply bool_decide_eq_false in Hc. exact Hc.
      * right. apply negb_false_iff, Nat.eqb_eq in Hc. exact Hc.
  - destruct (driversPowered s);
      (split; [revert Hds; apply drivers_ok_ext; reflexivity
              | split; [exact Hlen | intros H; fields; discriminate]]).
Qed.

Lemma TurnDriversOff_ok enablePin s :
  system_ok s -> system_ok (SmartDrivers.TurnDriversOff enablePin s).
Proof.
  intros (Hds & Hlen & _). unfold SmartDrivers.TurnDriversOff.
  split; [revert Hds; apply drivers_ok_ext; reflexivity
         | split; [exact Hlen | intros H; fields; discriminate]].
Qed.

(** The loop of [SmartDrivers::Init]: the first [k] elements have been
    initialised, the others are as they were. *)
Lemma Init_fold (P : bool -> TmcDriverState -> Prop) clock (sel : list Z) k s :
  (forall a p d, P true (Driver.Init_object clock a p d)) ->
  (k <= length (driverStates s))%nat ->
  (forall i d, driverStates s !! i = Some d -> P false d) ->
  let s' :=
    foldl (fun s driver =>
             Driver.Init clock (Z.of_nat driver) (default 0 (sel !! driver))
                         driver s)
          s (seq 0 k) in
  (forall i d, driverStates s' !! i = Some d -> P (i <? k)%nat d) /\
  length (driverStates s') = length (driverStates s) /\
  numTmc2660Drivers s' = numTmc2660Drivers s /\
  driversPowered s' = driversPowered s /\
  currentDriver s' = currentDriver s.
Proof.
  intros Hinit Hk Hzero. cbv zeta. induction k as [|k IH].
  - cbn [seq foldl]. split; [| auto].
    intros i d Hi. exact (Hzero _ _ Hi).
  - rewrite seq_S, foldl_app. cbn [foldl Nat.add].
    destruct IH as (I1 & I2 & I3 & I4 & I5); [lia|].
    set (sk := foldl _ s (seq 0 k)) in *.
    unfold Driver.Init.
    destruct (driverStates sk !! k) as [d|] eqn:Hd.
    + fields. rewrite length_insert.
      split; [| auto].
      intros i di Hi. destruct (decide (k = i)) as [<-|Hne].
      * rewrite list_lookup_insert_eq in Hi by (eapply lookup_lt_Some; eauto).
        inversion Hi; subst.
        replace (k <? S k)%nat with true by (symmetry; apply Nat.ltb_lt; lia).
        apply Hinit.
      * rewrite list_lookup_insert_ne in Hi by done.
        specialize (I1 _ _ Hi).
        destruct (Nat.ltb_spec i k), (Nat.ltb_spec i (S k));
          try lia; exact I1.
    + apply lookup_ge_None in Hd. lia.
Qed.

Lemma boot_drivers maxDrivers i d :
  driverStates (boot maxDrivers) !! i = Some d -> d = zeroDriver.
Proof.
  unfold boot. fields. intros Hi. apply lookup_replicate in Hi. tauto.
Qed.

Lemma Init_ok clock maxDrivers enablePin sel n :
  system_ok (SmartDrivers.Init clock maxDrivers enablePin sel n
               (boot maxDrivers)).
Proof.
  unfold SmartDrivers.Init.
  match goal with
  | |- system_ok (foldl _ ?a (seq 0 ?k)) =>
      destruct (Init_fold driver_ok clock sel k a) as (I1 & I2 & I3 & I4 & I5)
  end.
  - apply Init_object_ok.
  - fields. unfold boot. fields. rewrite length_replicate. lia.
  - intros i d Hi. apply boot_drivers in Hi. subst d. apply zeroDriver_ok.
  - split; [| split].
    + intros i d Hi. rewrite I3. apply I1. exact Hi.
    + rewrite I2, I3. unfold boot. fields. rewrite length_replicate. lia.
    + intros H. rewrite I4 in H. fields. discriminate.
Qed.

(** [Init] leaves every driver disabled. *)
Lemma Init_disabled clock maxDrivers enablePin sel n i d :
  driverStates
    (SmartDrivers.Init clock maxDrivers enablePin sel n (boot maxDrivers)) !! i
  = Some d ->
  enabled d = false.
Proof.
  unfold SmartDrivers.Init.
  match goal with
  | |- driverStates (foldl _ ?a (seq 0 ?k)) !! _ = _ -> _ =>
      destruct (Init_fold (fun _ d => enabled d = false) clock sel k a)
        as (I1 & _)
  end.
  - reflexivity.
  - fields. unfold boot. fields. rewrite length_replicate. lia.
  - intros j dj Hj. apply boot_drivers in Hj. subst dj. reflexivity.
  - intros Hi. exact (I1 _ _ Hi).
Qed.

Lemma run_ok clock code enablePin op s :
  system_ok s -> system_ok (run clock code enablePin op s).
Proof.
  intros Hok.
  destruct op; cbn [run];
    unfold SmartDrivers.SetAxisNumber, SmartDrivers.SetCurrent,
      SmartDrivers.EnableDrive, SmartDrivers.GetAccumulatedStatus,
      SmartDrivers.SetDriverMode, SmartDrivers.SetChopperControlRegister,
      SmartDrivers.SetOffTime, SmartDrivers.SetStallThreshold,
      SmartDrivers.SetStallFilter, SmartDrivers.SetStallMinimumStepsPerSecond,
      SmartDrivers.SetCoolStep, SmartDrivers.AppendDriverStatus,
      SmartDrivers.in_range;
    try (destruct (_ <? numTmc2660Drivers s)%nat eqn:Hr; [| exact Hok]).
  - apply system_ok_call; auto using SetAxisNumber_ok.
  - apply system_ok_call; auto using SetCurrent_ok.
  - apply system_ok_call; auto using Enable_ok.
  - apply system_ok_call_ret; auto using ReadAccumulatedStatus_ok.
  - unfold SmartDrivers.SetMicrostepping, SmartDrivers.in_range.
    destruct (_ <? numTmc2660Drivers s)%nat eqn:Hr; [| exact Hok].
    cbn [andb].
    destruct (0 <? microsteps); [| exact Hok].
    destruct (SmartDrivers.count_shift _ _ _) as [[u sh]|]; [| exact Hok].
    destruct (_ && _); [| exact Hok].
    cbn [snd]. apply system_ok_call; auto using SetMicrostepping_ok.
  - apply system_ok_call_ret; auto using SetDriverMode_ok.
  - apply system_ok_call_ret; auto using SetChopConf_ok.
  - apply system_ok_call_ret; auto using SetOffTime_ok.
  - apply Spin_ok, Hok.
  - apply TurnDriversOff_ok, Hok.
  - apply system_ok_call; auto using SetStallDetectThreshold_ok.
  - apply system_ok_call; auto using SetStallDetectFilter_ok.
  - apply system_ok_call; auto using SetStallMinimumStepsPerSecond_ok.
  - apply system_ok_call; auto using SetCoolStep_ok.
  - apply system_ok_call_ret; auto using AppendDriverStatus_ok.
  - apply Handler_ok. revert Hok. apply system_ok_ext; reflexivity.
Qed.

Lemma reachable_ok clock code maxDrivers enablePin s :
  reachable clock code maxDrivers enablePin s -> system_ok s.
Proof.
  induction 1 as [sel n | s op _ IH];
    [apply Init_ok | apply run_ok, IH].
Qed.

(** ** The claims about reachable states *)

Lemma toff_zero_iff_disabled (b : bool) d :
  driver_ok b d ->
  (enabled d = true ->
   Z.land (configuredChopConfReg d) TMC_CHOPCONF_TOFF_MASK <> 0) ->
  Z.land (reg (registers d) ChopperControl) TMC_CHOPCONF_TOFF_MASK = 0
  <-> enabled d = false.
Proof.
  intros (_ & Hder & _) Hen. rewrite Hder. unfold derived_chop.
  destruct (enabled d).
  - split; [intros H; destruct (Hen eq_refl H) | discriminate].
  - split; [reflexivity | intros _; apply chop_disabled_toff].
Qed.

(** C2. In every state the subsystem can be observed in, and for every
    element of the driver array, the off-time field of shadow register 2 is
    zero exactly when the driver is not enabled. [Init] leaves every driver
    disabled, hence with the field cleared. The reason the equivalence
    survives every operation is part of the statement: register 2 is always
    the value derived from the configured chopper register through the
    enable flag, and the configured register of a driver in use has a
    nonzero off-time. *)
Theorem off_time_zero_iff_disabled clock code maxDrivers enablePin s i d :
  reachable clock code maxDrivers enablePin s ->
  driverStates s !! i = Some d ->
  (Z.land (reg (registers d) ChopperControl) TMC_CHOPCONF_TOFF_MASK = 0
   <-> enabled d = false) /\
  reg (registers d) ChopperControl = derived_chop d /\
  ((i < numTmc2660Drivers s)%nat ->
   Z.land (configuredChopConfReg d) TMC_CHOPCONF_TOFF_MASK <> 0) /\
  (forall sel n j dj,
     driverStates
       (SmartDrivers.Init clock maxDrivers enablePin sel n (boot maxDrivers))
       !! j = Some dj ->
     enabled dj = false /\
     Z.land (reg (registers dj) ChopperControl) TMC_CHOPCONF_TOFF_MASK = 0).
Proof.
  intros Hreach Hd.
  assert (Hinv : forall s' j dj,
    system_ok s' -> driverStates s' !! j = Some dj ->
    (Z.land (reg (registers dj) ChopperControl) TMC_CHOPCONF_TOFF_MASK = 0
     <-> enabled dj = false) /\
    ((j < numTmc2660Drivers s')%nat ->
     Z.land (configuredChopConfReg dj) TMC_CHOPCONF_TOFF_MASK <> 0)).
  { intros s' j dj (Hds & _) Hj. specialize (Hds _ _ Hj).
    destruct (Nat.ltb_spec j (numTmc2660Drivers s')) as [Hlt|Hge].
    - split; [| intros _; apply Hds].
      eapply toff_zero_iff_disabled; [exact Hds |]. intros _. apply Hds.
    - split; [| lia].
      eapply toff_zero_iff_disabled; [exact Hds |].
      destruct Hds as (_ & _ & Hoff). rewrite Hoff. discriminate. }
  pose proof (reachable_ok _ _ _ _ _ Hreach) as Hok.
  destruct (Hinv _ _ _ Hok Hd) as [Hiff Hcfg].
  split; [exact Hiff|].
  split; [destruct Hok as (Hds & _); apply (Hds _ _ Hd) |].
  split; [exact Hcfg|].
  intros sel n j dj Hj.
  pose proof (Init_disabled _ _ _ _ _ _ _ Hj) as Hdis.
  split; [exact Hdis|].
  apply (Hinv _ _ _ (Init_ok clock maxDrivers enablePin sel n) Hj). exact Hdis.
Qed.

(** C3. When [StartTransfer] runs on a driver whose dirty mask is not zero,
    the word handed to the DMA is the register whose number is the lowest
    set bit of the mask, and that bit and no other is cleared; when the
    mask is zero, register 4 is sent and the driver is left as it was. *)
Theorem StartTransfer_sends_lowest_dirty_register
    clock code maxDrivers enablePin s i d :
  reachable clock code maxDrivers enablePin s ->
  driverStates s !! i = Some d ->
  let s' := Driver.StartTransfer i s in
  (registersToUpdate d <> 0 ->
   exists k,
     lowest_set_bit (registersToUpdate d) k /\
     (k < NumRegisters)%nat /\
     spiDataOut s' = cpu_to_be32 (shl32 (reg (registers d) k) 8) /\
     driverStates s' !! i
     = Some (with_registersToUpdate
               (Z.clearbit (registersToUpdate d) (Z.of_nat k)) d)) /\
  (registersToUpdate d = 0 ->
   spiDataOut s' = cpu_to_be32 (shl32 (reg (registers d) SmartEnable) 8) /\
   driverStates s' !! i = Some d).
Proof.
  intros Hreach Hd s'. subst s'.
  pose proof (reachable_ok _ _ _ _ _ Hreach) as (Hds & _).
  destruct (Hds _ _ Hd) as (Hmask & _).
  destruct (StartTransfer_effect i s d Hd) as (regVal & d' & -> & Hcase).
  assert (Hlook : forall x,
    driverStates
      (with_endRxInterrupt true
         (Driver.SetupDMA regVal
            (digitalWrite (pin x) LOW
               (set_driver i x (with_currentDriver (Some i) s))))) !! i
    = Some x).
  { intros x. fields. apply list_lookup_insert_eq.
    eapply lookup_lt_Some; eauto. }
  split.
  - intros Hnz.
    destruct Hcase as [(Hz & _) | (_ & k & mask & Hsel & -> & ->)];
      [contradiction|].
    destruct (select_register_lowest (registersToUpdate d)) as (k' & Hk' & Hlt & Hlow);
      [lia|].
    rewrite Hsel in Hk'. inversion Hk'; subst k' mask.
    exists k. split; [exact Hlow|]. split; [exact Hlt|].
    split; [reflexivity|].
    rewrite Hlook, clear_selected_bit by exact Hmask. reflexivity.
  - intros Hz.
    destruct Hcase as [(_ & -> & ->) | (Hnz & _)]; [| contradiction].
    split; [reflexivity | apply Hlook].
Qed.

(** C9. In a state the subsystem can be observed in, [Spin(p)] with [p]
    the current power state changes nothing at all: drivers, dirty masks,
    pins, [currentDriver] and the interrupt enables are as before. *)
Theorem Spin_same_state_is_noop clock code maxDrivers enablePin s :
  reachable clock code maxDrivers enablePin s ->
  SmartDrivers.Spin enablePin (driversPowered s) s = s.
Proof.
  intros Hreach.
  pose proof (reachable_ok _ _ _ _ _ Hreach) as (_ & _ & Hs).
  unfold SmartDrivers.Spin.
  assert (Hsame : with_driversPowered (driversPowered s) s = s)
    by (destruct s; reflexivity).
  rewrite Hsame. destruct (driversPowered s) eqn:Hp; cbn [negb].
  - destruct (Hs Hp) as [Hcur|Hnum].
    + rewrite bool_decide_eq_false_2 by exact Hcur. reflexivity.
    + rewrite Hnum. rewrite andb_false_r. reflexivity.
  - reflexivity.
Qed.

(** ** Concrete runs *)

(** Against C7 as worded: after one poll that received a load of 500, the
    accumulated status of driver 0 is [0x7D000], yet a read returns 0: the
    load bits are not among the reported flags. *)
Lemma GetAccumulatedStatus_drops_unreported_bits :
  exists d,
    driverStates Sample.polled !! 0%nat = Some d /\
    accumulatedStatus d = 0x7D000 /\
    fst (SmartDrivers.GetAccumulatedStatus 0 0xFFFFFFFF Sample.polled)
    <> accumulatedStatus d.
Proof.
  eexists. split; [vm_compute; reflexivity |].
  split; [reflexivity | vm_compute; discriminate].
Qed.

(** Against C8 as worded: driver 0 is already enabled and its last status
    has SG set; [EnableDrive(0, true)] does nothing and the live status
    still shows the stall. *)
Lemma EnableDrive_keeps_stall_when_enabled :
  SmartDrivers.EnableDrive 0 true Sample.stalled = Sample.stalled /\
  Z.land
    (SmartDrivers.GetLiveStatus 0
       (SmartDrivers.EnableDrive 0 true Sample.stalled))
    TMC_RR_SG <> 0.
Proof. split; [vm_compute; reflexivity | vm_compute; discriminate]. Qed.

Lemma started_reachable :
  reachable Sample.StepClockRate Sample.DriverMode_code Sample.MaxSmartDrivers
            Sample.GlobalTmc2660EnablePin Sample.started.
Proof.
  exact (reachable_step _ _ _ _ _ (OpSpin true)
           (reachable_init _ _ _ _ Sample.pins 4)).
Defined.

Lemma TransferDone_decodes_status_witness :
  exists d',
    driverStates
      (Driver.TransferDone (Sample.stepping 100) 0
         (with_spiDataIn Sample.stall_reply Sample.started)) !! 0%nat
    = Some d' /\
    lastReadStatus d' = 0x7D001 /\
    minSgLoadRegister d' = 500 /\
    maxSgLoadRegister d' = 500 /\
    accumulatedStatus d' = 0x7D001.
Proof.
  destruct (TransferDone_decodes_status (Sample.stepping 100) 0%nat
              (with_spiDataIn Sample.stall_reply Sample.started) _
              eq_refl eq_refl)
    as (d' & Hl & _ & Hin & Hacc).
  destruct Hin as (H1 & H2 & H3); [vm_compute; split; discriminate |].
  exists d'. split; [exact Hl|]. rewrite Hacc, H1, H2, H3.
  repeat split; reflexivity.
Defined.

Lemma off_time_zero_iff_disabled_witness :
  exists d,
    driverStates Sample.started !! 0%nat = Some d /\
    (Z.land (reg (registers d) ChopperControl) TMC_CHOPCONF_TOFF_MASK = 0
     <-> enabled d = false) /\
    Z.land (configuredChopConfReg d) TMC_CHOPCONF_TOFF_MASK <> 0.
Proof.
  eexists. split; [vm_compute; reflexivity |].
  destruct (off_time_zero_iff_disabled _ _ _ _ _ 0%nat _ started_reachable
              eq_refl)
    as (Hiff & _ & Hcfg & _).
  split; [exact Hiff | apply Hcfg; vm_compute; lia].
Defined.

Lemma StartTransfer_sends_lowest_dirty_register_witness :
  exists d k,
    driverStates Sample.started !! 1%nat = Some d /\
    lowest_set_bit (registersToUpdate d) k /\
    spiDataOut (Driver.StartTransfer 1 Sample.started)
    = cpu_to_be32 (shl32 (reg (registers d) k) 8) /\
    driverStates (Driver.StartTransfer 1 Sample.started) !! 1%nat
    = Some (with_registersToUpdate
              (Z.clearbit (registersToUpdate d) (Z.of_nat k)) d).
Proof.
  eexists.
  destruct (StartTransfer_sends_lowest_dirty_register _ _ _ _ _ 1%nat _
              started_reachable eq_refl)
    as [Hdirty _].
  destruct Hdirty as (k & Hlow & _ & Hout & Hd); [vm_compute; discriminate |].
  exists k. split; [vm_compute; reflexivity |].
  split; [exact Hlow |]. split; [exact Hout | exact Hd].
Defined.

Lemma SetMicrostepping_accepts_powers_of_two_witness :
  fst (SmartDrivers.SetMicrostepping 0 16 false Sample.started) = true /\
  SmartDrivers.GetMicrostepping 0
    (snd (SmartDrivers.SetMicrostepping 0 16 false Sample.started))
  = (16, false) /\
  SmartDrivers.SetMicrostepping 0 24 true Sample.started
  = (false, Sample.started).
Proof.
  destruct (SetMicrostepping_accepts_powers_of_two 0%nat 16 false
              Sample.started _ ltac:(vm_compute; lia) eq_refl
              ltac:(vm_compute; split; [discriminate | reflexivity]))
    as [Hvalid _].
  destruct (SetMicrostepping_accepts_powers_of_two 0%nat 24 true
              Sample.started _ ltac:(vm_compute; lia) eq_refl
              ltac:(vm_compute; split; [discriminate | reflexivity]))
    as [_ Hinvalid].
  destruct Hvalid as (Htrue & Hget & _).
  { apply (bool_decide_unpack _). vm_compute. exact I. }
  split; [exact Htrue |]. split; [exact Hget |].
  apply Hinvalid. apply (bool_decide_unpack _). vm_compute. exact I.
Defined.

Lemma SetOffTime_accepts_or_leaves_state_witness :
  fst (SmartDrivers.SetOffTime 0 5 Sample.started) = true /\
  snd (SmartDrivers.SetOffTime 0 0 Sample.started) = Sample.started /\
  snd (SmartDrivers.SetChopperControlRegister 0 0x901B0 Sample.started)
  = Sample.started.
Proof.
  destruct (SetOffTime_accepts_or_leaves_state 0%nat 5 Sample.started _
              ltac:(vm_compute; lia) eq_refl
              ltac:(vm_compute; split; [discriminate | reflexivity]))
    as (Hiff & _ & _).
  destruct (SetOffTime_accepts_or_leaves_state 0%nat 0 Sample.started _
              ltac:(vm_compute; lia) eq_refl
              ltac:(vm_compute; split; [discriminate | reflexivity]))
    as (_ & Hsame & Hchop).
  split; [apply Hiff; lia |].
  split; [apply Hsame; vm_compute; reflexivity |].
  apply (Hchop 0x901B0). vm_compute. reflexivity.
Defined.

Lemma chopper_control_roundtrip_witness :
  SmartDrivers.GetChopperControlRegister 0
    (snd (SmartDrivers.SetChopperControlRegister 0 0xFFF901B5 Sample.started))
  = 0x101B5.
Proof.
  destruct (chopper_control_roundtrip 0%nat 0xFFF901B5 Sample.started _
              ltac:(vm_compute; lia) eq_refl
              ltac:(vm_compute; discriminate)
              ltac:(vm_compute; intros [H _]; discriminate))
    as [_ Hget].
  exact Hget.
Defined.

Lemma GetAccumulatedStatus_reads_and_reduces_witness :
  fst (SmartDrivers.GetAccumulatedStatus 0 0 Sample.stalled) = 1 /\
  accumulatedStatus
    <$> driverStates
          (snd (SmartDrivers.GetAccumulatedStatus 0 0 Sample.stalled)) !! 0%nat
  = Some 0.
Proof.
  destruct (GetAccumulatedStatus_reads_and_reduces 0%nat 0 Sample.stalled _
              ltac:(vm_compute; lia) ltac:(vm_compute; reflexivity))
    as (Hret & Hstate & _).
  split; [rewrite Hret | rewrite Hstate]; vm_compute; reflexivity.
Defined.

Lemma EnableDrive_clears_stall_when_disabled_witness :
  Z.land (lastReadStatus
            (default zeroDriver
               (driverStates
                  (SmartDrivers.EnableDrive 0 false Sample.stalled) !! 0%nat)))
         TMC_RR_SG = 1 /\
  Z.land
    (SmartDrivers.GetLiveStatus 0
       (SmartDrivers.EnableDrive 0 true
          (SmartDrivers.EnableDrive 0 false Sample.stalled)))
    TMC_RR_SG = 0.
Proof.
  split; [reflexivity |].
  apply (EnableDrive_clears_stall_when_disabled 0%nat
           (SmartDrivers.EnableDrive 0 false Sample.stalled)).
  intros d Hd. vm_compute in Hd. inversion Hd. reflexivity.
Defined.

Lemma Spin_same_state_is_noop_witness :
  SmartDrivers.Spin Sample.GlobalTmc2660EnablePin true Sample.started
  = Sample.started.
Proof.
  exact (Spin_same_state_is_noop _ _ _ _ _ started_reachable).
Defined.

Lemma stall_threshold_roundtrip_witness :
  rep_threshold
    <$> SmartDrivers.AppendStallConfig Sample.StepClockRate 0
          (SmartDrivers.SetStallThreshold 0 (-100) Sample.started)
  = Some (-64).
Proof.
  destruct (stall_threshold_roundtrip Sample.StepClockRate 0%nat (-100)
              Sample.started _ ltac:(vm_compute; lia) eq_refl)
    as (Hprint & _).
  exact Hprint.
Defined.

(** * Further properties of the subsystem *)

(** ** Every element of the array has a history of driver steps *)

Lemma TransferDone_unfold G i s d :
  driverStates s !! i = Some d ->
  Driver.TransferDone G i s
  = if driversPowered s
    then set_driver i
           (TransferDone_update
              (Z.shiftr (be32_to_cpu (spiDataIn s)) 12)
              (G (axisNumber d) (microstepShiftFactor d)) d)
           (digitalWrite (pin d) HIGH s)
    else digitalWrite (pin d) HIGH s.
Proof.
  intros Hd. unfold Driver.TransferDone, TransferDone_update. rewrite Hd.
  change (driversPowered (digitalWrite (pin d) HIGH s))
    with (driversPowered s).
  destruct (driversPowered s); [| reflexivity].
  change (spiDataIn (digitalWrite (pin d) HIGH s)) with (spiDataIn s).
  destruct (_ || _); reflexivity.
Qed.

Section Evolve.

Variable clock : Z.
Variable code : DriverMode -> Z.

Lemma drivers_evolve_refl s : drivers_evolve clock code s s.
Proof.
  split; [reflexivity | split; [reflexivity |]].
  intros i d Hd. exists d. split; [exact Hd | apply rtc_refl].
Qed.

Lemma drivers_evolve_trans s1 s2 s3 :
  drivers_evolve clock code s1 s2 -> drivers_evolve clock code s2 s3 ->
  drivers_evolve clock code s1 s3.
Proof.
  intros (N1 & L1 & H1) (N2 & L2 & H2).
  split; [congruence | split; [congruence |]].
  intros i d3 Hd3. destruct (H2 _ _ Hd3) as (d2 & Hd2 & R2).
  destruct (H1 _ _ Hd2) as (d1 & Hd1 & R1).
  exists d1. split; [exact Hd1 | eapply rtc_trans; eauto].
Qed.

(** Only the array and the number of drivers matter. *)
Lemma drivers_evolve_ext s s' :
  driverStates s' = driverStates s ->
  numTmc2660Drivers s' = numTmc2660Drivers s ->
  drivers_evolve clock code s s'.
Proof.
  intros Hd Hn. split; [exact Hn | split; [rewrite Hd; reflexivity |]].
  intros i d Hi. rewrite Hd in Hi. exists d.
  split; [exact Hi | apply rtc_refl].
Qed.

Lemma set_driver_evolve i d d' s :
  driverStates s !! i = Some d ->
  rtc (driver_step clock code) d d' ->
  drivers_evolve clock code s (set_driver i d' s).
Proof.
  intros Hd Hstep. split; [reflexivity | split].
  - fields. apply length_insert.
  - intros j dj Hj. fields. destruct (decide (i = j)) as [<-|Hne].
    + rewrite list_lookup_insert_eq in Hj by (eapply lookup_lt_Some; eauto).
      inversion Hj; subst. exists d. auto.
    + rewrite list_lookup_insert_ne in Hj by done.
      exists dj. split; [exact Hj | apply rtc_refl].
Qed.

Lemma call_evolve driver f s :
  (forall d, driver_step clock code d (f d)) ->
  drivers_evolve clock code s (SmartDrivers.call driver f s).
Proof.
  intros Hf. unfold SmartDrivers.call.
  destruct (driverStates s !! driver) as [d|] eqn:Hd;
    [| apply drivers_evolve_refl].
  eapply set_driver_evolve; [exact Hd | apply rtc_once, Hf].
Qed.

Lemma call_ret_evolve {A} (dflt : A) driver f s :
  (forall d, driver_step clock code d (snd (f d))) ->
  drivers_evolve clock code s (snd (SmartDrivers.call_ret dflt driver f s)).
Proof.
  intros Hf. unfold SmartDrivers.call_ret.
  destruct (driverStates s !! driver) as [d|] eqn:Hd;
    [| apply drivers_evolve_refl].
  cbn [snd]. eapply set_driver_evolve; [exact Hd | apply rtc_once, Hf].
Qed.

Lemma TransferDone_evolve G i s :
  drivers_evolve clock code s (Driver.TransferDone G i s).
Proof.
  destruct (driverStates s !! i) as [d|] eqn:Hd.
  - rewrite (TransferDone_unfold G i s d Hd).
    destruct (driversPowered s);
      [| apply drivers_evolve_ext; reflexivity].
    eapply drivers_evolve_trans;
      [apply (drivers_evolve_ext s (digitalWrite (pin d) HIGH s)); reflexivity |].
    eapply set_driver_evolve; [exact Hd |].
    apply rtc_once. constructor.
  - unfold Driver.TransferDone. rewrite Hd. apply drivers_evolve_refl.
Qed.

Lemma StartTransfer_evolve i s :
  drivers_evolve clock code s (Driver.StartTransfer i s).
Proof.
  destruct (driverStates s !! i) as [d|] eqn:Hd.
  - destruct (StartTransfer_effect i s d Hd) as (regVal & d' & -> & Hcase).
    assert (Hstep : rtc (driver_step clock code) d d').
    { destruct Hcase as [(_ & _ & ->) | (_ & k & mask & _ & _ & ->)];
        [apply rtc_refl | apply rtc_once; constructor]. }
    split; [reflexivity | split].
    + fields. apply length_insert.
    + intros j dj Hj. fields. destruct (decide (i = j)) as [<-|Hne].
      * rewrite list_lookup_insert_eq in Hj by (eapply lookup_lt_Some; eauto).
        inversion Hj; subst. exists d. auto.
      * rewrite list_lookup_insert_ne in Hj by done.
        exists dj. split; [exact Hj | apply rtc_refl].
  - unfold Driver.StartTransfer. rewrite Hd. apply drivers_evolve_refl.
Qed.

Lemma Handler_evolve G s :
  drivers_evolve clock code s (TMC2660_SPI_Handler G s).
Proof.
  unfold TMC2660_SPI_Handler.
  destruct (currentDriver s) as [driver|];
    [| apply drivers_evolve_ext; reflexivity].
  destruct (driversPowered _).
  - eapply drivers_evolve_trans;
      [apply TransferDone_evolve | apply StartTransfer_evolve].
  - eapply drivers_evolve_trans; [apply TransferDone_evolve |].
    apply drivers_evolve_ext; reflexivity.
Qed.

Lemma foldl_call_evolve f l s :
  (forall d, driver_step clock code d (f d)) ->
  drivers_evolve clock code s
    (foldl (fun s driver => SmartDrivers.call driver f s) s l).
Proof.
  intros Hf. revert s. induction l as [|driver l IH]; intros s.
  - apply drivers_evolve_refl.
  - cbn [foldl]. eapply drivers_evolve_trans; [| apply IH].
    apply call_evolve, Hf.
Qed.

Lemma Spin_evolve enablePin powered s :
  drivers_evolve clock code s (SmartDrivers.Spin enablePin powered s).
Proof.
  unfold SmartDrivers.Spin. destruct powered.
  - set (s2 := if negb (driversPowered s) then _ else _).
    assert (H2 : drivers_evolve clock code s s2).
    { subst s2. destruct (driversPowered s); cbn [negb].
      - apply drivers_evolve_ext; reflexivity.
      - eapply drivers_evolve_trans;
          [| apply foldl_call_evolve; constructor].
        apply drivers_evolve_ext; reflexivity. }
    destruct (_ && _); [| exact H2].
    eapply drivers_evolve_trans; [exact H2 |].
    eapply drivers_evolve_trans; [| apply StartTransfer_evolve].
    apply drivers_evolve_ext; reflexivity.
  - destruct (driversPowered s); apply drivers_evolve_ext; reflexivity.
Qed.

Lemma run_evolve enablePin op s :
  drivers_evolve clock code s (run clock code enablePin op s).
Proof.
  destruct op; cbn [run];
    unfold SmartDrivers.SetAxisNumber, SmartDrivers.SetCurrent,
      SmartDrivers.EnableDrive, SmartDrivers.GetAccumulatedStatus,
      SmartDrivers.SetDriverMode, SmartDrivers.SetChopperControlRegister,
      SmartDrivers.SetOffTime, SmartDrivers.SetStallThreshold,
      SmartDrivers.SetStallFilter, SmartDrivers.SetStallMinimumStepsPerSecond,
      SmartDrivers.SetCoolStep, SmartDrivers.AppendDriverStatus,
      SmartDrivers.in_range;
    try (destruct (_ <? numTmc2660Drivers s)%nat eqn:Hr;
         [| apply drivers_evolve_refl]);
    try (apply call_evolve; constructor);
    try (apply call_ret_evolve; constructor).
  - unfold SmartDrivers.SetMicrostepping, SmartDrivers.in_range.
    destruct (_ && _); [| apply drivers_evolve_refl].
    destruct (SmartDrivers.count_shift _ _ _) as [[u sh]|] eqn:Hc;
      [| apply drivers_evolve_refl].
    destruct ((u =? 1) && (sh <=? 8)) eqn:Hok; [| apply drivers_evolve_refl].
    cbn [snd]. apply call_evolve. intros d. constructor.
    apply andb_true_iff in Hok. destruct Hok as [_ Hle].
    apply Z.leb_le in Hle.
    apply count_shift_sound in Hc;
      [| lia | unfold SmartDrivers.shift_fuel; lia].
    lia.
  - apply Spin_evolve.
  - apply drivers_evolve_ext; reflexivity.
  - eapply drivers_evolve_trans; [| apply Handler_evolve].
    apply drivers_evolve_ext; reflexivity.
Qed.

Lemma reachable_driver_reachable maxDrivers enablePin s i d :
  reachable clock code maxDrivers enablePin s ->
  (i < numTmc2660Drivers s)%nat ->
  driverStates s !! i = Some d ->
  driver_reachable clock code d.
Proof.
  intros Hreach. revert i d.
  induction Hreach as [sel n | s op _ IH]; intros i d Hi Hd.
  - revert Hi Hd. unfold SmartDrivers.Init.
    match goal with
    | |- context [foldl _ ?a (seq 0 ?k)] =>
        destruct (Init_fold
                    (fun b d => b = true -> driver_reachable clock code d)
                    clock sel k a) as (I1 & _ & I3 & _)
    end.
    + intros a p d0 _. exists a, p, d0. apply rtc_refl.
    + fields. unfold boot. fields. rewrite length_replicate. lia.
    + intros j dj _ Hf. discriminate.
    + intros Hi Hd. apply (I1 _ _ Hd). apply Nat.ltb_lt.
      rewrite I3 in Hi. exact Hi.
  - destruct (run_evolve enablePin op s) as (Hn & _ & Hev).
    destruct (Hev _ _ Hd) as (d0 & Hd0 & Hrtc).
    rewrite Hn in Hi. destruct (IH _ _ Hi Hd0) as (a & p & dz & Hz).
    exists a, p, dz. eapply rtc_trans; eauto.
Qed.

End Evolve.

(** Induction over the history of a driver object. *)
Lemma driver_reachable_invariant clock code (P : TmcDriverState -> Prop) :
  (forall a p d0, P (Driver.Init_object clock a p d0)) ->
  (forall d d', driver_step clock code d d' -> P d -> P d') ->
  forall d, driver_reachable clock code d -> P d.
Proof.
  intros Hinit Hstep d (a & p & d0 & Hrtc).
  revert d Hrtc. apply rtc_ind_r; [apply Hinit |].
  intros y z _ Hyz Hy. exact (Hstep _ _ Hyz Hy).
Qed.

(** Replace the test of a bit of a constant word by its value. *)
Ltac fold_testbits :=
  repeat match goal with
  | |- context [Z.testbit ?a ?i] =>
      closed a; closed i;
      let v := eval vm_compute in (Z.testbit a i) in
      progress change (Z.testbit a i) with v
  end.

(** ** The configured chopper register stays acceptable *)

Lemma chop_accept_tbl v :
  Z.land (Z.lor (Z.land v 0x1FFFF) TMC_REG_CHOPCONF) TMC_CHOPCONF_TBL_MASK
  = Z.land v TMC_CHOPCONF_TBL_MASK.
Proof. mask_fields. reflexivity. Qed.

Lemma configured_chop_acceptable clock code :
  forall d,
    driver_reachable clock code d ->
    Z.land (configuredChopConfReg d) TMC_CHOPCONF_TOFF_MASK <> 0 /\
    ~ (Z.land (configuredChopConfReg d) TMC_CHOPCONF_TOFF_MASK = 1 /\
       Z.land (configuredChopConfReg d) TMC_CHOPCONF_TBL_MASK = 0).
Proof.
  apply (driver_reachable_invariant clock code
           (fun d =>
              Z.land (configuredChopConfReg d) TMC_CHOPCONF_TOFF_MASK <> 0 /\
              ~ (Z.land (configuredChopConfReg d) TMC_CHOPCONF_TOFF_MASK = 1 /\
                 Z.land (configuredChopConfReg d) TMC_CHOPCONF_TBL_MASK = 0))).
  - intros a p d0. vm_compute. split; [discriminate |].
    intros [H _]. discriminate.
  - assert (Hset : forall v d,
      Z.land (configuredChopConfReg d) TMC_CHOPCONF_TOFF_MASK <> 0 /\
      ~ (Z.land (configuredChopConfReg d) TMC_CHOPCONF_TOFF_MASK = 1 /\
         Z.land (configuredChopConfReg d) TMC_CHOPCONF_TBL_MASK = 0) ->
      let d' := snd (Driver.SetChopConf v d) in
      Z.land (configuredChopConfReg d') TMC_CHOPCONF_TOFF_MASK <> 0 /\
      ~ (Z.land (configuredChopConfReg d') TMC_CHOPCONF_TOFF_MASK = 1 /\
         Z.land (configuredChopConfReg d') TMC_CHOPCONF_TBL_MASK = 0)).
    { intros v d Hd d'. subst d'.
      destruct (fst (Driver.SetChopConf v d)) eqn:Hacc.
      - rewrite (SetChopConf_accepted _ _ Hacc).
        apply SetChopConf_accepts_iff in Hacc.
        unfold Driver.UpdateChopConfRegister. fields.
        rewrite chop_accept_toff, chop_accept_tbl. exact Hacc.
      - rewrite (SetChopConf_rejected _ _ Hacc). exact Hd. }
    intros x x' Hstep Hx.
    destruct Hstep; try exact Hx; try (apply Hset; exact Hx).
    + unfold Driver.Enable.
      destruct (negb _); [| exact Hx].
      match goal with |- context [if ?b then _ else _] => destruct b end;
        exact Hx.
    + unfold Driver.SetDriverMode.
      repeat (destruct (_ =? _); [apply Hset; exact Hx |]). exact Hx.
    + unfold Driver.SetOffTime.
      destruct (15 <? _); [exact Hx | apply Hset; exact Hx].
    + unfold TransferDone_update.
      destruct (_ || _); [exact Hx |].
      destruct (_ <? minSgLoadRegister _); fields;
        destruct (maxSgLoadRegister _ <? _); exact Hx.
Qed.

(** ** Driver mode *)

Ltac bits :=
  rewrite ?Z.lor_spec, ?Z.land_spec; fold_testbits;
  rewrite ?andb_true_r, ?andb_false_r, ?orb_true_r, ?orb_false_r,
          ?andb_true_l, ?orb_false_l.

Lemma GetDriverMode_bits d :
  Driver.GetDriverMode d
  = if Z.testbit (configuredChopConfReg d) 14
    then if Z.testbit (configuredChopConfReg d) 13
         then randomOffTime else constantOffTime
    else spreadCycle.
Proof.
  unfold Driver.GetDriverMode.
  change TMC_CHOPCONF_CHM with (2 ^ 14). change TMC_CHOPCONF_RNDTF with (2 ^ 13).
  rewrite !land_pow2_testbit by lia.
  destruct (Z.testbit _ 14), (Z.testbit _ 13); reflexivity.
Qed.

Lemma mode_value_accepted c v :
  Z.land v TMC_CHOPCONF_TOFF_MASK = Z.land c TMC_CHOPCONF_TOFF_MASK ->
  Z.land v TMC_CHOPCONF_TBL_MASK = Z.land c TMC_CHOPCONF_TBL_MASK ->
  Z.land c TMC_CHOPCONF_TOFF_MASK <> 0 /\
  ~ (Z.land c TMC_CHOPCONF_TOFF_MASK = 1 /\
     Z.land c TMC_CHOPCONF_TBL_MASK = 0) ->
  forall d, fst (Driver.SetChopConf v d) = true.
Proof.
  intros H1 H2 Hc d. apply SetChopConf_accepts_iff. rewrite H1, H2. exact Hc.
Qed.

Lemma SetDriverMode_roundtrip code m d :
  code constantOffTime <> code randomOffTime ->
  code constantOffTime <> code spreadCycle ->
  code randomOffTime <> code spreadCycle ->
  Z.land (configuredChopConfReg d) TMC_CHOPCONF_TOFF_MASK <> 0 /\
  ~ (Z.land (configuredChopConfReg d) TMC_CHOPCONF_TOFF_MASK = 1 /\
     Z.land (configuredChopConfReg d) TMC_CHOPCONF_TBL_MASK = 0) ->
  m <> unknown ->
  fst (Driver.SetDriverMode code (code m) d) = true /\
  Driver.GetDriverMode (snd (Driver.SetDriverMode code (code m) d)) = m.
Proof.
  intros H12 H13 H23 Hc Hm. unfold Driver.SetDriverMode.
  set (c := configuredChopConfReg d) in *.
  assert (Hget : forall v,
    fst (Driver.SetChopConf v d) = true ->
    Driver.GetDriverMode (snd (Driver.SetChopConf v d))
    = if Z.testbit v 14
      then if Z.testbit v 13 then randomOffTime else constantOffTime
      else spreadCycle).
  { intros v Hacc. rewrite (SetChopConf_accepted _ _ Hacc), GetDriverMode_bits.
    unfold Driver.UpdateChopConfRegister. fields. bits. reflexivity. }
  destruct m; [| | | congruence].
  - rewrite Z.eqb_refl.
    assert (Hacc : fst (Driver.SetChopConf
                          (Z.lor (Z.land c (not32 TMC_CHOPCONF_RNDTF))
                                 TMC_CHOPCONF_CHM) d) = true).
    { apply (mode_value_accepted c); [mask_fields; reflexivity ..| exact Hc]. }
    split; [exact Hacc |]. rewrite (Hget _ Hacc). bits. reflexivity.
  - destruct (Z.eqb_spec (code randomOffTime) (code constantOffTime));
      [congruence |].
    rewrite Z.eqb_refl.
    assert (Hacc : fst (Driver.SetChopConf
                          (Z.lor (Z.lor c TMC_CHOPCONF_RNDTF)
                                 TMC_CHOPCONF_CHM) d) = true).
    { apply (mode_value_accepted c); [mask_fields; reflexivity ..| exact Hc]. }
    split; [exact Hacc |]. rewrite (Hget _ Hacc). bits. reflexivity.
  - destruct (Z.eqb_spec (code spreadCycle) (code constantOffTime));
      [congruence |].
    destruct (Z.eqb_spec (code spreadCycle) (code randomOffTime));
      [congruence |].
    rewrite Z.eqb_refl.
    assert (Hacc : fst (Driver.SetChopConf
                          (Z.land c (not32 (Z.lor TMC_CHOPCONF_RNDTF
                                                  TMC_CHOPCONF_CHM))) d)
                   = true).
    { apply (mode_value_accepted c); [mask_fields; reflexivity ..| exact Hc]. }
    split; [exact Hacc |]. rewrite (Hget _ Hacc). bits. reflexivity.
Qed.

(** X1. In a reachable state and for a driver in use, setting any of the
    three driver modes succeeds and [GetDriverMode] then returns that mode;
    a mode number that is none of the three is refused and changes
    nothing. The numeric values of the three modes are assumed distinct,
    as the cases of a [switch] are. *)
Theorem driver_mode_roundtrip clock code maxDrivers enablePin s driver :
  reachable clock code maxDrivers enablePin s ->
  (driver < numTmc2660Drivers s)%nat ->
  code constantOffTime <> code randomOffTime ->
  code constantOffTime <> code spreadCycle ->
  code randomOffTime <> code spreadCycle ->
  (forall m,
     m <> unknown ->
     fst (SmartDrivers.SetDriverMode code driver (code m) s) = true /\
     SmartDrivers.GetDriverMode driver
       (snd (SmartDrivers.SetDriverMode code driver (code m) s)) = m) /\
  (forall mode,
     mode <> code constantOffTime -> mode <> code randomOffTime ->
     mode <> code spreadCycle ->
     SmartDrivers.SetDriverMode code driver mode s = (false, s)).
Proof.
  intros Hreach Hr H12 H13 H23.
  pose proof (reachable_ok _ _ _ _ _ Hreach) as (_ & Hlen & _).
  destruct (lookup_lt_is_Some_2 (driverStates s) driver ltac:(lia)) as [d Hd].
  pose proof (reachable_driver_reachable _ _ _ _ _ _ _ Hreach Hr Hd) as Hdr.
  apply configured_chop_acceptable in Hdr.
  assert (Hrb : (driver <? numTmc2660Drivers s)%nat = true)
    by (apply Nat.ltb_lt; exact Hr).
  unfold SmartDrivers.SetDriverMode, SmartDrivers.GetDriverMode,
    SmartDrivers.in_range, SmartDrivers.call_ret, SmartDrivers.read.
  rewrite Hrb, Hd. cbn [fst snd]. split.
  - intros m Hm.
    destruct (SetDriverMode_roundtrip code m d H12 H13 H23 Hdr Hm) as [Ha Hg].
    split; [exact Ha |].
    cbn [numTmc2660Drivers set_driver with_driverStates]. rewrite Hrb.
    erewrite lookup_set_driver_eq by exact Hd. exact Hg.
  - intros mode N1 N2 N3. unfold Driver.SetDriverMode.
    destruct (Z.eqb_spec mode (code constantOffTime)); [contradiction |].
    destruct (Z.eqb_spec mode (code randomOffTime)); [contradiction |].
    destruct (Z.eqb_spec mode (code spreadCycle)); [contradiction |].
    cbn [fst snd]. rewrite set_driver_same by exact Hd. reflexivity.
Qed.

(** ** The load window and the microstep shift *)

(** Open up the setters that go through [SetChopConf] or test [enabled],
    and decide their conditions. *)
Ltac open_step :=
  unfold Driver.SetOffTime, Driver.SetDriverMode, Driver.SetChopConf,
    Driver.Enable, Driver.UpdateChopConfRegister;
  repeat match goal with
         | |- context [if ?b then _ else _] => destruct b
         end;
  fields.

Lemma load_window_invariant clock code :
  forall d,
    driver_reachable clock code d ->
    (minSgLoadRegister d = 1023 /\ maxSgLoadRegister d = 0) \/
    (0 <= minSgLoadRegister d <= maxSgLoadRegister d /\ maxSgLoadRegister d <= 1023).
Proof.
  apply (driver_reachable_invariant clock code
           (fun d =>
              (minSgLoadRegister d = 1023 /\ maxSgLoadRegister d = 0) \/
              (0 <= minSgLoadRegister d <= maxSgLoadRegister d /\ maxSgLoadRegister d <= 1023))).
  - intros a p d0. left. split; reflexivity.
  - intros x x' Hstep Hx.
    destruct Hstep; try exact Hx; try (open_step; exact Hx).
    + left. split; reflexivity.
    + unfold TransferDone_update.
      destruct (_ || _); [exact Hx |].
      set (sgLoad := Z.land _ 1023).
      assert (Hsg : 0 <= sgLoad <= 1023).
      { subst sgLoad. rewrite Z.land_comm.
        pose proof (land_lt_pow2 1023 (Z.shiftr status TMC_RR_SG_LOAD_SHIFT) 10
                      ltac:(lia) ltac:(change (2 ^ 10) with 1024; lia)) as Hb.
        change (2 ^ 10) with 1024 in Hb. lia. }
      destruct (Z.ltb_spec sgLoad (minSgLoadRegister d)); fields;
        destruct (Z.ltb_spec (maxSgLoadRegister d) sgLoad); fields; lia.
Qed.

Lemma microstep_invariant clock code :
  forall d,
    driver_reachable clock code d ->
    0 <= microstepShiftFactor d <= 8 /\
    Z.land (reg (registers d) DriveControl) TMC_DRVCTRL_MRES_MASK
    = 8 - microstepShiftFactor d.
Proof.
  apply (driver_reachable_invariant clock code
           (fun d =>
              0 <= microstepShiftFactor d <= 8 /\
              Z.land (reg (registers d) DriveControl) TMC_DRVCTRL_MRES_MASK
              = 8 - microstepShiftFactor d)).
  - intros a p d0. vm_compute. repeat split; discriminate.
  - intros x x' Hstep Hx.
    destruct Hstep; try exact Hx; try (open_step; exact Hx).
    + destruct (SetMicrostepping_fields shift i d) as (H1 & H2 & _);
        [assumption |].
      rewrite H1, H2. split; [assumption | reflexivity].
    + unfold TransferDone_update.
      destruct (_ || _); [exact Hx |].
      destruct (_ <? minSgLoadRegister _); fields;
        destruct (maxSgLoadRegister _ <? _); exact Hx.
Qed.

(** X2. In a reachable state the load window of a driver in use is either
    the "no data" pair (1023, 0) or a proper interval inside 0..1023. *)
Theorem load_window_well_formed clock code maxDrivers enablePin s i d :
  reachable clock code maxDrivers enablePin s ->
  (i < numTmc2660Drivers s)%nat ->
  driverStates s !! i = Some d ->
  (minSgLoadRegister d = 1023 /\ maxSgLoadRegister d = 0) \/
  (0 <= minSgLoadRegister d <= maxSgLoadRegister d /\ maxSgLoadRegister d <= 1023).
Proof.
  intros Hreach Hi Hd. eapply load_window_invariant.
  eapply reachable_driver_reachable; eauto.
Qed.

(** X3. In a reachable state the stored shift of a driver in use is at most
    8, the MRES field of register 0 is 8 minus the shift, and so the
    microstepping reported is one of the nine accepted counts. *)
Theorem microstepping_consistent clock code maxDrivers enablePin s i d :
  reachable clock code maxDrivers enablePin s ->
  (i < numTmc2660Drivers s)%nat ->
  driverStates s !! i = Some d ->
  0 <= microstepShiftFactor d <= 8 /\
  Z.land (reg (registers d) DriveControl) TMC_DRVCTRL_MRES_MASK
  = 8 - microstepShiftFactor d /\
  fst (SmartDrivers.GetMicrostepping i s) = 2 ^ microstepShiftFactor d /\
  fst (SmartDrivers.GetMicrostepping i s) ∈ valid_microsteps.
Proof.
  intros Hreach Hi Hd.
  destruct (microstep_invariant clock code d) as [Hs Hm];
    [eapply reachable_driver_reachable; eauto |].
  split; [exact Hs |]. split; [exact Hm |].
  unfold SmartDrivers.GetMicrostepping, SmartDrivers.in_range,
    SmartDrivers.read.
  apply Nat.ltb_lt in Hi. rewrite Hi, Hd.
  unfold Driver.GetMicrostepping. cbn [fst]. rewrite shl32_one by lia.
  split; [reflexivity |].
  apply valid_microsteps_pow2. exists (microstepShiftFactor d). auto.
Qed.

(** ** Register addresses *)

Lemma land_high_zero b : 0 <= b < 2 ^ 17 -> Z.land b 0xE0000 = 0.
Proof.
  intros Hb. apply Z.bits_inj'. intros i Hi.
  rewrite Z.land_spec, Z.bits_0.
  destruct (Z.ltb_spec i 17) as [Hlt|Hge].
  - change 0xE0000 with (Z.shiftl 7 17).
    rewrite Z.shiftl_spec_low by exact Hlt. apply andb_false_r.
  - rewrite (testbit_high b 17 i) by lia. reflexivity.
Qed.

Lemma land_small x k n : 0 <= n -> 0 <= k < 2 ^ n -> 0 <= Z.land x k < 2 ^ n.
Proof. intros Hn Hk. rewrite Z.land_comm. apply land_lt_pow2; assumption. Qed.

Lemma addressed_land a r k :
  addressed a r -> Z.land k 0xE0000 = 0xE0000 -> addressed a (Z.land r k).
Proof.
  intros [Hb Ha] Hk. split.
  - apply land_lt_pow2; [lia | exact Hb].
  - rewrite <- Z.land_assoc, Hk. exact Ha.
Qed.

Lemma addressed_lor a r b :
  addressed a r -> 0 <= b < 2 ^ 17 -> addressed a (Z.lor r b).
Proof.
  intros [Hb Ha] Hp. split.
  - apply lor_lt_pow2; [lia | exact Hb |].
    change (2 ^ 17) with 131072 in Hp. change (2 ^ 20) with 1048576. lia.
  - rewrite Z.land_lor_distr_l, Ha, land_high_zero by exact Hp.
    apply Z.lor_0_r.
Qed.

Lemma addressed_chop v : addressed TMC_REG_CHOPCONF
                           (Z.lor (Z.land v 0x1FFFF) TMC_REG_CHOPCONF).
Proof.
  split.
  - apply lor_lt_pow2; [lia | | vm_compute; split; [discriminate | reflexivity]].
    pose proof (land_small v 0x1FFFF 17 ltac:(lia)
                  ltac:(vm_compute; split; [discriminate | reflexivity])) as H.
    change (2 ^ 17) with 131072 in H. change (2 ^ 20) with 1048576. lia.
  - mask_fields. reflexivity.
Qed.

Lemma shl32_sgt_small x :
  0 <= shl32 (Z.land x 127) TMC_SGCSCONF_SGT_SHIFT < 2 ^ 17.
Proof.
  pose proof (land_small x 127 7 ltac:(lia)
                ltac:(vm_compute; split; [discriminate | reflexivity])) as H.
  change (2 ^ 7) with 128 in H.
  unfold shl32, TMC_SGCSCONF_SGT_SHIFT.
  rewrite Z.shiftl_mul_pow2 by lia. change (2 ^ 8) with 256.
  rewrite u32_small by (change (2 ^ 32) with 4294967296; lia).
  change (2 ^ 17) with 131072. lia.
Qed.

Lemma register_addresses_invariant clock code :
  forall d,
    driver_reachable clock code d ->
    addressed TMC_REG_DRVCTRL (reg (registers d) DriveControl) /\
    addressed TMC_REG_SGCSCONF (reg (registers d) StallGuardConfig) /\
    addressed TMC_REG_CHOPCONF (reg (registers d) ChopperControl) /\
    reg (registers d) DriveConfig = defaultDrvConfReg /\
    addressed TMC_REG_CHOPCONF (configuredChopConfReg d).
Proof.
  apply (driver_reachable_invariant clock code
           (fun d =>
              addressed TMC_REG_DRVCTRL (reg (registers d) DriveControl) /\
              addressed TMC_REG_SGCSCONF (reg (registers d) StallGuardConfig) /\
              addressed TMC_REG_CHOPCONF (reg (registers d) ChopperControl) /\
              reg (registers d) DriveConfig = defaultDrvConfReg /\
              addressed TMC_REG_CHOPCONF (configuredChopConfReg d))).
  - intros a p d0.
    repeat split; vm_compute; congruence.
  - assert (Hupd : forall d,
      addressed TMC_REG_CHOPCONF (configuredChopConfReg d) ->
      addressed TMC_REG_CHOPCONF
        (reg (registers (Driver.UpdateChopConfRegister d)) ChopperControl)).
    { intros d Hc. unfold Driver.UpdateChopConfRegister. fields.
      rewrite reg_set_reg_eq by (vm_compute; lia).
      destruct (enabled d); [exact Hc |].
      apply addressed_land; [exact Hc | reflexivity]. }
    assert (Hset : forall v d,
      let P d :=
        addressed TMC_REG_DRVCTRL (reg (registers d) DriveControl) /\
        addressed TMC_REG_SGCSCONF (reg (registers d) StallGuardConfig) /\
        addressed TMC_REG_CHOPCONF (reg (registers d) ChopperControl) /\
        reg (registers d) DriveConfig = defaultDrvConfReg /\
        addressed TMC_REG_CHOPCONF (configuredChopConfReg d) in
      P d -> P (snd (Driver.SetChopConf v d))).
    { intros v d P (H0 & H1 & H2 & H3 & Hc). subst P. cbv beta.
      destruct (fst (Driver.SetChopConf v d)) eqn:Hacc.
      - rewrite (SetChopConf_accepted _ _ Hacc).
        split; [exact H0 |]. split; [exact H1 |].
        split; [apply Hupd; fields; apply addressed_chop |].
        split; [exact H3 | apply addressed_chop].
      - rewrite (SetChopConf_rejected _ _ Hacc). auto. }
    intros x x' Hstep Hx.
    destruct Hstep; try exact Hx; try (apply Hset; exact Hx).
    + (* SetCurrent *)
      destruct Hx as (H0 & H1 & H2 & H3 & Hc).
      split; [exact H0 |]. split; [| auto].
      unfold Driver.SetCurrent. fields.
      rewrite reg_set_reg_eq by (vm_compute; lia).
      apply addressed_lor; [apply addressed_land; [exact H1 | reflexivity] |].
      unfold TMC_SGCSCONF_CS. rewrite Z.shiftl_0_r.
      pose proof (land_small (u32 (u32 (32 * constrain c 100 2400 - 1600) / 3236))
                    31 5 ltac:(lia)
                    ltac:(vm_compute; split; [discriminate | reflexivity]))
        as Hb.
      change (2 ^ 5) with 32 in Hb. change (2 ^ 17) with 131072. lia.
    + (* Enable *)
      destruct Hx as (H0 & H1 & H2 & H3 & Hc).
      unfold Driver.Enable. destruct (negb _); [| auto].
      split; [destruct en; exact H0 |]. split; [destruct en; exact H1 |].
      split; [apply Hupd; destruct en; exact Hc |].
      split; destruct en; assumption.
    + (* SetMicrostepping *)
      destruct Hx as (H0 & H1 & H2 & H3 & Hc).
      split; [| auto].
      unfold Driver.SetMicrostepping. fields.
      rewrite reg_set_reg_eq by (vm_compute; lia).
      assert (Hm : addressed TMC_REG_DRVCTRL
                     (Z.lor (Z.land (reg (registers d) DriveControl)
                                    (not32 TMC_DRVCTRL_MRES_MASK))
                            (Z.land (shl32 (sub32 8 shift)
                                           TMC_DRVCTRL_MRES_SHIFT)
                                    TMC_DRVCTRL_MRES_MASK))).
      { apply addressed_lor;
          [apply addressed_land; [exact H0 | reflexivity] |].
        pose proof (land_small (shl32 (sub32 8 shift) TMC_DRVCTRL_MRES_SHIFT)
                      TMC_DRVCTRL_MRES_MASK 4 ltac:(lia)
                      ltac:(vm_compute; split; [discriminate | reflexivity]))
          as Hb.
        change (2 ^ 4) with 16 in Hb. change (2 ^ 17) with 131072. lia. }
      destruct i.
      * apply addressed_lor; [exact Hm |].
        vm_compute. split; [discriminate | reflexivity].
      * apply addressed_land; [exact Hm | reflexivity].
    + (* SetDriverMode *)
      unfold Driver.SetDriverMode.
      repeat (destruct (_ =? _); [apply Hset; exact Hx |]). exact Hx.
    + (* SetOffTime *)
      unfold Driver.SetOffTime.
      destruct (15 <? _); [exact Hx | apply Hset; exact Hx].
    + (* SetStallDetectThreshold *)
      destruct Hx as (H0 & H1 & H2 & H3 & Hc).
      split; [exact H0 |]. split; [| auto].
      unfold Driver.SetStallDetectThreshold. fields.
      rewrite reg_set_reg_eq by (vm_compute; lia).
      apply addressed_lor; [apply addressed_land; [exact H1 | reflexivity] |].
      apply shl32_sgt_small.
    + (* SetStallDetectFilter *)
      destruct Hx as (H0 & H1 & H2 & H3 & Hc).
      split; [exact H0 |]. split; [| auto].
      unfold Driver.SetStallDetectFilter. fields.
      rewrite reg_set_reg_eq by (vm_compute; lia).
      destruct f.
      * apply addressed_lor; [exact H1 |].
        vm_compute. split; [discriminate | reflexivity].
      * apply addressed_land; [exact H1 | reflexivity].
    + (* TransferDone *)
      unfold TransferDone_update.
      destruct (_ || _); [exact Hx |].
      destruct (_ <? minSgLoadRegister _); fields;
        destruct (maxSgLoadRegister _ <? _); exact Hx.
Qed.

(** X4. In a reachable state, registers 0, 1 and 2 of a driver in use fit
    in 20 bits and carry the address of their own device register in the
    top three bits, whatever arguments the setters were given; register 3
    still has the value [Init] gave it. *)
Theorem shadow_registers_keep_their_address
    clock code maxDrivers enablePin s i d :
  reachable clock code maxDrivers enablePin s ->
  (i < numTmc2660Drivers s)%nat ->
  driverStates s !! i = Some d ->
  addressed TMC_REG_DRVCTRL (reg (registers d) DriveControl) /\
  addressed TMC_REG_SGCSCONF (reg (registers d) StallGuardConfig) /\
  addressed TMC_REG_CHOPCONF (reg (registers d) ChopperControl) /\
  reg (registers d) DriveConfig = defaultDrvConfReg /\
  addressed TMC_REG_DRVCONF defaultDrvConfReg.
Proof.
  intros Hreach Hi Hd.
  destruct (register_addresses_invariant clock code d)
    as (H0 & H1 & H2 & H3 & _);
    [eapply reachable_driver_reachable; eauto |].
  repeat (split; [assumption |]).
  split; vm_compute; [split; [discriminate | reflexivity] | reflexivity].
Qed.

(** ** Calls through the interface *)

Lemma read_after_call {A} (dflt : A) driver f (g : TmcDriverState -> A) s d :
  driverStates s !! driver = Some d ->
  SmartDrivers.read dflt driver g (SmartDrivers.call driver f s) = g (f d).
Proof.
  intros Hd. unfold SmartDrivers.read, SmartDrivers.call. rewrite Hd.
  erewrite lookup_set_driver_eq by exact Hd. reflexivity.
Qed.

Lemma read_after_call_ret {A B} (dflt : A) (dflt' : B) driver f
    (g : TmcDriverState -> A) s d :
  driverStates s !! driver = Some d ->
  SmartDrivers.read dflt driver g
    (snd (SmartDrivers.call_ret dflt' driver f s))
  = g (snd (f d)).
Proof.
  intros Hd. unfold SmartDrivers.read, SmartDrivers.call_ret. rewrite Hd.
  cbn [snd]. erewrite lookup_set_driver_eq by exact Hd. reflexivity.
Qed.

Lemma read_here {A} (dflt : A) driver (g : TmcDriverState -> A) s d :
  driverStates s !! driver = Some d ->
  SmartDrivers.read dflt driver g s = g d.
Proof. intros Hd. unfold SmartDrivers.read. rewrite Hd. reflexivity. Qed.

Lemma in_range_call driver i f s :
  SmartDrivers.in_range i (SmartDrivers.call driver f s)
  = SmartDrivers.in_range i s.
Proof.
  unfold SmartDrivers.in_range, SmartDrivers.call.
  destruct (driverStates s !! driver); reflexivity.
Qed.

Lemma in_range_call_ret {A} (dflt : A) driver i f s :
  SmartDrivers.in_range i (snd (SmartDrivers.call_ret dflt driver f s))
  = SmartDrivers.in_range i s.
Proof.
  unfold SmartDrivers.in_range, SmartDrivers.call_ret.
  destruct (driverStates s !! driver); reflexivity.
Qed.

(** ** Off time *)

(** X5. An off time accepted by [SetOffTime] is what [GetOffTime] returns
    afterwards, and the rest of the chopper control register, as
    [GetChopperControlRegister] shows it, is as before. *)
Theorem off_time_roundtrip driver n s d :
  (driver < numTmc2660Drivers s)%nat ->
  driverStates s !! driver = Some d ->
  0 <= n < 2 ^ 32 ->
  fst (SmartDrivers.SetOffTime driver n s) = true ->
  let s' := snd (SmartDrivers.SetOffTime driver n s) in
  SmartDrivers.GetOffTime driver s' = n /\
  Z.land (SmartDrivers.GetChopperControlRegister driver s')
         (not32 TMC_CHOPCONF_TOFF_MASK)
  = Z.land (SmartDrivers.GetChopperControlRegister driver s)
           (not32 TMC_CHOPCONF_TOFF_MASK).
Proof.
  intros Hr Hd Hn Hacc s'. subst s'. apply Nat.ltb_lt in Hr.
  assert (Heq : SmartDrivers.SetOffTime driver n s
                = SmartDrivers.call_ret false driver (Driver.SetOffTime n) s)
    by (unfold SmartDrivers.SetOffTime, SmartDrivers.in_range;
        rewrite Hr; reflexivity).
  rewrite Heq in *.
  unfold SmartDrivers.GetOffTime, SmartDrivers.GetChopperControlRegister.
  rewrite in_range_call_ret. unfold SmartDrivers.in_range. rewrite Hr.
  rewrite !(read_after_call_ret _ _ _ _ _ _ _ Hd), (read_here _ _ _ _ _ Hd).
  unfold SmartDrivers.call_ret in Hacc. rewrite Hd in Hacc. cbn [fst] in Hacc.
  pose proof (proj1 (SetOffTime_accepts_iff n d ltac:(lia)) Hacc) as [Hrange _].
  revert Hacc. unfold Driver.SetOffTime.
  destruct (Z.ltb_spec 15 n); [lia |]. intros Hacc.
  rewrite (SetChopConf_accepted _ _ Hacc).
  unfold Driver.GetOffTime, Driver.GetChopConf, Driver.UpdateChopConfRegister,
    TMC_CHOPCONF_TOFF_SHIFT.
  fields. rewrite Z.shiftr_0_r. split.
  - rewrite chop_accept_toff.
    apply (offtime_toff (configuredChopConfReg d) n). lia.
  - mask_fields. reflexivity.
Qed.

(** ** Enabling and disabling *)

Lemma Enable_enabled en d : enabled (Driver.Enable en d) = en.
Proof.
  unfold Driver.Enable.
  destruct (enabled d) eqn:He, en; cbn [Bool.eqb negb];
    first [exact He | reflexivity].
Qed.

Lemma Enable_idempotent en d :
  Driver.Enable en (Driver.Enable en d) = Driver.Enable en d.
Proof.
  unfold Driver.Enable at 1. rewrite Enable_enabled.
  rewrite Bool.eqb_reflx. reflexivity.
Qed.

Lemma Enable_keeps_configuration en d :
  configuredChopConfReg (Driver.Enable en d) = configuredChopConfReg d /\
  microstepShiftFactor (Driver.Enable en d) = microstepShiftFactor d /\
  maxStallStepInterval (Driver.Enable en d) = maxStallStepInterval d /\
  axisNumber (Driver.Enable en d) = axisNumber d /\
  (forall i, i <> ChopperControl ->
     reg (registers (Driver.Enable en d)) i = reg (registers d) i).
Proof.
  unfold Driver.Enable, Driver.UpdateChopConfRegister.
  destruct (negb _); [| auto].
  destruct en; fields; repeat split; try reflexivity;
    intros i Hi; apply reg_set_reg_ne; congruence.
Qed.

(** X6. [EnableDrive] is idempotent, and it never touches what the user
    configured: the chopper control register, off time, driver mode,
    microstepping and stall configuration read back as before. Only shadow
    register 2 and the stall bits change. *)
Theorem EnableDrive_idempotent_and_keeps_configuration clock driver en s :
  let s' := SmartDrivers.EnableDrive driver en s in
  SmartDrivers.EnableDrive driver en s' = s' /\
  SmartDrivers.GetChopperControlRegister driver s'
  = SmartDrivers.GetChopperControlRegister driver s /\
  SmartDrivers.GetOffTime driver s' = SmartDrivers.GetOffTime driver s /\
  SmartDrivers.GetDriverMode driver s' = SmartDrivers.GetDriverMode driver s /\
  SmartDrivers.GetMicrostepping driver s'
  = SmartDrivers.GetMicrostepping driver s /\
  SmartDrivers.AppendStallConfig clock driver s'
  = SmartDrivers.AppendStallConfig clock driver s.
Proof.
  intros s'. subst s'.
  unfold SmartDrivers.EnableDrive, SmartDrivers.GetChopperControlRegister,
    SmartDrivers.GetOffTime, SmartDrivers.GetDriverMode,
    SmartDrivers.GetMicrostepping, SmartDrivers.AppendStallConfig.
  destruct (SmartDrivers.in_range driver s) eqn:Hr.
  2: { cbv beta iota. rewrite ?Hr. repeat split; reflexivity. }
  rewrite in_range_call, Hr.
  destruct (driverStates s !! driver) as [d|] eqn:Hd.
  2: { unfold SmartDrivers.call, SmartDrivers.read. rewrite ?Hd, ?Hr.
       repeat split; reflexivity. }
  rewrite !(read_after_call _ _ _ _ _ _ Hd), !(read_here _ _ _ _ _ Hd).
  destruct (Enable_keeps_configuration en d) as (Hc & Hm & Hi & _ & Hreg).
  split.
  - unfold SmartDrivers.call at 1.
    assert (Hd' : driverStates (SmartDrivers.call driver (Driver.Enable en) s)
                  !! driver = Some (Driver.Enable en d)).
    { unfold SmartDrivers.call. rewrite Hd.
      eapply lookup_set_driver_eq; eauto. }
    rewrite Hd', Enable_idempotent. apply set_driver_same. exact Hd'.
  - unfold Driver.GetChopConf, Driver.GetOffTime, Driver.GetDriverMode,
      Driver.GetMicrostepping, Driver.AppendStallConfig.
    rewrite Hc, Hm, Hi.
    rewrite !(Hreg DriveControl), !(Hreg StallGuardConfig),
      !(Hreg SmartEnable) by discriminate.
    repeat split; reflexivity.
Qed.

(** ** What the status readers let through *)

(** X7. [GetLiveStatus] and [GetAccumulatedStatus] never return anything
    but the seven reported flags; for a driver that is not enabled neither
    returns SG, and [GetAccumulatedStatus] also removes SG from the
    accumulator. *)
Theorem status_readers_mask driver bitsToKeep s :
  let live := SmartDrivers.GetLiveStatus driver s in
  let acc := SmartDrivers.GetAccumulatedStatus driver bitsToKeep s in
  Z.land live TMC_RR_REPORTED = live /\
  Z.land (fst acc) TMC_RR_REPORTED = fst acc /\
  (forall d,
     (driver < numTmc2660Drivers s)%nat ->
     driverStates s !! driver = Some d -> enabled d = false ->
     Z.land live TMC_RR_SG = 0 /\
     Z.land (fst acc) TMC_RR_SG = 0 /\
     exists d',
       driverStates (snd acc) !! driver = Some d' /\
       Z.land (accumulatedStatus d') TMC_RR_SG = 0).
Proof.
  intros live acc. subst live acc.
  unfold SmartDrivers.GetLiveStatus, SmartDrivers.GetAccumulatedStatus,
    SmartDrivers.read, SmartDrivers.call_ret, SmartDrivers.in_range.
  destruct (Nat.ltb_spec driver (numTmc2660Drivers s)) as [Hr|Hr].
  2: { cbn [fst snd]. split; [reflexivity | split; [reflexivity |]].
       intros x Hlt. lia. }
  destruct (driverStates s !! driver) as [d|] eqn:Hd.
  2: { cbn [fst snd]. split; [reflexivity | split; [reflexivity |]].
       intros x _ H. discriminate. }
  cbn [fst snd].
  unfold Driver.ReadLiveStatus, Driver.ReadAccumulatedStatus. cbn [fst snd].
  split; [| split].
  - destruct (enabled d); mask_fields; reflexivity.
  - destruct (enabled d); mask_fields; reflexivity.
  - intros d' _ Hd' He. inversion Hd'; subst d'. rewrite He.
    split; [mask_fields; reflexivity |].
    split; [mask_fields; reflexivity |].
    eexists. split; [eapply lookup_set_driver_eq; exact Hd |].
    fields. mask_fields. reflexivity.
Qed.

(** ** The fields of register 1 and the stall report *)

Lemma AppendStallConfig_after_call clock driver f s d :
  (driver < numTmc2660Drivers s)%nat ->
  driverStates s !! driver = Some d ->
  SmartDrivers.AppendStallConfig clock driver (SmartDrivers.call driver f s)
  = Some (Driver.AppendStallConfig clock (f d)).
Proof.
  intros Hr Hd. unfold SmartDrivers.AppendStallConfig.
  rewrite in_range_call. unfold SmartDrivers.in_range.
  apply Nat.ltb_lt in Hr. rewrite Hr.
  rewrite (read_after_call _ _ _ _ _ _ Hd). reflexivity.
Qed.

Lemma AppendStallConfig_here clock driver s d :
  (driver < numTmc2660Drivers s)%nat ->
  driverStates s !! driver = Some d ->
  SmartDrivers.AppendStallConfig clock driver s
  = Some (Driver.AppendStallConfig clock d).
Proof.
  intros Hr Hd. unfold SmartDrivers.AppendStallConfig, SmartDrivers.in_range.
  apply Nat.ltb_lt in Hr. rewrite Hr.
  rewrite (read_here _ _ _ _ _ Hd). reflexivity.
Qed.

Lemma current_scale_range c :
  0 <= (32 * constrain c 100 2400 - 1600) / 3236 <= 23.
Proof.
  pose proof (constrain_range c 100 2400 ltac:(lia)) as Hc.
  split.
  - apply Z.div_pos; lia.
  - apply Z.lt_succ_r. apply Z.div_lt_upper_bound; lia.
Qed.

Lemma SetCurrent_register c d :
  let r := reg (registers d) StallGuardConfig in
  let r' := reg (registers (Driver.SetCurrent c d)) StallGuardConfig in
  Z.land r' TMC_SGCSCONF_CS_MASK = (32 * constrain c 100 2400 - 1600) / 3236 /\
  Z.land r' TMC_SGCSCONF_SGT_MASK = Z.land r TMC_SGCSCONF_SGT_MASK /\
  Z.land r' TMC_SGCSCONF_SGT_SFILT = Z.land r TMC_SGCSCONF_SGT_SFILT.
Proof.
  intros r r'. subst r r'. unfold Driver.SetCurrent. fields.
  rewrite reg_set_reg_eq by (vm_compute; lia).
  unfold TMC_SGCSCONF_CS. rewrite Z.shiftl_0_r.
  pose proof (constrain_range c 100 2400 ltac:(lia)) as Hc.
  pose proof (current_scale_range c) as Hs.
  rewrite (u32_small (32 * constrain c 100 2400 - 1600))
    by (change (2 ^ 32) with 4294967296; lia).
  rewrite u32_small by (change (2 ^ 32) with 4294967296; lia).
  split; [| split]; mask_fields; try reflexivity.
  change 31 with (Z.ones 5). rewrite Z.land_ones by lia.
  apply Z.mod_small. change (2 ^ 5) with 32. lia.
Qed.

(** X8. [SetCurrent] writes the current scale
    [(32 * i - 1600) / 3236], with [i] the current clamped to 100..2400 mA,
    into the CS field of register 1; the scale lies in 0..23, so the 5-bit
    field holds it exactly. (The current is a whole number of milliamps
    and the upper limit [MaximumMotorCurrent], declared outside the
    sources at hand, is 2400.) The stall threshold, the filter bit and the
    rest of the stall report are not disturbed. *)
Theorem SetCurrent_encodes_scale_and_keeps_stall_config
    clock driver current s d :
  (driver < numTmc2660Drivers s)%nat ->
  driverStates s !! driver = Some d ->
  let s' := SmartDrivers.SetCurrent driver current s in
  let scale := (32 * constrain current 100 2400 - 1600) / 3236 in
  0 <= scale <= 23 /\
  SmartDrivers.AppendStallConfig clock driver s'
  = SmartDrivers.AppendStallConfig clock driver s /\
  exists d',
    driverStates s' !! driver = Some d' /\
    Z.land (reg (registers d') StallGuardConfig) TMC_SGCSCONF_CS_MASK = scale.
Proof.
  intros Hr Hd s' scale. subst s' scale.
  split; [apply current_scale_range |].
  assert (Heq : SmartDrivers.SetCurrent driver current s
                = SmartDrivers.call driver (Driver.SetCurrent current) s).
  { unfold SmartDrivers.SetCurrent, SmartDrivers.in_range.
    apply Nat.ltb_lt in Hr. rewrite Hr. reflexivity. }
  rewrite Heq.
  destruct (SetCurrent_register current d) as (Hcs & Hsgt & Hf).
  split.
  - rewrite (AppendStallConfig_after_call _ _ _ _ _ Hr Hd),
      (AppendStallConfig_here _ _ _ _ Hr Hd).
    unfold Driver.AppendStallConfig. rewrite Hsgt, Hf. reflexivity.
  - exists (Driver.SetCurrent current d).
    split; [| exact Hcs].
    unfold SmartDrivers.call. rewrite Hd.
    eapply lookup_set_driver_eq; exact Hd.
Qed.

Lemma land_bit16_small x : 0 <= x < 2 ^ 16 -> Z.land x TMC_SGCSCONF_SGT_SFILT = 0.
Proof.
  intros Hx. apply Z.eqb_eq. change TMC_SGCSCONF_SGT_SFILT with (2 ^ 16).
  rewrite land_pow2_testbit by lia.
  rewrite (testbit_high x 16 16) by lia. reflexivity.
Qed.

Lemma shl32_sgt_bound x :
  0 <= shl32 (Z.land x 127) TMC_SGCSCONF_SGT_SHIFT < 2 ^ 16.
Proof.
  pose proof (land_small x 127 7 ltac:(lia)
                ltac:(vm_compute; split; [discriminate | reflexivity])) as H.
  change (2 ^ 7) with 128 in H.
  unfold shl32, TMC_SGCSCONF_SGT_SHIFT.
  rewrite Z.shiftl_mul_pow2 by lia. change (2 ^ 8) with 256.
  rewrite u32_small by (change (2 ^ 32) with 4294967296; lia).
  change (2 ^ 16) with 65536. lia.
Qed.

Lemma filter_bit r :
  negb (Z.land r TMC_SGCSCONF_SGT_SFILT =? 0) = Z.testbit r 16.
Proof.
  change TMC_SGCSCONF_SGT_SFILT with (2 ^ 16).
  rewrite land_pow2_testbit by lia. apply negb_involutive.
Qed.

(** X9. The stall filter flag set by [SetStallFilter] is the one
    [AppendStallConfig] reports, and neither it nor [SetStallThreshold]
    disturbs the other's field or the current scale in register 1. *)
Theorem stall_filter_roundtrip_and_independence clock driver s d :
  (driver < numTmc2660Drivers s)%nat ->
  driverStates s !! driver = Some d ->
  (forall f,
     let s' := SmartDrivers.SetStallFilter driver f s in
     rep_filtered <$> SmartDrivers.AppendStallConfig clock driver s' = Some f /\
     rep_threshold <$> SmartDrivers.AppendStallConfig clock driver s'
     = rep_threshold <$> SmartDrivers.AppendStallConfig clock driver s /\
     exists d',
       driverStates s' !! driver = Some d' /\
       Z.land (reg (registers d') StallGuardConfig) TMC_SGCSCONF_CS_MASK
       = Z.land (reg (registers d) StallGuardConfig) TMC_SGCSCONF_CS_MASK)
  /\
  (forall t,
     let s' := SmartDrivers.SetStallThreshold driver t s in
     rep_filtered <$> SmartDrivers.AppendStallConfig clock driver s'
     = rep_filtered <$> SmartDrivers.AppendStallConfig clock driver s /\
     exists d',
       driverStates s' !! driver = Some d' /\
       Z.land (reg (registers d') StallGuardConfig) TMC_SGCSCONF_CS_MASK
       = Z.land (reg (registers d) StallGuardConfig) TMC_SGCSCONF_CS_MASK).
Proof.
  intros Hr Hd.
  assert (Hrb : (driver <? numTmc2660Drivers s)%nat = true)
    by (apply Nat.ltb_lt; exact Hr).
  assert (Hlook : forall f,
    driverStates (SmartDrivers.call driver f s) !! driver = Some (f d)).
  { intros f. unfold SmartDrivers.call. rewrite Hd.
    eapply lookup_set_driver_eq; exact Hd. }
  split.
  - intros f s'. subst s'.
    unfold SmartDrivers.SetStallFilter, SmartDrivers.in_range. rewrite Hrb.
    rewrite (AppendStallConfig_after_call _ _ _ _ _ Hr Hd),
      (AppendStallConfig_here _ _ _ _ Hr Hd).
    cbn [fmap option_fmap option_map].
    rewrite Hlook.
    unfold Driver.AppendStallConfig, Driver.SetStallDetectFilter.
    cbn [rep_filtered rep_threshold]. fields.
    rewrite !reg_set_reg_eq by (vm_compute; lia).
    set (r := reg (registers d) StallGuardConfig).
    rewrite filter_bit.
    destruct f.
    + split; [f_equal; bits; reflexivity |].
      split; [do 2 f_equal; mask_fields; reflexivity |].
      eexists. split; [reflexivity |].
      fields. rewrite reg_set_reg_eq by (vm_compute; lia).
      mask_fields. reflexivity.
    + split; [f_equal; bits; reflexivity |].
      split; [do 2 f_equal; mask_fields; reflexivity |].
      eexists. split; [reflexivity |].
      fields. rewrite reg_set_reg_eq by (vm_compute; lia).
      mask_fields. reflexivity.
  - intros t s'. subst s'.
    unfold SmartDrivers.SetStallThreshold, SmartDrivers.in_range. rewrite Hrb.
    rewrite (AppendStallConfig_after_call _ _ _ _ _ Hr Hd),
      (AppendStallConfig_here _ _ _ _ Hr Hd).
    cbn [fmap option_fmap option_map].
    rewrite Hlook.
    unfold Driver.AppendStallConfig, Driver.SetStallDetectThreshold.
    cbn [rep_filtered]. fields.
    rewrite !reg_set_reg_eq by (vm_compute; lia).
    set (r := reg (registers d) StallGuardConfig).
    set (v := shl32 _ TMC_SGCSCONF_SGT_SHIFT).
    assert (Hv : 0 <= v < 2 ^ 16) by apply shl32_sgt_bound.
    split.
    + do 3 f_equal. rewrite Z.land_lor_distr_l, (land_bit16_small v Hv).
      mask_fields. reflexivity.
    + eexists. split; [reflexivity |].
      fields. rewrite reg_set_reg_eq by (vm_compute; lia).
      rewrite Z.land_lor_distr_l.
      assert (Hlow : Z.land v TMC_SGCSCONF_CS_MASK = 0).
      { subst v. unfold shl32, u32, TMC_SGCSCONF_SGT_SHIFT.
        apply Z.bits_inj'. intros i Hi.
        rewrite !Z.land_spec, Z.bits_0.
        destruct (Z.ltb_spec i 8) as [Hlt|Hge].
        - rewrite Z.shiftl_spec_low by exact Hlt. reflexivity.
        - change TMC_SGCSCONF_CS_MASK with (Z.ones 5).
          rewrite Z.ones_spec_high by lia. apply andb_false_r. }
      rewrite Hlow. mask_fields. reflexivity.
Qed.

(** X10. A 16-bit coolStep configuration written by [SetCoolStep] is what
    [AppendStallConfig] prints; register 4 then holds it under the
    SMARTEN address, and the rest of the stall report is as before. *)
Theorem cool_step_roundtrip clock driver c s d :
  (driver < numTmc2660Drivers s)%nat ->
  driverStates s !! driver = Some d ->
  0 <= c < 2 ^ 16 ->
  let s' := SmartDrivers.SetCoolStep driver c s in
  let before := SmartDrivers.AppendStallConfig clock driver s in
  let after := SmartDrivers.AppendStallConfig clock driver s' in
  rep_coolstep <$> after = Some c /\
  rep_threshold <$> after = rep_threshold <$> before /\
  rep_filtered <$> after = rep_filtered <$> before /\
  rep_stepsPerSec <$> after = rep_stepsPerSec <$> before /\
  exists d',
    driverStates s' !! driver = Some d' /\
    reg (registers d') SmartEnable = Z.lor TMC_REG_SMARTEN c /\
    addressed TMC_REG_SMARTEN (reg (registers d') SmartEnable).
Proof.
  intros Hr Hd Hc s' before after. subst s' before after.
  assert (Hrb : (driver <? numTmc2660Drivers s)%nat = true)
    by (apply Nat.ltb_lt; exact Hr).
  unfold SmartDrivers.SetCoolStep, SmartDrivers.in_range. rewrite Hrb.
  rewrite (AppendStallConfig_after_call _ _ _ _ _ Hr Hd),
    (AppendStallConfig_here _ _ _ _ Hr Hd).
  cbn [fmap option_fmap option_map].
  unfold Driver.AppendStallConfig, Driver.SetCoolStep.
  cbn [rep_coolstep rep_threshold rep_filtered rep_stepsPerSec]. fields.
  rewrite reg_set_reg_eq by (vm_compute; lia).
  rewrite !(reg_set_reg_ne SmartEnable StallGuardConfig) by discriminate.
  assert (Hlow : Z.land c 0xFFFF = c).
  { change 0xFFFF with (Z.ones 16). rewrite Z.land_ones by lia.
    apply Z.mod_small. exact Hc. }
  split; [f_equal; mask_fields; exact Hlow |].
  do 3 (split; [reflexivity |]).
  eexists. split.
  - unfold SmartDrivers.call. rewrite Hd.
    eapply lookup_set_driver_eq; exact Hd.
  - fields. rewrite reg_set_reg_eq by (vm_compute; lia).
    split; [reflexivity |]. split.
    + apply lor_lt_pow2;
        [lia | vm_compute; split; [discriminate | reflexivity] |].
      change (2 ^ 16) with 65536 in Hc. change (2 ^ 20) with 1048576. lia.
    + rewrite Z.land_lor_distr_l.
      rewrite (land_high_zero c)
        by (change (2 ^ 16) with 65536 in Hc; change (2 ^ 17) with 131072; lia).
      reflexivity.
Qed.

(** X11. [SetStallMinimumStepsPerSecond] stores
    [StepClockRate / max(rate, 1)], so a rate of 0 counts as 1. For a rate
    up to the step clock the interval is at least 1 and the rate
    [AppendStallConfig] prints is not below the one asked for. For a rate
    above the step clock the interval is 0: the division in
    [AppendStallConfig] then has divisor 0, and every completed transfer
    has its SG bit removed, whatever the step interval. *)
Theorem stall_minimum_step_rate clock driver rate s d :
  (driver < numTmc2660Drivers s)%nat ->
  driverStates s !! driver = Some d ->
  0 < clock ->
  let s' := SmartDrivers.SetStallMinimumStepsPerSecond clock driver rate s in
  exists d',
    driverStates s' !! driver = Some d' /\
    maxStallStepInterval d' = clock / Z.max rate 1 /\
    (rate <= clock ->
     1 <= maxStallStepInterval d' /\
     exists printed,
       rep_stepsPerSec <$> SmartDrivers.AppendStallConfig clock driver s'
       = Some (Some printed) /\
       Z.max rate 1 <= printed <= clock) /\
    (clock < rate ->
     maxStallStepInterval d' = 0 /\
     rep_stepsPerSec <$> SmartDrivers.AppendStallConfig clock driver s'
     = Some None /\
     forall status interval,
       0 <= interval ->
       Z.land (lastReadStatus (TransferDone_update status interval d'))
              TMC_RR_SG = 0).
Proof.
  intros Hr Hd Hclock s'. subst s'.
  assert (Hrb : (driver <? numTmc2660Drivers s)%nat = true)
    by (apply Nat.ltb_lt; exact Hr).
  unfold SmartDrivers.SetStallMinimumStepsPerSecond, SmartDrivers.in_range.
  rewrite Hrb.
  rewrite (AppendStallConfig_after_call _ _ _ _ _ Hr Hd).
  eexists. split.
  { unfold SmartDrivers.call. rewrite Hd.
    eapply lookup_set_driver_eq; exact Hd. }
  unfold Driver.SetStallMinimumStepsPerSecond. fields.
  split; [reflexivity |].
  set (m := Z.max rate 1). assert (Hm : 1 <= m) by lia.
  split.
  - intros Hle.
    assert (Hq : 1 <= clock / m) by (apply Z.div_le_lower_bound; lia).
    split; [exact Hq |].
    exists (clock / (clock / m)).
    cbn [fmap option_fmap option_map]. unfold Driver.AppendStallConfig.
    cbn [rep_stepsPerSec]. fields.
    destruct (Z.eqb_spec (clock / m) 0) as [E|E]; [lia |].
    split; [reflexivity |]. split.
    + apply Z.div_le_lower_bound; [lia |].
      rewrite Z.mul_comm. apply Z.mul_div_le. lia.
    + apply Z.div_le_upper_bound; [lia |]. nia.
  - intros Hgt.
    assert (Hz : clock / m = 0) by (apply Z.div_small; lia).
    split; [exact Hz |].
    split.
    { cbn [fmap option_fmap option_map]. unfold Driver.AppendStallConfig.
      cbn [rep_stepsPerSec]. fields. rewrite Hz. reflexivity. }
    intros status interval Hi. unfold TransferDone_update. fields. rewrite Hz.
    destruct (Z.eqb_spec interval 0) as [E|E]; cbn [orb].
    + fields. mask_fields. reflexivity.
    + destruct (Z.ltb_spec 0 interval); [| lia].
      fields. mask_fields. reflexivity.
Qed.

(** ** The status report *)

Lemma land_lor_eq0 s a b :
  Z.land s (Z.lor a b) = 0 <-> Z.land s a = 0 /\ Z.land s b = 0.
Proof. rewrite Z.land_lor_distr_r. apply Z.lor_eq_0_iff. Qed.

Lemma has_false st f : Driver.has st f = false <-> Z.land st f = 0.
Proof. unfold Driver.has. rewrite negb_false_iff. apply Z.eqb_eq. Qed.

Lemma no_flag_test st a b :
  (Z.land st (Z.lor a b) =? 0) = (Z.land st a =? 0) && (Z.land st b =? 0).
Proof.
  destruct (Z.eqb_spec (Z.land st (Z.lor a b)) 0) as [E|E].
  - apply land_lor_eq0 in E. destruct E as [-> ->]. reflexivity.
  - destruct (Z.eqb_spec (Z.land st a) 0) as [Ea|Ea];
      destruct (Z.eqb_spec (Z.land st b) 0) as [Eb|Eb]; try reflexivity.
    destruct E. apply land_lor_eq0. auto.
Qed.

Lemma no_flag_has st f : (Z.land st f =? 0) = negb (Driver.has st f).
Proof. unfold Driver.has. symmetry. apply negb_involutive. Qed.

Ltac in_list :=
  repeat first [apply list_elem_of_here | apply list_elem_of_further].

Ltac not_in_list H :=
  repeat (apply elem_of_cons in H; destruct H as [H|H]; [try discriminate |]);
  try (apply elem_of_nil in H; destruct H).

Lemma AppendDriverStatus_load d :
  let ts := fst (Driver.AppendDriverStatus d) in
  (SgNotAvailable ∈ ts <-> maxSgLoadRegister d < minSgLoadRegister d) /\
  (forall lo hi,
     SgMinMax lo hi ∈ ts <->
     lo = minSgLoadRegister d /\ hi = maxSgLoadRegister d /\ lo <= hi).
Proof.
  intros ts. subst ts. unfold Driver.AppendDriverStatus. cbn [fst].
  set (st := lastReadStatus d).
  rewrite !no_flag_test, !no_flag_has.
  destruct (Driver.has st TMC_RR_OT), (Driver.has st TMC_RR_OTPW),
    (Driver.has st TMC_RR_S2G), (Driver.has st TMC_RR_OLA),
    (Driver.has st TMC_RR_OLB), (Driver.has st TMC_RR_STST);
    destruct (Z.leb_spec (minSgLoadRegister d) (maxSgLoadRegister d))
      as [Hle|Hgt];
    cbn [app andb negb];
    (split; [split;
             [ intros H; first [exfalso; not_in_list H; fail | lia]
             | intros H; first [in_list; fail | exfalso; lia ] ]
           |]);
    intros lo hi;
    (split;
     [ intros H; not_in_list H; try (inversion H; subst; repeat split; lia)
     | intros (-> & -> & H); first [in_list; fail | exfalso; lia ] ]).
Qed.

(** X12. What [AppendDriverStatus] reports. Shutdown and warning never
    appear together; open load is never reported for a motor at
    standstill; "ok" appears exactly when none of the six flags is set in
    the last status, and is then the only flag text; the load is reported
    as "not available" exactly when the window is empty (max < min) and as
    the pair min/max otherwise. *)
Theorem AppendDriverStatus_report d :
  let ts := fst (Driver.AppendDriverStatus d) in
  let st := lastReadStatus d in
  ~ (TemperatureShutdown ∈ ts /\ TemperatureWarning ∈ ts) /\
  (Standstill ∈ ts ->
   (OpenLoadA ∉ ts) /\ (OpenLoadB ∉ ts) /\ (StatusOk ∉ ts)) /\
  (StatusOk ∈ ts <->
     Z.land st
       (Z.lor (Z.lor (Z.lor (Z.lor (Z.lor TMC_RR_OT TMC_RR_OTPW) TMC_RR_S2G)
                            TMC_RR_OLA) TMC_RR_OLB) TMC_RR_STST) = 0) /\
  (StatusOk ∈ ts -> exists load, ts = [StatusOk; load]) /\
  (SgNotAvailable ∈ ts <-> maxSgLoadRegister d < minSgLoadRegister d) /\
  (forall lo hi,
     SgMinMax lo hi ∈ ts <->
     lo = minSgLoadRegister d /\ hi = maxSgLoadRegister d /\ lo <= hi).
Proof.
  intros ts st. subst ts st.
  pose proof (AppendDriverStatus_load d) as Hload. cbv zeta in Hload.
  revert Hload.
  unfold Driver.AppendDriverStatus. cbn [fst].
  set (st := lastReadStatus d).
  rewrite !land_lor_eq0, <- !has_false.
  rewrite !no_flag_test, !no_flag_has.
  destruct (Driver.has st TMC_RR_OT), (Driver.has st TMC_RR_OTPW),
    (Driver.has st TMC_RR_S2G), (Driver.has st TMC_RR_OLA),
    (Driver.has st TMC_RR_OLB), (Driver.has st TMC_RR_STST);
    destruct (minSgLoadRegister d <=? maxSgLoadRegister d);
    cbn [app andb negb]; intros Hload;
    (split; [intros [H1 H2]; not_in_list H1; not_in_list H2 |]);
    (split; [intros H;
             first [ exfalso; not_in_list H; fail
                   | repeat split; intros H'; not_in_list H' ] |]);
    (split; [split;
             [ intros H; first [exfalso; not_in_list H; fail
                               | repeat split; reflexivity]
             | intros H; first [in_list; fail | exfalso; intuition congruence ] ]
           |]);
    (split; [intros H;
             first [ exfalso; not_in_list H; fail
                   | eexists; reflexivity ] |]);
    exact Hload.
Qed.

(** X13. [AppendDriverStatus] empties the load window and touches nothing
    else, so a second report straight after says "not available". *)
Theorem AppendDriverStatus_resets_load_window d :
  let d' := snd (Driver.AppendDriverStatus d) in
  d' = with_maxSgLoadRegister 0 (with_minSgLoadRegister 1023 d) /\
  SgNotAvailable ∈ fst (Driver.AppendDriverStatus d') /\
  forall lo hi, SgMinMax lo hi ∉ fst (Driver.AppendDriverStatus d').
Proof.
  intros d'. subst d'.
  split; [reflexivity |].
  destruct (AppendDriverStatus_load (snd (Driver.AppendDriverStatus d)))
    as [Hna Hmm].
  split.
  - apply Hna. cbn. lia.
  - intros lo hi Hin. apply Hmm in Hin. cbn in Hin. lia.
Qed.

(** ** Indices out of range *)

(** X14. An index at or beyond [numTmc2660Drivers] is ignored: every
    operation addressed to it leaves the whole state as it is, the setters
    that return a flag return false, and the getters return their fixed
    defaults (status 0, microstepping 1 without interpolation, mode
    unknown, chopper register 0, off time 0, nothing appended). *)
Theorem out_of_range_index_is_ignored clock code enablePin driver s :
  (numTmc2660Drivers s <= driver)%nat ->
  (forall op, op_driver op = Some driver ->
              run clock code enablePin op s = s) /\
  (forall m i, fst (SmartDrivers.SetMicrostepping driver m i s) = false) /\
  (forall m, fst (SmartDrivers.SetDriverMode code driver m s) = false) /\
  (forall v, fst (SmartDrivers.SetChopperControlRegister driver v s) = false) /\
  (forall n, fst (SmartDrivers.SetOffTime driver n s) = false) /\
  (forall k, fst (SmartDrivers.GetAccumulatedStatus driver k s) = 0) /\
  SmartDrivers.GetLiveStatus driver s = 0 /\
  SmartDrivers.GetMicrostepping driver s = (1, false) /\
  SmartDrivers.GetDriverMode driver s = unknown /\
  SmartDrivers.GetChopperControlRegister driver s = 0 /\
  SmartDrivers.GetOffTime driver s = 0 /\
  SmartDrivers.AppendStallConfig clock driver s = None /\
  fst (SmartDrivers.AppendDriverStatus driver s) = [].
Proof.
  intros Hout.
  assert (Hr : SmartDrivers.in_range driver s = false)
    by (apply Nat.ltb_ge; exact Hout).
  split.
  - intros op Hop.
    destruct op; cbn [op_driver] in Hop; try discriminate;
      inversion Hop; subst; cbn [run];
      unfold SmartDrivers.SetAxisNumber, SmartDrivers.SetCurrent,
        SmartDrivers.EnableDrive, SmartDrivers.GetAccumulatedStatus,
        SmartDrivers.SetMicrostepping, SmartDrivers.SetDriverMode,
        SmartDrivers.SetChopperControlRegister, SmartDrivers.SetOffTime,
        SmartDrivers.SetStallThreshold, SmartDrivers.SetStallFilter,
        SmartDrivers.SetStallMinimumStepsPerSecond, SmartDrivers.SetCoolStep,
        SmartDrivers.AppendDriverStatus;
      rewrite Hr; reflexivity.
  - unfold SmartDrivers.SetMicrostepping, SmartDrivers.SetDriverMode,
      SmartDrivers.SetChopperControlRegister, SmartDrivers.SetOffTime,
      SmartDrivers.GetAccumulatedStatus, SmartDrivers.GetLiveStatus,
      SmartDrivers.GetMicrostepping, SmartDrivers.GetDriverMode,
      SmartDrivers.GetChopperControlRegister, SmartDrivers.GetOffTime,
      SmartDrivers.AppendStallConfig, SmartDrivers.AppendDriverStatus.
    rewrite Hr. repeat split; reflexivity.
Qed.

(** ** Draining the dirty mask *)

Lemma StartTransfer_driver i s d :
  driverStates s !! i = Some d ->
  0 <= registersToUpdate d < 32 ->
  exists m',
    driverStates (Driver.StartTransfer i s) !! i
    = Some (with_registersToUpdate m' d) /\
    0 <= m' < 32 /\
    (registersToUpdate d = 0 -> m' = 0) /\
    (forall b, 0 <= b ->
       Z.testbit m' b = true -> Z.testbit (registersToUpdate d) b = true) /\
    (forall j : nat,
       (forall b : nat, (b < j)%nat ->
          Z.testbit (registersToUpdate d) (Z.of_nat b) = false) ->
       forall b : nat, (b < S j)%nat -> Z.testbit m' (Z.of_nat b) = false).
Proof.
  intros Hd Hm.
  destruct (StartTransfer_effect i s d Hd) as (regVal & d' & -> & Hcase).
  assert (Hlook : driverStates
      (with_endRxInterrupt true
         (Driver.SetupDMA regVal
            (digitalWrite (pin d') LOW
               (set_driver i d' (with_currentDriver (Some i) s))))) !! i
    = Some d').
  { fields. apply list_lookup_insert_eq. eapply lookup_lt_Some; eauto. }
  rewrite Hlook.
  destruct Hcase as [(Hz & _ & ->) | (Hnz & k & mask & Hsel & _ & ->)].
  - exists 0. split; [rewrite <- Hz; destruct d; reflexivity |].
    split; [lia |]. split; [reflexivity |].
    split; [intros b _ H; rewrite Z.bits_0 in H; discriminate |].
    intros j _ b _. apply Z.bits_0.
  - destruct (select_register_lowest (registersToUpdate d))
      as (k' & Hk' & Hlt & Hset & Hlow); [lia |].
    rewrite Hsel in Hk'. inversion Hk'; subst k' mask.
    rewrite (clear_selected_bit _ _ Hm).
    exists (Z.clearbit (registersToUpdate d) (Z.of_nat k)).
    split; [reflexivity |].
    split.
    { rewrite <- (clear_selected_bit _ _ Hm). change 32 with (2 ^ 5).
      apply land_lt_pow2; [lia | exact Hm]. }
    split; [intros Hz; contradiction |].
    split.
    { intros b Hb Hbit.
      destruct (Z.eq_dec (Z.of_nat k) b) as [<-|Hne].
      - rewrite Z.clearbit_eq in Hbit. discriminate.
      - rewrite Z.clearbit_neq in Hbit by exact Hne. exact Hbit. }
    intros j Hj b Hb.
    destruct (Nat.eq_dec k b) as [<-|Hne].
    + apply Z.clearbit_eq.
    + rewrite Z.clearbit_neq by lia.
      destruct (Nat.lt_ge_cases b k) as [Hbk|Hbk]; [apply Hlow, Hbk |].
      apply Hj.
      destruct (Nat.lt_ge_cases k j) as [Hkj|Hkj]; [| lia].
      rewrite (Hj k Hkj) in Hset. discriminate.
Qed.

(** X15. Without further setter calls the dirty mask of a driver is empty
    after five calls of [StartTransfer] on it, the driver is otherwise
    unchanged, and the next transfer is a keep-alive that sends register 4
    and leaves the driver as it is. The mask is assumed within bits 0..4, as it is in every
    reachable state. *)
Theorem dirty_mask_drains_in_five_transfers i s d :
  driverStates s !! i = Some d ->
  0 <= registersToUpdate d < 32 ->
  let s5 := Nat.iter 5 (Driver.StartTransfer i) s in
  driverStates s5 !! i = Some (with_registersToUpdate 0 d) /\
  driverStates (Driver.StartTransfer i s5) !! i
  = Some (with_registersToUpdate 0 d) /\
  spiDataOut (Driver.StartTransfer i s5)
  = cpu_to_be32 (shl32 (reg (registers d) SmartEnable) 8).
Proof.
  intros Hd Hm s5.
  assert (Hiter : forall j,
    exists m,
      driverStates (Nat.iter j (Driver.StartTransfer i) s) !! i
      = Some (with_registersToUpdate m d) /\
      0 <= m < 32 /\
      forall b : nat, (b < j)%nat -> Z.testbit m (Z.of_nat b) = false).
  { induction j as [|j (m & Hlook & Hrange & Hbits)].
    - exists (registersToUpdate d).
      split; [change (Nat.iter 0 (Driver.StartTransfer i) s) with s;
              rewrite Hd; destruct d; reflexivity |].
      split; [exact Hm | intros b Hb; lia].
    - change (Nat.iter (S j) (Driver.StartTransfer i) s)
        with (Driver.StartTransfer i (Nat.iter j (Driver.StartTransfer i) s)).
      destruct (StartTransfer_driver i _ _ Hlook Hrange)
        as (m' & Hlook' & Hrange' & _ & _ & Hstep).
      exists m'. split; [exact Hlook' |]. split; [exact Hrange' |].
      apply Hstep. exact Hbits. }
  destruct (Hiter 5%nat) as (m & Hlook & Hrange & Hbits).
  assert (Hz : m = 0).
  { apply Z.bits_inj_0. intros n.
    destruct (Z.ltb_spec n 0) as [Hneg|Hnn]; [apply Z.testbit_neg_r, Hneg |].
    destruct (Z.ltb_spec n 5) as [Hlt|Hge].
    - rewrite <- (Z2Nat.id n) by lia. apply Hbits. lia.
    - apply (testbit_high m 5 n); [change (2 ^ 5) with 32; lia | lia]. }
  subst m. fold s5 in Hlook. split; [exact Hlook |].
  destruct (StartTransfer_effect i s5 _ Hlook)
    as (regVal & d' & Heq & Hcase).
  destruct Hcase as [(_ & -> & ->) | (Hnz & _)];
    [| destruct Hnz; reflexivity].
  rewrite Heq. split.
  - fields. apply list_lookup_insert_eq. eapply lookup_lt_Some; eauto.
  - reflexivity.
Qed.

(** ** The scheduler: start, round robin, stop *)

(** What [StartTransfer] does to the statics around the driver array. *)
Lemma StartTransfer_scheduler i s d :
  driverStates s !! i = Some d ->
  let s' := Driver.StartTransfer i s in
  currentDriver s' = Some i /\
  numTmc2660Drivers s' = numTmc2660Drivers s /\
  driversPowered s' = driversPowered s /\
  endRxInterrupt s' = true /\
  nvicEnabled s' = nvicEnabled s /\
  pins s' = <[pin d := LOW]> (pins s) /\
  length (driverStates s') = length (driverStates s) /\
  (forall j, j <> i -> driverStates s' !! j = driverStates s !! j) /\
  exists d', driverStates s' !! i = Some d' /\ pin d' = pin d.
Proof.
  intros Hd s'. subst s'.
  destruct (StartTransfer_effect i s d Hd) as (regVal & d' & -> & Hcase).
  assert (Hpin : pin d' = pin d).
  { destruct Hcase as [(_ & _ & ->) | (_ & k & mask & _ & _ & ->)];
      reflexivity. }
  fields. rewrite Hpin.
  repeat (split; [reflexivity |]).
  split; [apply length_insert |].
  split; [intros j Hj; apply list_lookup_insert_ne; congruence |].
  exists d'. split; [| exact Hpin].
  apply list_lookup_insert_eq. eapply lookup_lt_Some; eauto.
Qed.

(** What [TransferDone] does to the pins. *)
Lemma TransferDone_pins G i s d :
  driverStates s !! i = Some d ->
  pins (Driver.TransferDone G i s) = <[pin d := HIGH]> (pins s) /\
  length (driverStates (Driver.TransferDone G i s)) = length (driverStates s) /\
  (forall j dj, driverStates s !! j = Some dj ->
     exists dj', driverStates (Driver.TransferDone G i s) !! j = Some dj' /\
                 pin dj' = pin dj) /\
  (driversPowered s = false ->
     driverStates (Driver.TransferDone G i s) = driverStates s).
Proof.
  intros Hd. rewrite (TransferDone_unfold G i s d Hd).
  destruct (driversPowered s); fields.
  - split; [reflexivity |]. split; [apply length_insert |].
    split; [| discriminate].
    intros j dj Hj. destruct (decide (i = j)) as [<-|Hne].
    + rewrite list_lookup_insert_eq by (eapply lookup_lt_Some; eauto).
      eexists. split; [reflexivity |].
      rewrite Hd in Hj. inversion Hj; subst dj.
      unfold TransferDone_update.
      destruct (_ || _); fields; [reflexivity |].
      destruct (_ <? minSgLoadRegister d); fields;
        destruct (maxSgLoadRegister d <? _); reflexivity.
    + rewrite list_lookup_insert_ne by done. exists dj. auto.
  - split; [reflexivity |]. split; [reflexivity |].
    split; [| reflexivity]. intros j dj Hj. exists dj. auto.
Qed.

(** The calls through the interface touch nothing but the driver array. *)
Lemma call_statics driver f s :
  exists l, SmartDrivers.call driver f s = with_driverStates l s.
Proof.
  unfold SmartDrivers.call.
  destruct (driverStates s !! driver) as [d|].
  - eexists. reflexivity.
  - exists (driverStates s). destruct s; reflexivity.
Qed.

Lemma call_ret_statics {A} (dflt : A) driver f s :
  exists l, snd (SmartDrivers.call_ret dflt driver f s) = with_driverStates l s.
Proof.
  unfold SmartDrivers.call_ret.
  destruct (driverStates s !! driver) as [d|].
  - eexists. reflexivity.
  - exists (driverStates s). destruct s; reflexivity.
Qed.

Lemma run_addressed_statics clock code enablePin op driver s :
  op_driver op = Some driver ->
  exists l, run clock code enablePin op s = with_driverStates l s.
Proof.
  assert (Hid : exists l, s = with_driverStates l s)
    by (exists (driverStates s); destruct s; reflexivity).
  intros Hop.
  destruct op; cbn [op_driver] in Hop; try discriminate; cbn [run];
    unfold SmartDrivers.SetAxisNumber, SmartDrivers.SetCurrent,
      SmartDrivers.EnableDrive, SmartDrivers.GetAccumulatedStatus,
      SmartDrivers.SetDriverMode, SmartDrivers.SetChopperControlRegister,
      SmartDrivers.SetOffTime, SmartDrivers.SetStallThreshold,
      SmartDrivers.SetStallFilter, SmartDrivers.SetStallMinimumStepsPerSecond,
      SmartDrivers.SetCoolStep, SmartDrivers.AppendDriverStatus,
      SmartDrivers.SetMicrostepping;
    destruct (SmartDrivers.in_range _ s); cbn [andb snd];
    try exact Hid;
    try apply call_statics; try apply call_ret_statics.
  destruct (0 <? microsteps); [| exact Hid].
  destruct (SmartDrivers.count_shift _ _ _) as [[u sh]|]; [| exact Hid].
  destruct (_ && _); [| exact Hid].
  cbn [snd]. apply call_statics.
Qed.

(** The loop of [Spin]: the drivers in use are marked for a full rewrite,
    nothing else changes. *)
Lemma foldl_WriteAll_lookup n s :
  exists l,
    foldl (fun s driver => SmartDrivers.call driver Driver.WriteAll s)
          s (seq 0 n)
    = with_driverStates l s /\
    length l = length (driverStates s) /\
    forall i,
      l !! i = if (i <? n)%nat
               then Driver.WriteAll <$> driverStates s !! i
               else driverStates s !! i.
Proof.
  induction n as [|n (l & Heq & Hlen & Hl)].
  - exists (driverStates s). cbn [seq foldl].
    split; [destruct s; reflexivity |]. split; [reflexivity |].
    intros i. reflexivity.
  - rewrite seq_S, foldl_app. cbn [foldl Nat.add]. rewrite Heq.
    unfold SmartDrivers.call. fields.
    destruct (l !! n) as [d|] eqn:Hn.
    + exists (<[n:=Driver.WriteAll d]> l).
      split; [reflexivity |]. split; [rewrite length_insert; exact Hlen |].
      intros i. destruct (decide (n = i)) as [<-|Hne].
      * rewrite list_lookup_insert_eq by (eapply lookup_lt_Some; eauto).
        replace (n <? S n)%nat with true by (symmetry; apply Nat.ltb_lt; lia).
        pose proof (Hl n) as Hln. rewrite Nat.ltb_irrefl in Hln.
        rewrite <- Hln, Hn. reflexivity.
      * rewrite list_lookup_insert_ne by done. rewrite Hl.
        destruct (Nat.ltb_spec i n), (Nat.ltb_spec i (S n));
          try lia; reflexivity.
    + exists l. split; [reflexivity |]. split; [exact Hlen |].
      intros i. rewrite Hl.
      destruct (Nat.ltb_spec i n), (Nat.ltb_spec i (S n));
        try lia; try reflexivity.
      assert (i = n) by lia. subst i.
      pose proof (Hl n) as Hln. rewrite Nat.ltb_irrefl in Hln.
      rewrite <- Hln, Hn. reflexivity.
Qed.

(** [currentDriver] always points at a driver in use. *)
Lemma StartTransfer_current_in_range i s :
  (i < numTmc2660Drivers s)%nat ->
  (numTmc2660Drivers s <= length (driverStates s))%nat ->
  current_in_range (Driver.StartTransfer i s).
Proof.
  intros Hi Hlen.
  destruct (lookup_lt_is_Some_2 (driverStates s) i) as [d Hd]; [lia |].
  destruct (StartTransfer_scheduler i s d Hd) as (Hc & Hn & _).
  intros j Hj. rewrite Hc in Hj. inversion Hj; subst j. rewrite Hn. exact Hi.
Qed.

Lemma current_in_range_ext s s' :
  currentDriver s' = currentDriver s ->
  numTmc2660Drivers s' = numTmc2660Drivers s ->
  current_in_range s -> current_in_range s'.
Proof. unfold current_in_range. intros -> ->. auto. Qed.

Lemma next_driver_mod i n :
  (i < n)%nat ->
  (if (S i =? n)%nat then 0%nat else S i) = (S i mod n)%nat /\
  (S i mod n < n)%nat.
Proof.
  intros Hi. destruct (Nat.eqb_spec (S i) n) as [Heq|Hne].
  - subst n. rewrite Nat.Div0.mod_same. lia.
  - rewrite Nat.mod_small by lia. lia.
Qed.

Lemma run_current_in_range clock code enablePin op s :
  system_ok s -> current_in_range s ->
  current_in_range (run clock code enablePin op s).
Proof.
  intros (Hds & Hlen & Hsched) Hcur.
  destruct (op_driver op) as [driver|] eqn:Hop.
  - destruct (run_addressed_statics clock code enablePin op driver s Hop)
      as (l & ->).
    revert Hcur. apply current_in_range_ext; reflexivity.
  - destruct op; cbn [op_driver] in Hop; try discriminate; cbn [run].
    + unfold SmartDrivers.Spin. destruct powered.
      * set (s2 := if negb (driversPowered s) then _ else _).
        assert (H2 : exists l,
                  s2 = with_driverStates l
                         (with_pins (pins s2) (with_driversPowered true s)) /\
                  length l = length (driverStates s)).
        { subst s2. destruct (driversPowered s); cbn [negb].
          - exists (driverStates s). split; [| reflexivity].
            destruct s; reflexivity.
          - match goal with
            | |- context [foldl ?f ?a (seq 0 ?n)] =>
                destruct (foldl_WriteAll_lookup n a) as (l & -> & Hl & _)
            end.
            exists l. split; [reflexivity | exact Hl]. }
        destruct H2 as (l & H2 & Hl).
        destruct (bool_decide (currentDriver s2 = None)
                  && negb (numTmc2660Drivers s2 =? 0)%nat) eqn:Hc.
        -- apply andb_true_iff in Hc. destruct Hc as [_ Hn].
           apply negb_true_iff, Nat.eqb_neq in Hn.
           apply StartTransfer_current_in_range; fields; [lia |].
           rewrite H2. fields. rewrite Hl. exact Hlen.
        -- revert Hcur. apply current_in_range_ext; rewrite H2; reflexivity.
      * destruct (driversPowered s);
          (revert Hcur; apply current_in_range_ext; reflexivity).
    + revert Hcur. apply current_in_range_ext; reflexivity.
    + unfold TMC2660_SPI_Handler. fields.
      destruct (currentDriver s) as [i|] eqn:Hi;
        [| intros j Hj; discriminate].
      pose proof (Hcur i Hi) as Hin.
      destruct (TransferDone_frame GetStepInterval i (with_spiDataIn received s))
        as (Hn & Hp & _).
      set (s1 := Driver.TransferDone GetStepInterval i _) in *.
      destruct (driversPowered s1); [| intros j Hj; discriminate].
      rewrite Hn. fields.
      destruct (next_driver_mod i _ Hin) as (-> & Hlt).
      apply StartTransfer_current_in_range; [rewrite Hn; exact Hlt |].
      rewrite Hn. fields. subst s1.
      destruct (lookup_lt_is_Some_2 (driverStates s) i) as [d Hd]; [lia |].
      destruct (TransferDone_pins GetStepInterval i
                  (with_spiDataIn received s) d Hd) as (_ & -> & _).
      exact Hlen.
Qed.

Lemma reachable_current_in_range clock code maxDrivers enablePin s :
  reachable clock code maxDrivers enablePin s -> current_in_range s.
Proof.
  induction 1 as [sel n | s op Hr IH].
  - unfold SmartDrivers.Init.
    match goal with
    | |- current_in_range (foldl _ ?a (seq 0 ?k)) =>
        destruct (Init_fold (fun _ _ => True) clock sel k a)
          as (_ & _ & _ & _ & I5)
    end; [auto | | auto |].
    + fields. unfold boot. fields. rewrite length_replicate. lia.
    + intros i Hi. rewrite I5 in Hi. discriminate.
  - apply run_current_in_range; [| exact IH].
    eapply reachable_ok. exact Hr.
Qed.

(** X16. While the drivers are powered, the interrupt that ends the
    transfer to driver [i] starts the transfer to the next driver in use,
    wrapping round to driver 0 after the last one: [currentDriver] becomes
    [(i + 1) mod numTmc2660Drivers], the end-of-receive interrupt is
    enabled, the select pin of the next driver is driven low and that of
    driver [i], if it is another pin, high. *)
Theorem interrupt_polls_next_driver
    clock code maxDrivers enablePin s i received G :
  reachable clock code maxDrivers enablePin s ->
  driversPowered s = true ->
  currentDriver s = Some i ->
  let n := numTmc2660Drivers s in
  let s' := run clock code enablePin (OpInterrupt received G) s in
  (i < n)%nat /\
  numTmc2660Drivers s' = n /\
  driversPowered s' = true /\
  currentDriver s' = Some (S i mod n)%nat /\
  endRxInterrupt s' = true /\
  exists d d',
    driverStates s !! i = Some d /\
    driverStates s' !! (S i mod n)%nat = Some d' /\
    pins s' !! pin d' = Some LOW /\
    (pin d <> pin d' -> pins s' !! pin d = Some HIGH).
Proof.
  intros Hr Hp Hi n s'.
  pose proof (reachable_current_in_range _ _ _ _ _ Hr i Hi) as Hin.
  destruct (reachable_ok _ _ _ _ _ Hr) as (_ & Hlen & _).
  destruct (lookup_lt_is_Some_2 (driverStates s) i) as [d Hd]; [lia |].
  destruct (next_driver_mod i _ Hin) as (Hnext & Hlt). fold n in Hnext, Hlt.
  destruct (lookup_lt_is_Some_2 (driverStates s) (S i mod n)) as [dn Hdn];
    [lia |].
  subst s'. cbn [run]. unfold TMC2660_SPI_Handler. fields. rewrite Hi.
  destruct (TransferDone_frame G i (with_spiDataIn received s))
    as (Hn1 & Hp1 & _).
  destruct (TransferDone_pins G i (with_spiDataIn received s) d Hd)
    as (Hpins1 & _ & Hkeep & _).
  set (s1 := Driver.TransferDone G i (with_spiDataIn received s)) in *.
  fields. rewrite Hp1, Hp, Hn1. fold n. rewrite Hnext.
  destruct (Hkeep _ _ Hdn) as (dn' & Hdn' & Hpin').
  destruct (StartTransfer_scheduler _ s1 dn' Hdn')
    as (Hc & Hn & Hpw & He & _ & Hpins & _ & _ & d' & Hd' & Hpd').
  split; [exact Hin |].
  split; [rewrite Hn; exact Hn1 |].
  split; [rewrite Hpw, Hp1; exact Hp |].
  split; [exact Hc |].
  split; [exact He |].
  exists d, d'. split; [exact Hd |]. split; [exact Hd' |].
  rewrite Hpins, Hpins1, Hpd'. split.
  - apply lookup_insert_eq.
  - intros Hne. rewrite lookup_insert_ne by congruence.
    apply lookup_insert_eq.
Qed.

(** X17. Switching the drivers off halts the polling at the next
    interrupt. [TurnDriversOff] drives the enable pin high and clears
    [driversPowered]; it is what [Spin(false)] does to powered drivers, and
    [Spin(false)] does nothing to unpowered ones. The interrupt that
    follows discards the received word, so no driver object changes; it
    drives the select pin of the driver that was being polled high,
    disables the end-of-receive interrupt and resets [currentDriver]. *)
Theorem power_down_stops_polling enablePin s received G :
  let s1 := SmartDrivers.TurnDriversOff enablePin s in
  let s2 := TMC2660_SPI_Handler G (with_spiDataIn received s1) in
  driversPowered s1 = false /\
  pins s1 !! enablePin = Some HIGH /\
  driverStates s1 = driverStates s /\
  (driversPowered s = true -> SmartDrivers.Spin enablePin false s = s1) /\
  (driversPowered s = false -> SmartDrivers.Spin enablePin false s = s) /\
  driverStates s2 = driverStates s /\
  driversPowered s2 = false /\
  currentDriver s2 = None /\
  endRxInterrupt s2 = false /\
  (forall i d, currentDriver s = Some i -> driverStates s !! i = Some d ->
               pins s2 !! pin d = Some HIGH).
Proof.
  intros s1 s2.
  split; [reflexivity |].
  split; [subst s1; unfold SmartDrivers.TurnDriversOff; fields;
          apply lookup_insert_eq |].
  split; [reflexivity |].
  split; [intros Hp; unfold SmartDrivers.Spin; rewrite Hp; reflexivity |].
  split; [intros Hp; unfold SmartDrivers.Spin; rewrite Hp;
          destruct s; cbn in Hp; subst; reflexivity |].
  subst s2. unfold TMC2660_SPI_Handler.
  change (currentDriver (with_spiDataIn received s1)) with (currentDriver s).
  destruct (currentDriver s) as [i|] eqn:Hi.
  - destruct (TransferDone_frame G i (with_spiDataIn received s1))
      as (_ & Hp1 & _).
    rewrite Hp1. change (driversPowered (with_spiDataIn received s1)) with false.
    cbv iota.
    destruct (driverStates s !! i) as [d|] eqn:Hd.
    + destruct (TransferDone_pins G i (with_spiDataIn received s1) d Hd)
        as (Hpins & _ & _ & Hsame).
      unfold stop_polling. fields.
      split; [apply Hsame; reflexivity |].
      split; [exact Hp1 |]. split; [reflexivity |]. split; [reflexivity |].
      intros j dj Hj Hdj. inversion Hj; subst j.
      rewrite Hd in Hdj. inversion Hdj; subst dj.
      rewrite Hpins. apply lookup_insert_eq.
    + unfold Driver.TransferDone.
      change (driverStates (with_spiDataIn received s1)) with (driverStates s).
      rewrite Hd. unfold stop_polling. fields.
      repeat (split; [reflexivity |]).
      intros j dj Hj Hdj. inversion Hj; subst j. congruence.
  - unfold stop_polling. fields.
    repeat (split; [reflexivity |]). intros j dj Hj. discriminate.
Qed.

(** X18. Power coming up: [Spin(true)] on unpowered drivers drives the
    enable pin low and marks all five registers of every driver in use for
    sending, without changing their contents. If no transfer is in flight
    it starts one to driver 0, which sends register 0 at once and so has
    four registers left to send. *)
Theorem power_up_resends_every_register enablePin s i d :
  driversPowered s = false ->
  (i < numTmc2660Drivers s)%nat ->
  driverStates s !! i = Some d ->
  let s' := SmartDrivers.Spin enablePin true s in
  driversPowered s' = true /\
  pins s' !! enablePin = Some LOW /\
  if bool_decide (currentDriver s = None) then
    currentDriver s' = Some 0%nat /\
    nvicEnabled s' = true /\
    endRxInterrupt s' = true /\
    (exists d0, driverStates s !! 0%nat = Some d0 /\
       spiDataOut s'
       = cpu_to_be32 (shl32 (reg (registers d0) DriveControl) 8)) /\
    driverStates s' !! i
    = Some (with_registersToUpdate (if bool_decide (i = 0%nat) then 30 else 31)
              d)
  else
    currentDriver s' = currentDriver s /\
    driverStates s' !! i = Some (with_registersToUpdate 31 d).
Proof.
  intros Hp Hi Hd s'. subst s'. unfold SmartDrivers.Spin. rewrite Hp.
  cbn [negb].
  match goal with
  | |- context [foldl ?f ?a (seq 0 ?n)] =>
      destruct (foldl_WriteAll_lookup n a) as (l & -> & Hlen & Hl)
  end.
  fields.
  assert (Hli : l !! i = Some (with_registersToUpdate 31 d)).
  { rewrite Hl. replace (i <? numTmc2660Drivers s)%nat with true
      by (symmetry; apply Nat.ltb_lt; exact Hi).
    rewrite Hd. reflexivity. }
  destruct (numTmc2660Drivers s =? 0)%nat eqn:Hn;
    [apply Nat.eqb_eq in Hn; lia |].
  cbn [negb]. rewrite andb_true_r.
  destruct (bool_decide (currentDriver s = None)) eqn:Hc.
  - destruct (lookup_lt_is_Some_2 (driverStates s) 0) as [d0 Hd0];
      [apply lookup_lt_Some in Hd; lia |].
    assert (Hl0 : l !! 0%nat = Some (with_registersToUpdate 31 d0)).
    { rewrite Hl. replace (0 <? numTmc2660Drivers s)%nat with true
        by (symmetry; apply Nat.ltb_lt; lia).
      rewrite Hd0. reflexivity. }
    unfold Driver.StartTransfer. fields. rewrite Hl0. fields.
    change (31 =? 0) with false. cbv iota.
    change (Driver.select_register 31) with (Some (0%nat, 1)).
    cbv iota beta. fields.
    split; [reflexivity |].
    split.
    { destruct (decide (pin d0 = enablePin)) as [->|Hne].
      - apply lookup_insert_eq.
      - rewrite lookup_insert_ne by exact Hne. apply lookup_insert_eq. }
    split; [reflexivity |]. split; [reflexivity |]. split; [reflexivity |].
    split; [exists d0; split; [exact Hd0 | reflexivity] |].
    destruct (decide (i = 0%nat)) as [->|Hne].
    + rewrite bool_decide_eq_true_2 by reflexivity.
      rewrite list_lookup_insert_eq by (eapply lookup_lt_Some; eauto).
      rewrite Hd in Hd0. inversion Hd0; subst d0. reflexivity.
    + rewrite bool_decide_eq_false_2 by exact Hne.
      rewrite list_lookup_insert_ne by congruence. exact Hli.
  - fields. split; [reflexivity |].
    split; [apply lookup_insert_eq |].
    split; [reflexivity | exact Hli].
Qed.

(** ** What [Init] leaves behind *)

(** The loop of [SmartDrivers::Init], element by element. *)
Lemma Init_fold_lookup clock (sel : list Z) k s :
  (k <= length (driverStates s))%nat ->
  let s' :=
    foldl (fun s driver =>
             Driver.Init clock (Z.of_nat driver) (default 0 (sel !! driver))
                         driver s)
          s (seq 0 k) in
  (forall i,
     driverStates s' !! i
     = if (i <? k)%nat
       then Driver.Init_object clock (Z.of_nat i) (default 0 (sel !! i))
              <$> driverStates s !! i
       else driverStates s !! i) /\
  (forall i, (i < k)%nat -> pins s' !! default 0 (sel !! i) = Some HIGH) /\
  (forall p, pins s !! p = Some HIGH -> pins s' !! p = Some HIGH).
Proof.
  intros Hk. cbv zeta. induction k as [|k IH].
  - cbn [seq foldl]. split; [reflexivity |]. split; [lia | auto].
  - rewrite seq_S, foldl_app. cbn [foldl Nat.add].
    destruct IH as (I1 & I2 & I3); [lia |].
    set (sk := foldl _ s (seq 0 k)) in *.
    unfold Driver.Init.
    pose proof (I1 k) as Hkk. rewrite Nat.ltb_irrefl in Hkk.
    destruct (lookup_lt_is_Some_2 (driverStates s) k) as [d Hd]; [lia |].
    rewrite Hkk, Hd. fields.
    split; [| split].
    + intros i. destruct (decide (k = i)) as [<-|Hne].
      * rewrite list_lookup_insert_eq
          by (apply lookup_lt_is_Some; rewrite Hkk, Hd; eauto).
        replace (k <? S k)%nat with true by (symmetry; apply Nat.ltb_lt; lia).
        rewrite Hd. reflexivity.
      * rewrite list_lookup_insert_ne by done. rewrite I1.
        destruct (Nat.ltb_spec i k), (Nat.ltb_spec i (S k));
          try lia; reflexivity.
    + intros i Hi.
      destruct (decide (default 0 (sel !! k) = default 0 (sel !! i)))
        as [->|Hne]; [apply lookup_insert_eq |].
      rewrite lookup_insert_ne by exact Hne. apply I2.
      destruct (decide (i = k)) as [->|Hik]; [congruence | lia].
    + intros p Hp.
      destruct (decide (default 0 (sel !! k) = p)) as [->|Hne];
        [apply lookup_insert_eq |].
      rewrite lookup_insert_ne by exact Hne. apply I3, Hp.
Qed.

(** X19. After [SmartDrivers::Init] the number of drivers in use is the
    requested one capped at [MaxSmartDrivers], the drivers are unpowered
    with the enable pin high, and no transfer is in flight. Every driver in
    use has its own index as axis number, its select pin driven high, all
    five registers waiting to be sent, and reads back the defaults: 16
    microsteps with interpolation, spreadCycle mode, chopper register
    0x101B4 with off time 4, stall threshold 1 without filter, coolStep
    off, a clean status and no load reading. *)
Theorem Init_sets_defaults clock maxDrivers enablePin sel n i :
  let s := SmartDrivers.Init clock maxDrivers enablePin sel n (boot maxDrivers) in
  numTmc2660Drivers s = Nat.min n maxDrivers /\
  driversPowered s = false /\
  currentDriver s = None /\
  pins s !! enablePin = Some HIGH /\
  ((i < numTmc2660Drivers s)%nat ->
   (exists d,
      driverStates s !! i = Some d /\
      axisNumber d = Z.of_nat i /\
      enabled d = false /\
      registersToUpdate d = 31 /\
      forall p, sel !! i = Some p -> pin d = p /\ pins s !! p = Some HIGH) /\
   SmartDrivers.GetMicrostepping i s = (16, true) /\
   SmartDrivers.GetDriverMode i s = spreadCycle /\
   SmartDrivers.GetChopperControlRegister i s = 0x101B4 /\
   SmartDrivers.GetOffTime i s = 4 /\
   SmartDrivers.GetLiveStatus i s = 0 /\
   (exists r,
      SmartDrivers.AppendStallConfig clock i s = Some r /\
      rep_threshold r = 1 /\ rep_filtered r = false /\ rep_coolstep r = 0) /\
   fst (SmartDrivers.AppendDriverStatus i s) = [StatusOk; SgNotAvailable]).
Proof.
  intros s. subst s. unfold SmartDrivers.Init.
  match goal with
  | |- context [foldl ?f ?a (seq 0 ?k)] =>
      destruct (Init_fold (fun _ _ => True) clock sel k a)
        as (_ & _ & I3 & I4 & I5);
      [auto
      | fields; unfold boot; fields; rewrite length_replicate; lia
      | auto |];
      destruct (Init_fold_lookup clock sel k a) as (L1 & L2 & L3);
      [fields; unfold boot; fields; rewrite length_replicate; lia |];
      set (s := foldl f a (seq 0 k)) in *
  end.
  fields.
  split; [exact I3 |]. split; [exact I4 |]. split; [exact I5 |].
  split; [apply L3; unfold boot; fields; apply lookup_insert_eq |].
  intros Hi. rewrite I3 in Hi.
  assert (Hd : driverStates s !! i
               = Some (Driver.Init_object clock (Z.of_nat i)
                         (default 0 (sel !! i)) zeroDriver)).
  { rewrite L1. replace (i <? Nat.min n maxDrivers)%nat with true
      by (symmetry; apply Nat.ltb_lt; exact Hi).
    unfold boot. fields. rewrite lookup_replicate_2 by lia. reflexivity. }
  assert (Hr : SmartDrivers.in_range i s = true)
    by (apply Nat.ltb_lt; rewrite I3; exact Hi).
  unfold SmartDrivers.GetMicrostepping, SmartDrivers.GetDriverMode,
    SmartDrivers.GetChopperControlRegister, SmartDrivers.GetOffTime,
    SmartDrivers.GetLiveStatus, SmartDrivers.AppendStallConfig,
    SmartDrivers.AppendDriverStatus, SmartDrivers.read, SmartDrivers.call_ret.
  rewrite Hr, Hd.
  split.
  { eexists. split; [reflexivity |].
    split; [reflexivity |]. split; [reflexivity |]. split; [reflexivity |].
    intros p Hp. split; [rewrite Hp; reflexivity |].
    pose proof (L2 i Hi) as Hpin. rewrite Hp in Hpin. exact Hpin. }
  split; [reflexivity |]. split; [reflexivity |]. split; [reflexivity |].
  split; [reflexivity |]. split; [reflexivity |].
  split; [eexists; split; [reflexivity |]; repeat split |].
  reflexivity.
Qed.

(** ** The further properties on the sample configuration *)

Lemma driver_mode_roundtrip_witness :
  SmartDrivers.GetDriverMode 0
    (snd (SmartDrivers.SetDriverMode Sample.DriverMode_code 0 1
            Sample.started))
  = randomOffTime /\
  SmartDrivers.SetDriverMode Sample.DriverMode_code 0 7 Sample.started
  = (false, Sample.started).
Proof.
  destruct (driver_mode_roundtrip _ _ _ _ _ 0%nat started_reachable
              ltac:(vm_compute; lia)
              ltac:(vm_compute; discriminate)
              ltac:(vm_compute; discriminate)
              ltac:(vm_compute; discriminate))
    as [Hset Hrefuse].
  split.
  - exact (proj2 (Hset randomOffTime ltac:(discriminate))).
  - apply Hrefuse; vm_compute; discriminate.
Defined.

Lemma load_window_well_formed_witness :
  exists d,
    driverStates Sample.started !! 0%nat = Some d /\
    ((minSgLoadRegister d = 1023 /\ maxSgLoadRegister d = 0) \/
     (0 <= minSgLoadRegister d <= maxSgLoadRegister d /\
      maxSgLoadRegister d <= 1023)).
Proof.
  eexists. split; [vm_compute; reflexivity |].
  exact (load_window_well_formed _ _ _ _ _ 0%nat _ started_reachable
           ltac:(vm_compute; lia) ltac:(vm_compute; reflexivity)).
Defined.

Lemma microstepping_consistent_witness :
  exists d,
    driverStates Sample.started !! 1%nat = Some d /\
    0 <= microstepShiftFactor d <= 8 /\
    Z.land (reg (registers d) DriveControl) TMC_DRVCTRL_MRES_MASK
    = 8 - microstepShiftFactor d /\
    fst (SmartDrivers.GetMicrostepping 1 Sample.started)
    = 2 ^ microstepShiftFactor d /\
    fst (SmartDrivers.GetMicrostepping 1 Sample.started) ∈ valid_microsteps.
Proof.
  eexists. split; [vm_compute; reflexivity |].
  exact (microstepping_consistent _ _ _ _ _ 1%nat _ started_reachable
           ltac:(vm_compute; lia) ltac:(vm_compute; reflexivity)).
Defined.

Lemma shadow_registers_keep_their_address_witness :
  exists d,
    driverStates Sample.started !! 2%nat = Some d /\
    addressed TMC_REG_DRVCTRL (reg (registers d) DriveControl) /\
    addressed TMC_REG_SGCSCONF (reg (registers d) StallGuardConfig) /\
    addressed TMC_REG_CHOPCONF (reg (registers d) ChopperControl) /\
    reg (registers d) DriveConfig = defaultDrvConfReg /\
    addressed TMC_REG_DRVCONF defaultDrvConfReg.
Proof.
  eexists. split; [vm_compute; reflexivity |].
  exact (shadow_registers_keep_their_address _ _ _ _ _ 2%nat _
           started_reachable
           ltac:(vm_compute; lia) ltac:(vm_compute; reflexivity)).
Defined.

Lemma off_time_roundtrip_witness :
  SmartDrivers.GetOffTime 0 (snd (SmartDrivers.SetOffTime 0 9 Sample.started))
  = 9.
Proof.
  exact (proj1 (off_time_roundtrip 0%nat 9 Sample.started _
                  ltac:(vm_compute; lia) ltac:(vm_compute; reflexivity)
                  ltac:(vm_compute; split; [discriminate | reflexivity])
                  ltac:(vm_compute; reflexivity))).
Defined.

Lemma SetCurrent_encodes_scale_and_keeps_stall_config_witness :
  exists d',
    driverStates (SmartDrivers.SetCurrent 0 1000 Sample.started) !! 0%nat
    = Some d' /\
    Z.land (reg (registers d') StallGuardConfig) TMC_SGCSCONF_CS_MASK = 9.
Proof.
  destruct (SetCurrent_encodes_scale_and_keeps_stall_config
              Sample.StepClockRate 0%nat 1000 Sample.started _
              ltac:(vm_compute; lia) ltac:(vm_compute; reflexivity))
    as (_ & _ & d' & Hd' & Hcs).
  exists d'. split; [exact Hd' | exact Hcs].
Defined.

Lemma stall_filter_roundtrip_and_independence_witness :
  rep_filtered
    <$> SmartDrivers.AppendStallConfig Sample.StepClockRate 0
          (SmartDrivers.SetStallFilter 0 true Sample.started)
  = Some true /\
  rep_filtered
    <$> SmartDrivers.AppendStallConfig Sample.StepClockRate 0
          (SmartDrivers.SetStallThreshold 0 20 Sample.started)
  = rep_filtered
    <$> SmartDrivers.AppendStallConfig Sample.StepClockRate 0 Sample.started.
Proof.
  destruct (stall_filter_roundtrip_and_independence Sample.StepClockRate
              0%nat Sample.started _
              ltac:(vm_compute; lia) ltac:(vm_compute; reflexivity))
    as [Hf Ht].
  split; [exact (proj1 (Hf true)) | exact (proj1 (Ht 20))].
Defined.

Lemma cool_step_roundtrip_witness :
  rep_coolstep
    <$> SmartDrivers.AppendStallConfig Sample.StepClockRate 3
          (SmartDrivers.SetCoolStep 3 0x2142 Sample.started)
  = Some 0x2142.
Proof.
  exact (proj1 (cool_step_roundtrip Sample.StepClockRate 3%nat 0x2142
                  Sample.started _
                  ltac:(vm_compute; lia) ltac:(vm_compute; reflexivity)
                  ltac:(vm_compute; split; [discriminate | reflexivity]))).
Defined.

Lemma stall_minimum_step_rate_witness :
  exists d',
    driverStates
      (SmartDrivers.SetStallMinimumStepsPerSecond Sample.StepClockRate 0 0
         Sample.started) !! 0%nat = Some d' /\
    maxStallStepInterval d' = Sample.StepClockRate.
Proof.
  destruct (stall_minimum_step_rate Sample.StepClockRate 0%nat 0
              Sample.started _
              ltac:(vm_compute; lia) ltac:(vm_compute; reflexivity)
              ltac:(vm_compute; reflexivity))
    as (d' & Hd' & Hmax & _).
  exists d'. split; [exact Hd' | exact Hmax].
Defined.

Lemma out_of_range_index_is_ignored_witness :
  run Sample.StepClockRate Sample.DriverMode_code
      Sample.GlobalTmc2660EnablePin (OpEnableDrive 4 true) Sample.started
  = Sample.started /\
  SmartDrivers.GetMicrostepping 4 Sample.started = (1, false).
Proof.
  destruct (out_of_range_index_is_ignored Sample.StepClockRate
              Sample.DriverMode_code Sample.GlobalTmc2660EnablePin 4%nat
              Sample.started ltac:(vm_compute; lia))
    as (Hrun & _ & _ & _ & _ & _ & _ & Hget & _).
  split; [exact (Hrun (OpEnableDrive 4 true) eq_refl) | exact Hget].
Defined.

Lemma dirty_mask_drains_in_five_transfers_witness :
  exists d,
    driverStates Sample.started !! 1%nat = Some d /\
    registersToUpdate d = 31 /\
    driverStates (Nat.iter 5 (Driver.StartTransfer 1) Sample.started) !! 1%nat
    = Some (with_registersToUpdate 0 d).
Proof.
  eexists. split; [vm_compute; reflexivity |]. split; [reflexivity |].
  exact (proj1 (dirty_mask_drains_in_five_transfers 1%nat Sample.started _
                  ltac:(vm_compute; reflexivity)
                  ltac:(vm_compute; split; [discriminate | reflexivity]))).
Defined.

Lemma interrupt_polls_next_driver_witness :
  currentDriver
    (run Sample.StepClockRate Sample.DriverMode_code
         Sample.GlobalTmc2660EnablePin
         (OpInterrupt Sample.stall_reply (Sample.stepping 100))
         Sample.started)
  = Some 1%nat.
Proof.
  destruct (interrupt_polls_next_driver _ _ _ _ _ 0%nat Sample.stall_reply
              (Sample.stepping 100) started_reachable
              ltac:(vm_compute; reflexivity) ltac:(vm_compute; reflexivity))
    as (_ & _ & _ & Hcur & _).
  exact Hcur.
Defined.

Lemma power_up_resends_every_register_witness :
  exists d,
    driverStates (Sample.after []) !! 2%nat = Some d /\
    driverStates
      (SmartDrivers.Spin Sample.GlobalTmc2660EnablePin true (Sample.after []))
      !! 2%nat
    = Some (with_registersToUpdate 31 d) /\
    currentDriver
      (SmartDrivers.Spin Sample.GlobalTmc2660EnablePin true (Sample.after []))
    = Some 0%nat.
Proof.
  eexists. split; [vm_compute; reflexivity |].
  destruct (power_up_resends_every_register Sample.GlobalTmc2660EnablePin
              (Sample.after []) 2%nat _
              ltac:(vm_compute; reflexivity) ltac:(vm_compute; lia)
              ltac:(vm_compute; reflexivity))
    as (_ & _ & Hc & _ & _ & _ & Hd).
  split; [exact Hd | exact Hc].
Defined.
